(** * TRUCCO Analytics: the data pipeline of [dash_app.py] and [dashboard_dash.py]

    A shallow embedding of the spreadsheet loader, the sales preprocessor,
    the cost join and the aggregates, with the properties stated about them.

    Conventions of the embedding.
    - A cell of a table is a [value]: a missing marker, a number, a text, a
      boolean or a timestamp.  Numbers are rationals: order comparisons,
      differences and products are written without rounding; a sum is
      written out where it is exact in float64, and is the library's
      elsewhere.
    - Python text is a [string] of UTF-8 bytes; byte-wise comparison of
      UTF-8 agrees with Python's comparison by code point.  The text
      built-ins are written out for the characters below U+0100.
    - What pandas or Python do outside the part that is written out is a
      function of the class [Lib] or [Unicode], about which nothing is
      assumed but what the class states.
    - A raised exception is a [Raise] result; [try/except Exception] is a
      match on it.
    - Tables live in an object store; a Python variable holds a reference. *)

From Stdlib Require Import List String Ascii ZArith QArith Qabs Bool Arith Lia Lqa.
From Stdlib Require Import Sorting.Sorted Sorting.Permutation OrderedTypeEx.
Import ListNotations.
Open Scope string_scope.

(* ===================================================================== *)
(** * Python values, exceptions and built-ins                             *)
(* ===================================================================== *)

Module Py.

(** Exceptions.  [BaseOnly] stands for the classes that do not derive from
    [Exception] (KeyboardInterrupt, SystemExit); an [except Exception]
    clause lets them through. *)
Inductive exn : Type :=
| KeyError (key : string)
| TypeError (msg : string)
| ValueError (msg : string)
| OtherError (msg : string)
| BaseOnly (msg : string).

(** [isinstance(e, Exception)] *)
Definition is_Exception (e : exn) : bool :=
  match e with BaseOnly _ => false | _ => true end.

Inductive result (A : Type) : Type :=
| Ok (a : A)
| Raise (e : exn).
Arguments Ok {A} a.
Arguments Raise {A} e.

Definition bind {A B : Type} (r : result A) (k : A -> result B) : result B :=
  match r with Ok a => k a | Raise e => Raise e end.

Declare Scope py_scope.
Delimit Scope py_scope with py.
Notation "x <- c ;; k" := (bind c (fun x => k))
  (at level 61, c at next level, right associativity) : py_scope.
Notation "c ;;; k" := (bind c (fun _ => k))
  (at level 61, right associativity) : py_scope.

Fixpoint mapM {A B : Type} (f : A -> result B) (l : list A) : result (list B) :=
  match l with
  | [] => Ok []
  | a :: r => bind (f a) (fun b => bind (mapM f r) (fun bs => Ok (b :: bs)))
  end.

(** ** Text built-ins

    A Python text is a sequence of Unicode characters; here it is the
    [string] of its UTF-8 bytes.  The built-ins are written out for the
    texts whose characters all lie below U+0100 (ASCII and Latin-1): there
    the character tables are short.  On any other text they are the
    library's. *)
Class Unicode : Type := {
  unicode_isdigit : string -> bool;
  unicode_upper : string -> string;
  unicode_strip : string -> string;
  unicode_int : string -> result Z;
  unicode_repr : string -> string
}.

Definition code (c : ascii) : nat := nat_of_ascii c.

Definition in_range (lo hi cp : nat) : bool := (lo <=? cp)%nat && (cp <=? hi)%nat.

(** The characters of a text, when all are below U+0100: one byte below
    128, or the bytes C2 xx (U+0080..U+00BF) and C3 xx (U+00C0..U+00FF). *)
Fixpoint latin1 (s : string) : option (list nat) :=
  match s with
  | EmptyString => Some []
  | String c r =>
      if (code c <? 128)%nat then option_map (cons (code c)) (latin1 r)
      else
        match r with
        | String d r' =>
            if in_range 128 191 (code d) then
              if (code c =? 194)%nat then option_map (cons (code d)) (latin1 r')
              else if (code c =? 195)%nat
                   then option_map (cons (code d + 64)%nat) (latin1 r')
              else None
            else None
        | EmptyString => None
        end
  end.

(** The UTF-8 bytes of a character below U+0800. *)
Definition utf8 (cp : nat) : string :=
  if (cp <? 128)%nat then String (ascii_of_nat cp) EmptyString
  else String (ascii_of_nat (192 + cp / 64))
         (String (ascii_of_nat (128 + cp mod 64)) EmptyString).

(** The double quote. *)
Definition double_quote : string := String (ascii_of_nat 34) EmptyString.

Definition text_of (cps : list nat) : string :=
  fold_right (fun cp rest => utf8 cp ++ rest) EmptyString cps.


Section Text.
Context {U : Unicode}.

(** [s.isdigit()]: at least one character and every character a digit.
    Below U+0100 the digits are 0..9 and the superscripts two, three and
    one (U+00B2, U+00B3, U+00B9). *)
Definition is_decimal (cp : nat) : bool := in_range 48 57 cp.

Definition is_digit (cp : nat) : bool :=
  is_decimal cp || (cp =? 178)%nat || (cp =? 179)%nat || (cp =? 185)%nat.

Definition isdigit (s : string) : bool :=
  match latin1 s with
  | Some [] => false
  | Some cps => forallb is_digit cps
  | None => unicode_isdigit s
  end.

(** [int(s)] (arbitrary precision).  For a text of decimal digits, the
    digits give the number; for a text of digits with a superscript among
    them, which is no decimal digit, and for the empty text, [int] raises
    ValueError.  Every other text (signs, blanks, underscores and the
    like) is the library's. *)
Fixpoint int_from (acc : Z) (cps : list nat) : Z :=
  match cps with
  | [] => acc
  | c :: r => int_from (10 * acc + Z.of_nat (c - 48)) r
  end.

Definition int (s : string) : result Z :=
  match latin1 s with
  | Some [] => Raise (ValueError "invalid literal for int() with base 10: ''")
  | Some cps =>
      if forallb is_decimal cps then Ok (int_from 0 cps)
      else if forallb is_digit cps
      then Raise (ValueError ("invalid literal for int() with base 10: '" ++ s ++ "'"))
      else unicode_int s
  | None => unicode_int s
  end.

(** [s.upper()].  Below U+0100: the letters a..z; the letters U+00E0..U+00FE
    (the division sign U+00F7 apart), 32 places down; the sharp s (U+00DF),
    which becomes SS; the micro sign (U+00B5) and the y with diaeresis
    (U+00FF), whose capitals are U+039C and U+0178.  Every other character
    is kept. *)
Definition upper_cp (cp : nat) : list nat :=
  if in_range 97 122 cp then [cp - 32]%nat
  else if (cp =? 181)%nat then [924]%nat
  else if (cp =? 223)%nat then [83; 83]%nat
  else if in_range 224 254 cp && negb (cp =? 247)%nat then [cp - 32]%nat
  else if (cp =? 255)%nat then [376]%nat
  else [cp].

Definition upper (s : string) : string :=
  match latin1 s with
  | Some cps => text_of (flat_map upper_cp cps)
  | None => unicode_upper s
  end.

(** [s.strip()].  Below U+0100 the whitespace is 9..13, 28..32, U+0085 and
    U+00A0. *)
Definition is_space (cp : nat) : bool :=
  in_range 9 13 cp || in_range 28 32 cp || (cp =? 133)%nat || (cp =? 160)%nat.

Fixpoint lstrip (cps : list nat) : list nat :=
  match cps with
  | c :: r => if is_space c then lstrip r else cps
  | [] => []
  end.

Definition strip (s : string) : string :=
  match latin1 s with
  | Some cps => text_of (rev (lstrip (rev (lstrip cps))))
  | None => unicode_strip s
  end.

(** [repr(s)].  The text stands between single quotes, or between double
    quotes when it holds a single quote and no double quote; a backslash
    and the enclosing quote are escaped; below U+0100 the characters that
    are not printable (the controls, U+007F..U+00A0 and the soft hyphen
    U+00AD) are written as escapes. *)
Definition hex_digit (n : nat) : string :=
  String (ascii_of_nat (if (n <? 10)%nat then 48 + n else 87 + n)) EmptyString.

Definition repr_cp (quote cp : nat) : string :=
  if (cp =? 92)%nat then "\\"
  else if (cp =? quote)%nat then "\" ++ utf8 cp
  else if (cp =? 9)%nat then "\t"
  else if (cp =? 10)%nat then "\n"
  else if (cp =? 13)%nat then "\r"
  else if (cp <? 32)%nat || in_range 127 160 cp || (cp =? 173)%nat
       then "\x" ++ hex_digit (cp / 16) ++ hex_digit (cp mod 16)
  else utf8 cp.

Definition repr (s : string) : string :=
  match latin1 s with
  | Some cps =>
      let quote :=
        if existsb (Nat.eqb 39) cps && negb (existsb (Nat.eqb 34) cps)
        then 34%nat else 39%nat in
      utf8 quote ++ String.concat "" (map (repr_cp quote) cps) ++ utf8 quote
  | None => unicode_repr s
  end.

(** [repr(l)] of a list of texts. *)
Definition list_repr (l : list string) : string :=
  "[" ++ String.concat ", " (map repr l) ++ "]".

(** [str(e)]: a KeyError prints the [repr] of its argument, every other
    error its message. *)
Definition str_of_exn (e : exn) : string :=
  match e with
  | KeyError k => repr k
  | TypeError m | ValueError m | OtherError m | BaseOnly m => m
  end.

End Text.

(** [x in l] for a list of texts and [l.index(x)]. *)
Definition str_in (x : string) (l : list string) : bool :=
  existsb (String.eqb x) l.

Fixpoint index_of (x : string) (l : list string) : option Z :=
  match l with
  | [] => None
  | y :: r => if String.eqb x y then Some 0%Z
              else option_map Z.succ (index_of x r)
  end.

(** ** Tuples used as sort keys

    The second component of a key is an integer or a text.  Python compares
    tuples by the first position where they differ ([==]), and orders that
    position with [<]; an integer against a text raises TypeError. *)
Inductive obj : Type :=
| OInt (z : Z)
| OStr (s : string).

Definition obj_eqb (a b : obj) : bool :=
  match a, b with
  | OInt x, OInt y => (x =? y)%Z
  | OStr x, OStr y => String.eqb x y
  | _, _ => false
  end.

Definition obj_lt (a b : obj) : result bool :=
  match a, b with
  | OInt x, OInt y => Ok (x <? y)%Z
  | OStr x, OStr y => Ok (String.ltb x y)
  | OInt _, OStr _ => Raise (TypeError "'<' not supported between instances of 'int' and 'str'")
  | OStr _, OInt _ => Raise (TypeError "'<' not supported between instances of 'str' and 'int'")
  end.

Definition tuple_lt (a b : Z * obj) : result bool :=
  if (fst a =? fst b)%Z then
    if obj_eqb (snd a) (snd b) then Ok false else obj_lt (snd a) (snd b)
  else Ok (fst a <? fst b)%Z.

(** [sorted(l, key=f)].  The keys are computed first, one call of [f] per
    element, and an error of [f] is the error of [sorted].  Then the
    elements are sorted by their keys with the stable sort: an element is
    placed in front of the first element that is not smaller than it, so
    equal keys keep the order of the input; only [<] on keys is used, as
    by [list.sort]. *)
Section Sorted.
Context {A : Type}.

Fixpoint insert (x : (Z * obj) * A) (l : list ((Z * obj) * A))
  : result (list ((Z * obj) * A)) :=
  match l with
  | [] => Ok [x]
  | y :: r =>
      bind (tuple_lt (fst y) (fst x)) (fun y_first =>
      if y_first then bind (insert x r) (fun r' => Ok (y :: r'))
      else Ok (x :: y :: r))
  end.

Fixpoint sort_keyed (l : list ((Z * obj) * A)) : result (list ((Z * obj) * A)) :=
  match l with
  | [] => Ok []
  | x :: r => bind (sort_keyed r) (insert x)
  end.

Definition sorted (key : A -> result (Z * obj)) (l : list A) : result (list A) :=
  bind (mapM (fun x => bind (key x) (fun k => Ok (k, x))) l) (fun keyed =>
  bind (sort_keyed keyed) (fun s => Ok (map snd s))).
End Sorted.

End Py.

(* ===================================================================== *)
(** * The part of pandas the pipeline calls                               *)
(* ===================================================================== *)

Module Pandas.
Import Py.

(** A cell.  [NA] is the missing marker (NaN, None, NaT, pd.NA). *)
Inductive value : Type :=
| NA
| Num (q : Q)
| Str (s : string)
| Bool (b : bool)
| Timestamp (t : Z).

Inductive dtype : Type :=
| object        (* texts and mixed cells *)
| numeric       (* int64, float64, Int64, Float64 *)
| boolean
| datetime64
| category.

Record Series : Type := mkSeries { dtype_of : dtype; values : list value }.

(** A table: the length of its index and its named columns, in order. *)
Record DataFrame : Type := mkFrame { nrows : nat; columns : list (string * Series) }.

(** [pd.DataFrame()] *)
Definition empty_frame : DataFrame := mkFrame 0 [].

(** Library functions taken as they are: the text built-ins beyond
    U+00FF; the date parser of
    [pd.to_datetime(dayfirst=True, errors='coerce')] (it yields a timestamp
    or NaT per cell, and looks at the whole column to choose a format),
    the calendar fields of a timestamp, the number parser of
    [pd.to_numeric], the printing of numbers and timestamps by [str],
    what Python does with operands that are neither numbers nor missing
    (when it raises, the error derives from [Exception]), the sum of a
    column of float64 where
    rounding can occur, what [df[~s]] does with a column that is no column
    of booleans (when it raises, the error derives from [Exception]), the
    printing of an [Index], and the errors [merge] and [combine_first]
    raise: for two key
    columns of incompatible types, for suffixes that make two columns of
    the right table alike, for a label that stands for two columns, and for
    an argument that is no column. *)
Inductive binop : Type := Sub | Mul.

Class Lib : Type := {
  unicode :: Unicode;
  parse_dates : list value -> list (option Z);
  year_of : Z -> Z;
  month_of : Z -> Z;
  month_name : Z -> string;
  parse_number : string -> option Q;
  str_of_number : Q -> string;
  str_of_timestamp : Z -> string;
  object_binop : binop -> value -> value -> result value;
  object_binop_raises :
    forall op a b e, object_binop op a b = Raise e -> is_Exception e = true;
  object_sum : list value -> result value;
  object_sum_raises : forall l e, object_sum l = Raise e -> is_Exception e = true;
  float_sum : list value -> Q;
  other_mask : Series -> result (list bool);
  other_mask_raises : forall s e, other_mask s = Raise e -> is_Exception e = true;
  index_repr : list string -> string;
  merge_key_error : Series -> Series -> option string;
  merge_suffix_error : list string -> exn;
  duplicate_label_error : exn;
  scalar_combine_first_error : exn
}.

Definition Qltb (x y : Q) : bool := negb (Qle_bool y x).

Definition is_na (v : value) : bool :=
  match v with NA => true | _ => false end.

Definition dtype_eqb (a b : dtype) : bool :=
  match a, b with
  | object, object | numeric, numeric | boolean, boolean
  | datetime64, datetime64 | category, category => true
  | _, _ => false
  end.

(** ** Columns of a table *)

Definition names (df : DataFrame) : list string := map fst (columns df).

(** [c in df.columns] *)
Definition has_column (c : string) (df : DataFrame) : bool := str_in c (names df).

Fixpoint lookup (c : string) (cols : list (string * Series)) : option Series :=
  match cols with
  | [] => None
  | (n, s) :: r => if String.eqb c n then Some s else lookup c r
  end.

(** [df[c]]: KeyError when the column is absent. *)
Definition getitem (df : DataFrame) (c : string) : result Series :=
  match lookup c (columns df) with
  | Some s => Ok s
  | None => Raise (KeyError c)
  end.

(** [df[c] = s]: an existing column is replaced where it stands, a new one
    is appended. *)
Fixpoint assign (c : string) (s : Series) (cols : list (string * Series))
  : list (string * Series) :=
  match cols with
  | [] => [(c, s)]
  | (n, x) :: r => if String.eqb c n then (n, s) :: r else (n, x) :: assign c s r
  end.

Definition setitem (df : DataFrame) (c : string) (s : Series) : DataFrame :=
  mkFrame (nrows df) (assign c s (columns df)).

(** [df.drop(columns=[c])] of a column that exists. *)
Definition drop_column (c : string) (df : DataFrame) : DataFrame :=
  mkFrame (nrows df) (filter (fun p => negb (String.eqb c (fst p))) (columns df)).

(** [df.empty]: no row or no column. *)
Definition empty (df : DataFrame) : bool :=
  (nrows df =? 0)%nat || (List.length (columns df) =? 0)%nat.

(** ** Row selection *)

Fixpoint select {A : Type} (mask : list bool) (l : list A) : list A :=
  match mask, l with
  | m :: ms, x :: r => if m then x :: select ms r else select ms r
  | _, _ => []
  end.

Definition count_true (mask : list bool) : nat := List.length (filter (fun b => b) mask).

(** [df[mask]] *)
Definition take (mask : list bool) (df : DataFrame) : DataFrame :=
  mkFrame (count_true (firstn (nrows df) mask))
          (map (fun p => (fst p, mkSeries (dtype_of (snd p)) (select mask (values (snd p)))))
               (columns df)).

(** [df.iloc[rows]]: the rows at the given positions, in that order. *)
Definition take_rows (rows : list nat) (df : DataFrame) : DataFrame :=
  mkFrame (List.length rows)
          (map (fun p => (fst p, mkSeries (dtype_of (snd p))
                                   (map (fun i => nth i (values (snd p)) NA) rows)))
               (columns df)).

(** ** Element-wise operations *)

Section WithLib.
Context {L : Lib}.

Definition qop (op : binop) : Q -> Q -> Q :=
  match op with Sub => Qminus | Mul => Qmult end.

(** One cell against one cell: numbers compute, a missing operand gives a
    missing result, any other pair is left to Python. *)
Definition cell_binop (op : binop) (a b : value) : result value :=
  match a, b with
  | Num x, Num y => Ok (Num (qop op x y))
  | NA, NA | NA, Num _ | Num _, NA => Ok NA
  | _, _ => object_binop op a b
  end.

Fixpoint zipM (f : value -> value -> result value) (l1 l2 : list value)
  : result (list value) :=
  match l1, l2 with
  | a :: r1, b :: r2 =>
      bind (f a b) (fun c => bind (zipM f r1 r2) (fun cs => Ok (c :: cs)))
  | _, _ => Ok []
  end.

(** [a - b], [a * b] on two columns of one table, and [a * k]. *)
Definition series_binop (op : binop) (a b : Series) : result Series :=
  bind (zipM (cell_binop op) (values a) (values b)) (fun vs => Ok (mkSeries numeric vs)).

Definition series_scale (a : Series) (k : Q) : result Series :=
  bind (mapM (fun v => cell_binop Mul v (Num k)) (values a))
       (fun vs => Ok (mkSeries numeric vs)).

(** [s.sum()]: missing cells are skipped; a column that holds anything but
    numbers and missing cells is summed by Python's own [+].

    A column of numbers is an array of int64 or float64.  When its cells
    are whole numbers whose absolute values add up to at most 2^53, every
    partial sum is a whole number of at most that size, which both types
    hold exactly: the sum is the exact one, in whatever order it is taken.
    Any other sum is the library's, rounding included. *)
Definition is_number_or_na (v : value) : bool :=
  match v with NA | Num _ => true | _ => false end.

Definition is_whole (q : Q) : bool := (Qnum q mod Zpos (Qden q) =? 0)%Z.

Definition magnitude (l : list value) : Q :=
  fold_right (fun v acc => match v with Num q => Qabs.Qabs q + acc | _ => acc end) 0 l.

Definition exact_sum (l : list value) : bool :=
  forallb (fun v => match v with Num q => is_whole q | _ => true end) l
  && Qle_bool (magnitude l) (inject_Z (2 ^ 53)).

Definition add_numbers (l : list value) : Q :=
  fold_left (fun acc v => match v with Num q => acc + q | _ => acc end) l 0.

Definition sum_numbers (l : list value) : Q :=
  if exact_sum l then add_numbers l else float_sum l.

Definition sum (s : Series) : result value :=
  if forallb is_number_or_na (values s) then Ok (Num (sum_numbers (values s)))
  else object_sum (values s).

(** [abs(x)] of a scalar. *)
Definition abs (v : value) : result value :=
  match v with
  | Num q => Ok (Num (Qabs.Qabs q))
  | NA => Ok NA
  | Bool b => Ok (Num (if b then 1 else 0))
  | Str _ => Raise (TypeError "bad operand type for abs(): 'str'")
  | Timestamp _ => Raise (TypeError "bad operand type for abs(): 'Timestamp'")
  end.

(** [s < 0]: a missing cell compares false; a text or a timestamp against
    an integer raises. *)
Definition cell_lt0 (v : value) : result bool :=
  match v with
  | Num q => Ok (Qltb q 0)
  | NA => Ok false
  | Bool _ => Ok false
  | Str _ => Raise (TypeError "'<' not supported between instances of 'str' and 'int'")
  | Timestamp _ => Raise (TypeError "Invalid comparison between dtype=datetime64[ns] and int")
  end.

Definition lt0 (s : Series) : result (list bool) := mapM cell_lt0 (values s).

(** [s.isin(l)] for a list of texts. *)
Definition isin (s : Series) (l : list string) : Series :=
  mkSeries boolean
    (map (fun v => match v with Str x => Bool (str_in x l) | _ => Bool false end) (values s)).

(** [pd.to_datetime(s, dayfirst=True, errors='coerce')] and the [.dt] fields
    of the column it returns. *)
Definition of_parsed (o : option Z) : value :=
  match o with Some t => Timestamp t | None => NA end.

Definition to_datetime (s : Series) : Series :=
  mkSeries datetime64 (map of_parsed (parse_dates (values s))).

(** A column of timestamps parses to itself. *)
Definition parse_dates_idempotent : Prop :=
  forall l, parse_dates (map of_parsed (parse_dates l)) = parse_dates l.

Definition dt_field (f : Z -> value) (s : Series) (d : dtype) : Series :=
  mkSeries d (map (fun v => match v with Timestamp t => f t | _ => NA end) (values s)).

Definition dt_year (s : Series) : Series :=
  dt_field (fun t => Num (inject_Z (year_of t))) s numeric.
Definition dt_month (s : Series) : Series :=
  dt_field (fun t => Num (inject_Z (month_of t))) s numeric.
Definition dt_strftime_B (s : Series) : Series :=
  dt_field (fun t => Str (month_name t)) s object.

End WithLib.

(** ** [pd.cut]

    [pd.cut(x, bins, labels)] with the defaults [right=True],
    [include_lowest=False]: the position of a value is found by
    [bins.searchsorted(x, side='left')], the number of leading edges that
    are strictly below it; position 0 and position [len(bins)] are outside
    every interval and give a missing label; position [i] gives label
    [i-1].  An edge is a number or [float('inf')]. *)
Inductive edge : Type :=
| Fin (q : Q)
| Inf.

Definition edge_below (e : edge) (x : Q) : bool :=
  match e with Fin q => Qltb q x | Inf => false end.

Fixpoint searchsorted_left (bins : list edge) (x : Q) : nat :=
  match bins with
  | [] => 0
  | e :: r => if edge_below e x then S (searchsorted_left r x) else 0
  end.

Definition cut_number (bins : list edge) (labels : list string) (x : Q) : value :=
  let i := searchsorted_left bins x in
  if (i =? 0)%nat || (i =? List.length bins)%nat then NA
  else match nth_error labels (i - 1) with Some l => Str l | None => NA end.

(** A boolean column is first turned into integers; texts and timestamps
    cannot be compared with numeric edges. *)
Definition cut_cell (bins : list edge) (labels : list string) (v : value) : result value :=
  match v with
  | Num x => Ok (cut_number bins labels x)
  | NA => Ok NA
  | Bool b => Ok (cut_number bins labels (if b then 1 else 0))
  | Str _ => Raise (TypeError "'<' not supported between instances of 'int' and 'str'")
  | Timestamp _ => Raise (ValueError "bins must be of datetime64 dtype")
  end.

Definition cut (s : Series) (bins : list edge) (labels : list string) : result Series :=
  bind (mapM (cut_cell bins labels) (values s)) (fun vs => Ok (mkSeries category vs)).

(** ** Distinct values, [combine_first], grouping and [merge] *)

(** Equality of two cells as keys: numbers by value, texts by content, a
    missing key matches a missing key. *)
Definition value_eqb (a b : value) : bool :=
  match a, b with
  | NA, NA => true
  | Num x, Num y => Qeq_bool x y
  | Str x, Str y => String.eqb x y
  | Bool x, Bool y => Bool.eqb x y
  | Timestamp x, Timestamp y => (x =? y)%Z
  | _, _ => false
  end.

(** [s.nunique()]: the number of distinct values, missing cells apart. *)
Fixpoint distinct (l : list value) : list value :=
  match l with
  | [] => []
  | v :: r => if is_na v || existsb (value_eqb v) r then distinct r else v :: distinct r
  end.

Definition nunique (s : Series) : nat := List.length (distinct (values s)).

(** [a.combine_first(b)]: the cell of [a] unless it is missing. *)
Fixpoint combine (a b : list value) : list value :=
  match a, b with
  | x :: ra, y :: rb => (if is_na x then y else x) :: combine ra rb
  | _, _ => a
  end.

Definition combine_first (a b : Series) : Series :=
  mkSeries (dtype_of a) (combine (values a) (values b)).

(** The distinct texts of a list, in the order of their first occurrence. *)
Fixpoint unique (l : list string) : list string :=
  match l with
  | [] => []
  | x :: r => x :: filter (fun y => negb (String.eqb x y)) (unique r)
  end.

(** [sorted(l)] for a list of texts. *)
Fixpoint insert_text (x : string) (l : list string) : list string :=
  match l with
  | [] => [x]
  | y :: r => if String.ltb x y then x :: y :: r else y :: insert_text x r
  end.

Definition sort_texts (l : list string) : list string := fold_right insert_text [] l.

(** [left.merge(right, on=key, how='left', suffixes=('', suffix))].
    Every row of [left] is kept, in order; it is repeated once per row of
    [right] with the same key, and once with missing cells when there is
    none.  A column of [right] whose name is also a column of [left] gets
    the suffix; a name that then collides is refused. *)
Fixpoint positions (k : value) (keys : list value) (from : nat) : list nat :=
  match keys with
  | [] => []
  | v :: r => if value_eqb k v then from :: positions k r (S from)
              else positions k r (S from)
  end.

Fixpoint join_rows (lkeys rkeys : list value) (from : nat) : list (nat * option nat) :=
  match lkeys with
  | [] => []
  | k :: r =>
      match positions k rkeys 0 with
      | [] => [(from, None)]
      | js => map (fun j => (from, Some j)) js
      end ++ join_rows r rkeys (S from)
  end.

Definition right_cell (s : Series) (j : option nat) : value :=
  match j with Some j => nth j (values s) NA | None => NA end.

Section Merge.
Context {L : Lib}.

(** [df[[c1, c2, ...]]]: KeyError when a column is absent; the message
    lists the absent ones, or the whole key when all are absent. *)
Definition getitems (df : DataFrame) (cs : list string) : result DataFrame :=
  let missing := unique (filter (fun c => negb (has_column c df)) cs) in
  match missing with
  | [] =>
      (cols <- mapM (fun c => s <- getitem df c ;; Ok (c, s)) cs ;;
       Ok (mkFrame (nrows df) cols))%py
  | _ :: _ =>
      if forallb (fun c => negb (has_column c df)) cs
      then Raise (KeyError ("None of [" ++ index_repr cs ++ "] are in the [columns]"))
      else Raise (KeyError (list_repr missing ++ " not in index"))
  end.

(** The labels of the right table that the suffix has made equal to an
    earlier label of the right table, and that were not so before. *)
Fixpoint suffix_duplicates (before after seen_before seen_after : list string)
  : list string :=
  match before, after with
  | b :: rb, a :: ra =>
      (if str_in a seen_after && negb (str_in b seen_before) then [a] else [])
      ++ suffix_duplicates rb ra (b :: seen_before) (a :: seen_after)
  | _, _ => []
  end.

Definition merge_left (left right : DataFrame) (key suffix : string) : result DataFrame :=
  (lk <- getitem left key ;;
   rk <- getitem right key ;;
   match merge_key_error lk rk with
   | Some msg => Raise (ValueError msg)
   | None =>
       let rows := join_rows (values lk) (values rk) 0 in
       let lcols := columns (take_rows (map fst rows) left) in
       let others := filter (fun p => negb (String.eqb key (fst p))) (columns right) in
       let rcols :=
         map (fun p =>
                ((if has_column (fst p) left then fst p ++ suffix else fst p),
                 mkSeries (dtype_of (snd p)) (map (fun r => right_cell (snd p) (snd r)) rows)))
             others in
       match suffix_duplicates (map fst others) (map fst rcols) [] [] with
       | [] => Ok (mkFrame (List.length rows) (lcols ++ rcols))
       | dups => Raise (merge_suffix_error dups)
       end
   end)%py.

(** [df.groupby(by_col).agg({c: 'sum' for c in cols}).reset_index()] where
    [by_col] is a categorical column with the categories [cats]: one row per
    category, in the order of the categories (an empty group sums to 0).
    The columns of the dict that the table does not have are reported
    together, in sorted order. *)
Definition group_mask (g : Series) (cat : string) : list bool :=
  map (fun v => match v with Str s => String.eqb s cat | _ => false end) (values g).

Definition groupby_sum (df : DataFrame) (by_col : string) (cats cols : list string)
  : result DataFrame :=
  (k <- getitem df by_col ;;
   match sort_texts (filter (fun c => negb (has_column c df)) cols) with
   | [] => Ok tt
   | missing => Raise (KeyError ("Column(s) " ++ list_repr missing ++ " do not exist"))
   end ;;;
   sums <- mapM (fun c =>
             s <- getitem df c ;;
             vs <- mapM (fun cat =>
                     sum (mkSeries (dtype_of s) (select (group_mask k cat) (values s)))) cats ;;
             Ok (c, mkSeries numeric vs)) cols ;;
   Ok (mkFrame (List.length cats) ((by_col, mkSeries category (map Str cats)) :: sums)))%py.

End Merge.

End Pandas.

(* ===================================================================== *)
(** * The object store                                                    *)
(* ===================================================================== *)

Module Store.
Import Py Pandas.

(** A reference is the address of a table; [stdout] collects what [print]
    writes. *)
Definition ref : Type := nat.

Record world : Type := mkWorld { heap : list DataFrame; stdout : list string }.

Definition load (w : world) (r : ref) : DataFrame := nth r (heap w) empty_frame.

Fixpoint update (r : ref) (t : DataFrame) (h : list DataFrame) : list DataFrame :=
  match h, r with
  | [], _ => []
  | _ :: rest, O => t :: rest
  | x :: rest, S r' => x :: update r' t rest
  end.

(** An effectful computation: it may change the store and the output
    before it returns or raises. *)
Definition M (A : Type) : Type := world -> result A * world.

Definition ret {A : Type} (a : A) : M A := fun w => (Ok a, w).

Definition bindM {A B : Type} (m : M A) (k : A -> M B) : M B :=
  fun w => match m w with
           | (Ok a, w') => k a w'
           | (Raise e, w') => (Raise e, w')
           end.

(** [try: m except Exception as e: h(e)] *)
Definition try_except {A : Type} (m : M A) (h : exn -> M A) : M A :=
  fun w => match m w with
           | (Ok a, w') => (Ok a, w')
           | (Raise e, w') => if is_Exception e then h e w' else (Raise e, w')
           end.

Definition lift {A : Type} (r : result A) : M A := fun w => (r, w).

(** A new object holding [t] ([t.copy()], or the table a pandas call returns). *)
Definition new (t : DataFrame) : M ref :=
  fun w => (Ok (List.length (heap w)), mkWorld (heap w ++ [t]) (stdout w)).

Definition read (r : ref) : M DataFrame := fun w => (Ok (load w r), w).

(** In-place change of the object at [r]. *)
Definition write (r : ref) (t : DataFrame) : M unit :=
  fun w => (Ok tt, mkWorld (update r t (heap w)) (stdout w)).

Definition print (line : string) : M unit :=
  fun w => (Ok tt, mkWorld (heap w) (stdout w ++ [line])).

Declare Scope store_scope.
Delimit Scope store_scope with store.
Notation "x <~ c ;; k" := (bindM c (fun x => k))
  (at level 61, c at next level, right associativity) : store_scope.
Notation "c ;;; k" := (bindM c (fun _ => k))
  (at level 61, right associativity) : store_scope.

End Store.

(* ===================================================================== *)
(** * dashboard_dash.py                                                   *)
(* ===================================================================== *)

Module DashboardDash.
Import Py Pandas Store.

Definition TIENDAS_EXTRANJERAS : list string :=
  [ "I301COINBERGAMO(TRUCCO)"; "I302COINVARESE(TRUCCO)"; "I303COINBARICASAMASSIMA(TRUCCO)";
    "I304COINMILANO5GIORNATE(TRUCCO)"; "I305COINROMACINECITTA(TRUCCO)"; "I306COINGENOVA(TRUCCO)";
    "I309COINSASSARI(TRUCCO)"; "I314COINCATANIA(TRUCCO)"; "I315COINCAGLIARI(TRUCCO)";
    "I316COINLECCE(TRUCCO)"; "I317COINMILANOCANTORE(TRUCCO)"; "I318COINMESTRE(TRUCCO)";
    "I319COINPADOVA(TRUCCO)"; "I320COINFIRENZE(TRUCCO)"; "I321COINROMASANGIOVANNI(TRUCCO)";
    "TRUCCOONLINEB2C" ].

(** ** [custom_sort_key] *)

Definition size_order : list string := ["XS"; "S"; "M"; "L"; "XL"; "XXL"].

Definition unique_sizes : list string := ["U"; "ÚNICA"; "UNICA"; "TU"].

Definition custom_sort_key {U : Unicode} (talla : string) : result (Z * obj) :=
  let talla_str := strip (upper talla) in
  if isdigit talla_str then
    bind (int talla_str) (fun n => Ok (0%Z, OInt n))
  else match index_of talla_str size_order with
       | Some i => Ok (1%Z, OInt i)
       | None =>
           if str_in talla_str unique_sizes then Ok (2%Z, OStr talla_str)
           else Ok (3%Z, OStr talla_str)
       end.

(** ** What a builder returns *)

#[warnings="-register-all"]
Inductive component : Type :=
| Alert (message color : string)
| Card (header : string) (body : list component)
| P (text : string) (shown : list value)
| Graph (title : string) (data : DataFrame).

(** What a method or a callback hands to the page: a text, one component,
    or a list of components. *)
Inductive children : Type :=
| Text (s : string)
| One (c : component)
| Many (l : list component).

(** The four builders of the summary page ([create_monthly_sales_chart],
    [create_size_analysis_chart], [create_top_products_table],
    [create_store_performance_chart]) read the table they are given, group
    and sort tables of their own, and return a chart, a table or an alert.
    They are kept as functions of the table they read. *)
Class Charts : Type := {
  monthly_sales_chart : DataFrame -> component;
  size_analysis_chart : DataFrame -> component;
  top_products_table : DataFrame -> component;
  store_performance_chart : DataFrame -> component
}.

Section Methods.
Context {L : Lib} {C : Charts}.
Local Open Scope py_scope.

(** ** The body of [preprocess_ventas_data]'s [try] block

    The block works on [df = df_ventas.copy()], an object no one else
    holds, so its assignments are written as updates of a table value. *)

Fixpoint fix_dates (date_columns : list string) (df : DataFrame) : result DataFrame :=
  match date_columns with
  | [] => Ok df
  | col :: rest =>
      if has_column col df then
        s <- getitem df col ;;
        fix_dates rest (setitem df col (to_datetime s))
      else fix_dates rest df
  end.

Definition add_date_parts (df : DataFrame) : result DataFrame :=
  if has_column "Fecha Documento" df then
    f1 <- getitem df "Fecha Documento" ;;
    let df := setitem df "Año" (dt_year f1) in
    f2 <- getitem df "Fecha Documento" ;;
    let df := setitem df "Mes" (dt_month f2) in
    f3 <- getitem df "Fecha Documento" ;;
    Ok (setitem df "Mes_Nombre" (dt_strftime_B f3))
  else Ok df.

Definition add_es_online (df : DataFrame) : result DataFrame :=
  tienda <- getitem df "Tienda" ;;
  Ok (setitem df "Es_Online" (isin tienda TIENDAS_EXTRANJERAS)).

Definition add_beneficio (df : DataFrame) : result DataFrame :=
  if negb (has_column "Beneficio" df) then
    if forallb (fun col => has_column col df) ["P.V.P."; "Cantidad"; "Precio Coste"] then
      pvp <- getitem df "P.V.P." ;;
      coste <- getitem df "Precio Coste" ;;
      diff <- series_binop Sub pvp coste ;;
      cantidad <- getitem df "Cantidad" ;;
      beneficio <- series_binop Mul diff cantidad ;;
      Ok (setitem df "Beneficio" beneficio)
    else if forallb (fun col => has_column col df) ["P.V.P."; "Cantidad"] then
      pvp <- getitem df "P.V.P." ;;
      cantidad <- getitem df "Cantidad" ;;
      prod <- series_binop Mul pvp cantidad ;;
      beneficio <- series_scale prod (1 # 2) ;;
      Ok (setitem df "Beneficio" beneficio)
    else Ok df
  else Ok df.

Definition preprocess_ventas_body (df : DataFrame) : result DataFrame :=
  df <- fix_dates ["Fecha Documento"; "Fecha"] df ;;
  df <- add_date_parts df ;;
  df <- add_es_online df ;;
  add_beneficio df.

Definition preprocess_productos_body (df : DataFrame) : result DataFrame :=
  fix_dates ["Fecha Entrada Almacén"; "Fecha Documento"] df.

Definition preprocess_traspasos_body (df : DataFrame) : result DataFrame :=
  fix_dates ["Fecha Documento"; "Fecha Envío"] df.

(** ** The three preprocessors, on objects

    [if df.empty: return df] hands back the caller's object; otherwise the
    block runs on a copy, which is returned; when the block raises, the
    message is printed and the caller's object is handed back. *)
Local Open Scope store_scope.

Definition preprocess_with (what : string) (body : DataFrame -> result DataFrame)
    (df_in : ref) : M ref :=
  t <~ read df_in ;;
  if empty t then ret df_in
  else
    try_except
      (df <~ new t ;;
       t' <~ lift (body t) ;;
       write df t' ;;;
       ret df)
      (fun e =>
         print ("Error preprocessing " ++ what ++ " data: " ++ str_of_exn e) ;;;
         ret df_in).

Definition preprocess_ventas_data : ref -> M ref :=
  preprocess_with "sales" preprocess_ventas_body.
Definition preprocess_productos_data : ref -> M ref :=
  preprocess_with "products" preprocess_productos_body.
Definition preprocess_traspasos_data : ref -> M ref :=
  preprocess_with "transfers" preprocess_traspasos_body.

(** The table a preprocessor returns, as a function of the table it is
    given ([preprocess_with_table] below relates it to the method). *)
Definition preprocessed (body : DataFrame -> result DataFrame) (t : DataFrame) : DataFrame :=
  if empty t then t
  else match body t with
       | Ok t' => t'
       | Raise _ => t
       end.

Definition preprocess_ventas (t : DataFrame) : DataFrame :=
  preprocessed preprocess_ventas_body t.

(** ** [calculate_basic_kpis] and the summary page *)
Local Open Scope py_scope.

(** [df[~s]] and [df[s]] with a column of [df] as the key; in
    [calculate_basic_kpis] the second is reached only when the first
    returned.  A column of type bool selects rows.  In a column of objects
    [~] is applied cell by cell, and the first cell that is no boolean
    decides: when it is a text, [df[~s]] raises the TypeError of [~] on a
    text.  A column of objects without cells is no boolean indexer: pandas
    reads it as an empty list of column labels, and the result keeps the
    index and has no column.  What happens with any other column is the
    library's. *)
Fixpoint first_not_bool (l : list value) : option value :=
  match l with
  | [] => None
  | Bool _ :: r => first_not_bool r
  | v :: _ => Some v
  end.

Definition bools (l : list value) : list bool :=
  map (fun v => match v with Bool b => b | _ => false end) l.

Definition as_mask (s : Series) : result (list bool) :=
  match dtype_of s, first_not_bool (values s) with
  | boolean, None => Ok (bools (values s))
  | object, Some (Str _) => Raise (TypeError "bad operand type for unary ~: 'str'")
  | _, _ => other_mask s
  end.

Definition select_by (s : Series) (flip : bool) (df : DataFrame) : result DataFrame :=
  match dtype_of s, values s with
  | object, [] => Ok (mkFrame (nrows df) [])
  | _, _ => m <- as_mask s ;; Ok (take (if flip then map negb m else m) df)
  end.

Record kpis : Type := mkKpis {
  total_ventas_dinero : value;
  total_devoluciones_dinero : value;
  total_familias : nat;
  ventas_fisicas_dinero : value;
  ventas_online_dinero : value;
  tiendas_fisicas : nat;
  tiendas_online : nat
}.

Definition sum_of (col : string) (df : DataFrame) : result value :=
  s <- getitem df col ;; sum s.

Definition nunique_of (col : string) (df : DataFrame) : result nat :=
  s <- getitem df col ;; Ok (nunique s).

Definition calculate_basic_kpis (df_ventas : DataFrame) : result kpis :=
  total_ventas_dinero <-
    (if has_column "Beneficio" df_ventas then sum_of "Beneficio" df_ventas else Ok (Num 0)) ;;
  total_familias <-
    (if has_column "Familia" df_ventas then nunique_of "Familia" df_ventas else Ok 0%nat) ;;
  devoluciones <-
    (if has_column "Cantidad" df_ventas then
       c <- getitem df_ventas "Cantidad" ;;
       m <- lt0 c ;;
       Ok (take m df_ventas)
     else Ok empty_frame) ;;
  total_devoluciones_dinero <-
    (if negb (empty devoluciones) && has_column "Beneficio" devoluciones then
       s <- sum_of "Beneficio" devoluciones ;; abs s
     else Ok (Num 0)) ;;
  ventas_fisicas <-
    (if has_column "Es_Online" df_ventas then
       e <- getitem df_ventas "Es_Online" ;;
       select_by e true df_ventas
     else Ok df_ventas) ;;
  ventas_online <-
    (if has_column "Es_Online" df_ventas then
       e <- getitem df_ventas "Es_Online" ;;
       select_by e false df_ventas
     else Ok empty_frame) ;;
  ventas_fisicas_dinero <-
    (if has_column "Beneficio" ventas_fisicas then sum_of "Beneficio" ventas_fisicas
     else Ok (Num 0)) ;;
  ventas_online_dinero <-
    (if negb (empty ventas_online) && has_column "Beneficio" ventas_online
     then sum_of "Beneficio" ventas_online else Ok (Num 0)) ;;
  tiendas_fisicas <-
    (if has_column "Tienda" ventas_fisicas then nunique_of "Tienda" ventas_fisicas
     else Ok 0%nat) ;;
  tiendas_online <-
    (if negb (empty ventas_online) && has_column "Tienda" ventas_online
     then nunique_of "Tienda" ventas_online else Ok 0%nat) ;;
  Ok (mkKpis total_ventas_dinero total_devoluciones_dinero total_familias
             ventas_fisicas_dinero ventas_online_dinero tiendas_fisicas tiendas_online).

(** [f"{x:,.2f}"]: the format of a number; a text has no such format. *)
Definition money (v : value) : result value :=
  match v with
  | Str _ => Raise (ValueError "Unknown format code 'f' for object of type 'str'")
  | _ => Ok v
  end.

Definition count (n : nat) : value := Num (inject_Z (Z.of_nat n)).

(** [try: ... except Exception as e: ...] around a computation that only
    reads. *)
Definition catch {A : Type} (r : result A) (h : exn -> result A) : result A :=
  match r with
  | Ok a => Ok a
  | Raise e => if is_Exception e then h e else Raise e
  end.

Definition create_kpi_cards (df_ventas : DataFrame) : result (list component) :=
  catch
    (k <- calculate_basic_kpis df_ventas ;;
     a <- money (total_ventas_dinero k) ;;
     b <- money (total_devoluciones_dinero k) ;;
     c <- money (ventas_fisicas_dinero k) ;;
     d <- money (ventas_online_dinero k) ;;
     Ok [ Card "KPIs Generales"
            [ P "Total Ventas Netas" [a]; P "Total Devoluciones" [b];
              P "Número de Familias" [count (total_familias k)];
              P "Total Tiendas" [count (tiendas_fisicas k + tiendas_online k)] ];
          Card "KPIs por Tipo de Tienda"
            [ P "Ventas Tiendas Físicas" [c]; P "Ventas Online" [d];
              P "Tiendas Físicas / Online"
                [count (tiendas_fisicas k); count (tiendas_online k)] ] ])
    (fun e => Ok [Alert ("Error calculando KPIs: " ++ str_of_exn e) "danger"]).

(** ** The section builders, on objects *)
Local Open Scope store_scope.

Definition create_general_summary (df_ventas : ref) : M (list component) :=
  try_except
    (t <~ read df_ventas ;;
     kpi_cards <~ lift (create_kpi_cards t) ;;
     ret (kpi_cards ++
          [ Card "Análisis Mensual" [monthly_sales_chart t];
            Card "Top Productos" [top_products_table t];
            Card "Análisis por Tallas" [size_analysis_chart t];
            Card "Performance por Tienda" [store_performance_chart t] ])%list)
    (fun e => ret [Alert ("Error creando resumen general: " ++ str_of_exn e) "danger"]).

Definition create_descriptions_analysis (df_ventas : ref) : M (list component) :=
  ret [ Card "Análisis de Descripciones"
          [ P "Funcionalidad de análisis de descripciones en desarrollo." [];
            P "Esta sección incluirá análisis de texto de descripciones de productos." [] ] ].

Definition create_geographic_analysis (df_ventas : ref) : M (list component) :=
  t <~ read df_ventas ;;
  ret [Card "Análisis Geográfico y Tiendas" [store_performance_chart t]].

(** The returns card of [create_product_analysis]: the rows with
    [Cantidad < 0], how many they are and the absolute value of the sum of
    their quantities.  [None]: no card. *)
Definition returns_analysis (t : DataFrame) : result (option (DataFrame * nat * value)) :=
  (if has_column "Cantidad" t then
     c <- getitem t "Cantidad" ;;
     m <- lt0 c ;;
     let devoluciones := take m t in
     if negb (empty devoluciones) then
       dc <- getitem devoluciones "Cantidad" ;;
       s <- sum dc ;;
       a <- abs s ;;
       Ok (Some (devoluciones, nrows devoluciones, a))
     else Ok None
   else Ok None)%py.

Definition create_product_analysis (df_ventas : ref) : M (list component) :=
  t <~ read df_ventas ;;
  let components := [] in
  let components :=
    if has_column "Familia" t
    then (components ++
          [Card "Análisis de Productos y Rentabilidad" [top_products_table t]])%list
    else components in
  r <~ lift (returns_analysis t) ;;
  match r with
  | Some (_, n, qty) =>
      ret (components ++
           [ Card "Análisis de Devoluciones"
               [ P "Total devoluciones: {} registros" [count n];
                 P "Cantidad devuelta: {:,} unidades" [qty] ] ])%list
  | None => ret components
  end.

(** [create_pvp_analysis]: the column of price ranges is assigned into the
    table the method was given. *)
Definition price_bins : list edge := [Fin 0; Fin 10; Fin 25; Fin 50; Fin 100; Inf].

Definition price_labels : list string := ["0-10€"; "10-25€"; "25-50€"; "50-100€"; "100€+"].

Definition create_pvp_analysis (df_ventas : ref) : M (list component) :=
  try_except
    (t <~ read df_ventas ;;
     if negb (has_column "P.V.P." t)
     then ret [Alert "No hay datos de PVP disponibles" "warning"]
     else
       let fig := Graph "Distribución de Precios de Venta al Público" t in
       pvp <~ lift (getitem t "P.V.P.") ;;
       rango <~ lift (cut pvp price_bins price_labels) ;;
       write df_ventas (setitem t "Rango_Precio" rango) ;;;
       t <~ read df_ventas ;;
       precio_rango <~
         lift (groupby_sum t "Rango_Precio" price_labels ["Cantidad"; "Beneficio"]) ;;
       ret [ Card "Análisis de Precios PVP"
               [fig; Graph "Cantidad Vendida por Rango de Precio" precio_rango] ])
    (fun e => ret [Alert ("Error en análisis PVP: " ++ str_of_exn e) "danger"]).

(** ** [create_dashboard_content] *)

(** The cost join.  The merged table, the assignment into it and the table
    [drop] returns are this method's own until they are handed on. *)
(** When the sales table already has a column [Precio Coste_producto]
    beside its cost column, the merged table has two columns of that label:
    [merged[label]] is then a table, not a column, and what follows raises.
    [df_ventas.get('Precio Coste', 0)] is the column, or 0, which is no
    column. *)
Definition count_label (c : string) (df : DataFrame) : nat :=
  List.length (filter (String.eqb c) (names df)).

Definition merge_cost (df_ventas df_productos : DataFrame) : result DataFrame :=
  (if has_column "Código único" df_ventas && has_column "Código único" df_productos then
     right <- getitems df_productos ["Código único"; "Precio Coste"] ;;
     merged <- merge_left df_ventas right "Código único" "_producto" ;;
     if has_column "Precio Coste_producto" merged then
       joined <- (if (1 <? count_label "Precio Coste_producto" merged)%nat
                  then Raise duplicate_label_error
                  else getitem merged "Precio Coste_producto") ;;
       own <- match lookup "Precio Coste" (columns merged) with
              | Some s => Ok s
              | None => Raise scalar_combine_first_error
              end ;;
       let merged := setitem merged "Precio Coste" (combine_first joined own) in
       Ok (drop_column "Precio Coste_producto" merged)
     else Ok merged
   else Ok df_ventas)%py.

(** The end of [create_dashboard_content]: the builder of the section, which
    returns a list, or one alert for a section that has none. *)
Definition section_content (seccion : string) (df_ventas : ref) : M children :=
  if String.eqb seccion "resumen"
  then (l <~ create_general_summary df_ventas ;; ret (Many l))
  else if String.eqb seccion "descripciones"
  then (l <~ create_descriptions_analysis df_ventas ;; ret (Many l))
  else if String.eqb seccion "geografico"
  then (l <~ create_geographic_analysis df_ventas ;; ret (Many l))
  else if String.eqb seccion "producto"
  then (l <~ create_product_analysis df_ventas ;; ret (Many l))
  else if String.eqb seccion "pvp"
  then (l <~ create_pvp_analysis df_ventas ;; ret (Many l))
  else ret (One (Alert "Sección no implementada" "info")).

Definition create_dashboard_content (df_productos df_traspasos df_ventas : ref)
    (seccion : string) : M children :=
  df_ventas <~ preprocess_ventas_data df_ventas ;;
  df_productos <~ preprocess_productos_data df_productos ;;
  df_traspasos <~ preprocess_traspasos_data df_traspasos ;;
  v <~ read df_ventas ;;
  p <~ read df_productos ;;
  df_ventas <~
    (if has_column "Código único" v && has_column "Código único" p
     then (joined <~ lift (merge_cost v p) ;; new joined)
     else ret df_ventas) ;;
  section_content seccion df_ventas.

(** The sales table that reaches the section builders. *)
Definition dashboard_ventas (ventas productos : DataFrame) : result DataFrame :=
  merge_cost (preprocess_ventas ventas) (preprocessed preprocess_productos_body productos).

End Methods.

End DashboardDash.

(* ===================================================================== *)
(** * dash_app.py: the loader                                             *)
(* ===================================================================== *)

Module DashApp.
Import Py Pandas Store.

(** The declared type of a column in a [dtype=] argument. *)
Inductive declared : Type := as_str | as_Int64 | as_Float64.

(** What the loader calls to decode and parse the upload:
    [base64.b64decode], [pd.ExcelFile(io.BytesIO(...), engine="openpyxl")]
    and [pd.read_excel(xls, sheet_name, dtype, na_values=['', 'nan',
    'NaN'], keep_default_na=False)].  Each returns or raises. *)
Class Excel : Type := {
  workbook : Type;
  b64decode : string -> result string;
  ExcelFile : string -> result workbook;
  read_excel : workbook -> string -> list (string * declared) -> result DataFrame
}.

(** [s.split(',')] *)
Fixpoint split_comma (s : string) : list string :=
  match s with
  | EmptyString => [EmptyString]
  | String c r =>
      match split_comma r with
      | p :: ps => if Ascii.eqb c "," then EmptyString :: p :: ps else String c p :: ps
      | [] => [String c EmptyString]
      end
  end.

(** [a, b = l] *)
Definition unpack2 (l : list string) : result (string * string) :=
  match l with
  | [a; b] => Ok (a, b)
  | _ :: _ :: _ :: _ => Raise (ValueError "too many values to unpack (expected 2)")
  | [_] => Raise (ValueError "not enough values to unpack (expected 2, got 1)")
  | [] => Raise (ValueError "not enough values to unpack (expected 2, got 0)")
  end.

Section Loader.
Context {L : Lib} {X : Excel}.
Local Open Scope py_scope.

(** [pd.to_numeric(s, errors='coerce')], cell by cell: a number stays, a
    text is parsed, a boolean counts as 0 or 1, whatever does not parse is
    missing. *)
Definition to_numeric_cell (v : value) : value :=
  match v with
  | NA => NA
  | Num q => Num q
  | Str s => match parse_number s with Some q => Num q | None => NA end
  | Bool b => Num (if b then 1 else 0)
  | Timestamp _ => NA
  end.

Definition to_numeric (s : Series) : Series :=
  mkSeries numeric (map to_numeric_cell (values s)).

(** [s.notna().sum()] *)
Definition notna_count (s : Series) : nat :=
  List.length (filter (fun v => negb (is_na v)) (values s)).

(** [s.astype(str).replace('nan', '')]: every cell is printed; a cell that
    prints as [nan], which is how a missing cell prints, becomes the empty
    text. *)
Definition py_str (v : value) : string :=
  match v with
  | NA => "nan"
  | Num q => str_of_number q
  | Str s => s
  | Bool b => if b then "True" else "False"
  | Timestamp t => str_of_timestamp t
  end.

Definition as_text_cell (v : value) : value :=
  let s := py_str v in
  if String.eqb s "nan" then Str "" else Str s.

Definition as_text (s : Series) : Series :=
  mkSeries object (map as_text_cell (values s)).

(** The test [numeric_count > len(df) * 0.8].  The product is a double;
    for a sheet (fewer than 2^50 rows) the comparison has the same outcome
    as the exact [5 * numeric_count > 4 * len(df)]: the double 0.8 lies
    above 4/5 by less than 2^-53, and a product 4n/5 that is not an
    integer is at least 1/5 away from every integer. *)
Definition mostly_numeric (numeric_count len_df : nat) : bool :=
  (4 * len_df <? 5 * numeric_count)%nat.

(** The body of [for col in df.columns] for one column. *)
Definition infer_column (len_df : nat) (s : Series) : Series :=
  if dtype_eqb (dtype_of s) object then
    let numeric_count := notna_count (to_numeric s) in
    if mostly_numeric numeric_count len_df then to_numeric s
    else as_text s
  else s.

Definition infer_types (df : DataFrame) : DataFrame :=
  mkFrame (nrows df) (map (fun p => (fst p, infer_column (nrows df) (snd p))) (columns df)).

(** [df.dropna(how='all', inplace=True)] and
    [df.dropna(axis=1, how='all', inplace=True)] *)
Definition row_has_data (df : DataFrame) (i : nat) : bool :=
  existsb (fun p => negb (is_na (nth i (values (snd p)) NA))) (columns df).

Definition dropna_rows (df : DataFrame) : DataFrame :=
  take (map (row_has_data df) (seq 0 (nrows df))) df.

Definition dropna_columns (df : DataFrame) : DataFrame :=
  mkFrame (nrows df)
          (filter (fun p => existsb (fun v => negb (is_na v)) (values (snd p))) (columns df)).

Definition clean (df : DataFrame) : DataFrame :=
  dropna_columns (dropna_rows (infer_types df)).

(** The [try] block of [load_excel_data]. *)
Definition load_excel_body (contents : string)
  : result (DataFrame * DataFrame * DataFrame) :=
  parts <- unpack2 (split_comma contents) ;;
  let content_string := snd parts in
  decoded <- b64decode content_string ;;
  xls <- ExcelFile decoded ;;
  df_productos <-
    read_excel xls "Compra"
      [("ACT", as_str); ("Cantidad Pedida", as_Int64); ("P.V.P.", as_Float64)] ;;
  df_traspasos <-
    read_excel xls "Traspasos de almacén a tienda"
      [("ACT", as_str); ("Enviado", as_Int64)] ;;
  df_ventas <-
    read_excel xls "ventas 23 24 25"
      [("ACT", as_str); ("Cantidad", as_Int64); ("P.V.P.", as_Float64);
       ("Subtotal", as_Float64)] ;;
  Ok (clean df_productos, clean df_traspasos, clean df_ventas).

Local Open Scope store_scope.

Definition load_excel_data (contents filename : string)
  : M (DataFrame * DataFrame * DataFrame) :=
  try_except
    (lift (load_excel_body contents))
    (fun e =>
       print ("Error loading Excel file: " ++ str_of_exn e) ;;;
       ret (empty_frame, empty_frame, empty_frame)).

End Loader.

End DashApp.

(* ===================================================================== *)
(** * A concrete library, for running the model                           *)
(* ===================================================================== *)

Module Sample.
Import Py Pandas Store DashboardDash DashApp.

(** Timestamps are written [yyyymmdd]; a text of digits parses as a date
    and as a number; nothing else does. *)
Definition sample_unicode : Unicode := {|
  unicode_isdigit := fun _ => false;
  unicode_upper := fun s => s;
  unicode_strip := fun s => s;
  unicode_int := fun s =>
    Raise (ValueError ("invalid literal for int() with base 10: '" ++ s ++ "'"));
  unicode_repr := fun s => "'" ++ s ++ "'"
|}.

(** The number a text of decimal digits stands for. *)
Definition digits (s : string) : option Z :=
  match latin1 s with
  | Some (c :: r) => if forallb is_decimal (c :: r) then Some (int_from 0 (c :: r)) else None
  | _ => None
  end.

Definition sample_dates (l : list value) : list (option Z) :=
  map (fun v => match v with
                | Timestamp t => Some t
                | Str s => digits s
                | _ => None
                end) l.

Definition sample_month_name (t : Z) : string :=
  nth (Z.to_nat ((t / 100) mod 100))
      [""; "January"; "February"; "March"; "April"; "May"; "June"; "July";
       "August"; "September"; "October"; "November"; "December"] "".

Definition sample_lib : Lib := {|
  unicode := sample_unicode;
  parse_dates := sample_dates;
  year_of := fun t => (t / 10000)%Z;
  month_of := fun t => ((t / 100) mod 100)%Z;
  month_name := sample_month_name;
  parse_number := fun s => option_map inject_Z (digits s);
  str_of_number := fun _ => "0.0";
  str_of_timestamp := fun _ => "1970-01-01 00:00:00";
  object_binop := fun _ _ _ => Raise (TypeError "unsupported operand type(s)");
  object_binop_raises := fun _ _ _ e H =>
    match H in (_ = r)
          return (match r with Raise e' => is_Exception e' = true | Ok _ => True end)
    with eq_refl => eq_refl end;
  object_sum := fun _ => Raise (TypeError "unsupported operand type(s) for +");
  object_sum_raises := fun _ e H =>
    match H in (_ = r)
          return (match r with Raise e' => is_Exception e' = true | Ok _ => True end)
    with eq_refl => eq_refl end;
  float_sum := add_numbers;
  other_mask := fun _ => Raise (TypeError "bad operand type for unary ~");
  other_mask_raises := fun _ e H =>
    match H in (_ = r)
          return (match r with Raise e' => is_Exception e' = true | Ok _ => True end)
    with eq_refl => eq_refl end;
  index_repr := fun l => "Index(" ++ list_repr (U := sample_unicode) l ++ ", dtype='object')";
  merge_key_error := fun _ _ => None;
  merge_suffix_error := fun _ => OtherError "Passing 'suffixes' which cause duplicate columns";
  duplicate_label_error := OtherError "two columns of one label";
  scalar_combine_first_error := OtherError "no column"
|}.

Definition sample_charts : Charts := {|
  monthly_sales_chart := Graph "Ventas Mensuales por Tipo de Tienda";
  size_analysis_chart := Graph "Análisis por Tallas (Top 20)";
  top_products_table := Graph "Top Productos";
  store_performance_chart := Graph "Top 15 Tiendas por Beneficio"
|}.

(** A workbook is the list of its sheets; the decoded upload is taken to be
    a workbook when it is the text [xlsx]. *)
Definition sample_excel (sheets : list (string * DataFrame)) : Excel := {|
  workbook := list (string * DataFrame);
  b64decode := fun s => Ok s;
  ExcelFile := fun s =>
    if String.eqb s "xlsx" then Ok sheets
    else Raise (OtherError "File is not a zip file");
  read_excel := fun wb sheet _ =>
    match find (fun p => String.eqb sheet (fst p)) wb with
    | Some p => Ok (snd p)
    | None => Raise (ValueError ("Worksheet named '" ++ sheet ++ "' not found"))
    end
|}.

Definition floats (l : list Q) : Series := mkSeries numeric (map Num l).
Definition texts (l : list string) : Series := mkSeries object (map Str l).

End Sample.

(* ===================================================================== *)
(** * The statements of the specification, as definitions                 *)
(* ===================================================================== *)

Module Spec.
Import Py Pandas Store DashboardDash DashApp.

(** The four tiers of the size comparator: numeric sizes, the letter
    sequence, the one-size labels, everything else. *)
Section Sizes.
Context {U : Unicode}.





End Sizes.

End Spec.

(** The type-inference rule in the words of the specification: the share
    is taken among the non-missing cells, and 80% is enough. *)
Module SpecLoader.
Import Py Pandas Store DashboardDash DashApp.

Section WithLib.
Context {L : Lib}.



End WithLib.

(** The ways parsing an upload fails: the upload is not of the form
    [header,payload]; the payload is not base64; the bytes are not a
    workbook; one of the three sheets cannot be read. *)
Inductive parse_error {X : Excel} (contents : string) : exn -> Prop :=
| bad_upload e :
    unpack2 (split_comma contents) = Raise e -> parse_error contents e
| bad_base64 h payload e :
    unpack2 (split_comma contents) = Ok (h, payload) ->
    b64decode payload = Raise e -> parse_error contents e
| corrupt_file h payload bytes e :
    unpack2 (split_comma contents) = Ok (h, payload) ->
    b64decode payload = Ok bytes ->
    ExcelFile bytes = Raise e -> parse_error contents e
| bad_sheet h payload bytes xls sheet dtypes e :
    unpack2 (split_comma contents) = Ok (h, payload) ->
    b64decode payload = Ok bytes ->
    ExcelFile bytes = Ok xls ->
    In (sheet, dtypes)
       [ ("Compra",
          [("ACT", as_str); ("Cantidad Pedida", as_Int64); ("P.V.P.", as_Float64)]);
         ("Traspasos de almacén a tienda", [("ACT", as_str); ("Enviado", as_Int64)]);
         ("ventas 23 24 25",
          [("ACT", as_str); ("Cantidad", as_Int64); ("P.V.P.", as_Float64);
           ("Subtotal", as_Float64)]) ] ->
    read_excel xls sheet dtypes = Raise e -> parse_error contents e.

End SpecLoader.

Module SampleData.
Import Py Pandas Store DashboardDash DashApp Sample.

(** A workbook in which only the sales sheet exists. *)
Definition only_sales : Excel :=
  sample_excel [("ventas 23 24 25", mkFrame 1 [("Cantidad", floats [1])])].

Definition upload : string := "data:application/vnd.ms-excel;base64,xlsx".

Definition corrupt_upload : string := "data:application/vnd.ms-excel;base64,AAAA".

Definition no_world : world := mkWorld [] [].

End SampleData.

Module SampleTables.
Import Py Pandas Store DashboardDash DashApp Sample.

(** Two sales lines of one store, with cost prices. *)
Definition ventas : DataFrame :=
  mkFrame 2
    [ ("Tienda", texts ["TRUCCOONLINEB2C"; "MADRID"]);
      ("Código único", texts ["A1"; "B2"]);
      ("Fecha Documento", texts ["20240115"; "sin fecha"]);
      ("P.V.P.", floats [10; 40]);
      ("Precio Coste", floats [4; 15]);
      ("Cantidad", floats [2; -1]) ].

(** The same lines without the cost column. *)
Definition ventas_sin_coste : DataFrame := drop_column "Precio Coste" ventas.

(** The same lines without the store column. *)
Definition ventas_sin_tienda : DataFrame := drop_column "Tienda" ventas.

(** A sales table with its columns and no row. *)
Definition ventas_sin_filas : DataFrame :=
  mkFrame 0 [ ("Tienda", texts []); ("P.V.P.", floats []); ("Cantidad", floats []) ].

(** The products sheet gives other costs for the same codes. *)
Definition productos : DataFrame :=
  mkFrame 2
    [ ("Código único", texts ["A1"; "B2"]);
      ("Precio Coste", floats [7; 20]) ].

(** What reaches the section builders for [ventas] and [productos]: the
    products costs 7 and 20 stand in the cost column, the margins are
    still (10 - 4) * 2 and (40 - 15) * -1. *)
Definition ventas_tras_cruce : DataFrame :=
  mkFrame 2
    [ ("Tienda", texts ["TRUCCOONLINEB2C"; "MADRID"]);
      ("Código único", texts ["A1"; "B2"]);
      ("Fecha Documento", mkSeries datetime64 [Timestamp 20240115; NA]);
      ("P.V.P.", floats [10; 40]);
      ("Precio Coste", floats [7; 20]);
      ("Cantidad", floats [2; -1]);
      ("Año", mkSeries numeric [Num 2024; NA]);
      ("Mes", mkSeries numeric [Num 1; NA]);
      ("Mes_Nombre", mkSeries object [Str "January"; NA]);
      ("Es_Online", mkSeries boolean [Bool true; Bool false]);
      ("Beneficio", mkSeries numeric [Num 12; Num (-25)]) ].

(** Quantities 10, -3, 7, -5 with their margins. *)
Definition ventas_devoluciones : DataFrame :=
  mkFrame 4
    [ ("Cantidad", floats [10; -3; 7; -5]);
      ("Beneficio", floats [50; -15; 35; -25]) ].

(** One line at a list price of exactly 10. *)
Definition ventas_pvp_10 : DataFrame :=
  mkFrame 1
    [ ("P.V.P.", floats [10]); ("Cantidad", floats [3]); ("Beneficio", floats [15]) ].

End SampleTables.

(** The margin of one row, in the words of the specification; a missing
    operand gives a missing margin. *)
Module SpecMargin.
Import Py Pandas Store DashboardDash DashApp.

Definition fallback_margin (pvp cantidad : value) : value :=
  match pvp, cantidad with
  | Num p, Num q => Num (p * q * (1 # 2))
  | _, _ => NA
  end.

Definition cost_margin (pvp coste cantidad : value) : value :=
  match pvp, coste, cantidad with
  | Num p, Num c, Num q => Num ((p - c) * q)
  | _, _, _ => NA
  end.

(** An operation on two cells that are numbers or missing. *)
Definition numeric_binop (op : binop) (a b : value) : value :=
  match a, b with
  | Num x, Num y => Num (qop op x y)
  | _, _ => NA
  end.

(** Every cell is a number or missing. *)
Definition numeric_cells (s : Series) : Prop :=
  forallb is_number_or_na (values s) = true.

(** Row [i] of a column, or [None] past its end. *)
Definition row (s : Series) (i : nat) : option value := nth_error (values s) i.

End SpecMargin.

(** The margin column after the cost join, given the preprocessed sales
    table and the products table: when both have the product code, each
    row of the result carries the margin of the sales row it comes from;
    otherwise there is no join. *)
Module SpecJoin.
Import Py Pandas Store DashboardDash DashApp.

Definition margin_after_join (v p : DataFrame) : option Series :=
  match lookup "Código único" (columns v), lookup "Código único" (columns p) with
  | Some lk, Some rk =>
      lookup "Beneficio"
        (columns (take_rows (map fst (join_rows (values lk) (values rk) 0)) v))
  | _, _ => lookup "Beneficio" (columns v)
  end.

End SpecJoin.

(* ===================================================================== *)
(** * dash_app.py: the callbacks                                          *)
(* ===================================================================== *)

Module Callbacks.
Import Py Pandas Store DashboardDash DashApp.

(** ** Login *)

(** Python truth of [n_clicks] (None or a number) and of an input value
    (None or a text). *)
Definition clicked (n_clicks : option Z) : bool :=
  match n_clicks with Some n => negb (n =? 0)%Z | None => false end.

Definition filled (text : option string) : bool :=
  match text with Some s => negb (String.eqb s "") | None => false end.

(** The session store holds nothing or [{"logged_in": b}]. *)
Definition handle_login (n_clicks : option Z) (username password : option string)
  : bool * children :=
  if clicked n_clicks && filled username && filled password then (true, Text "")
  else if clicked n_clicks then
    (false, One (Alert "Por favor, introduce usuario y contraseña" "warning"))
  else (false, Text "").

Inductive page : Type := dashboard_layout | login_layout.

Definition display_page (session_data : option bool) : page :=
  match session_data with
  | Some true => dashboard_layout
  | _ => login_layout
  end.

(** ** The data store

    [to_dict('records')], the JSON of [dcc.Store] and [pd.DataFrame(records)]
    are taken as they are; [no_records] is Python's test of an empty list.
    [prediction_interface] is what [create_prediction_interface] builds from
    the files on disk. *)
Class App : Type := {
  records : Type;
  to_records : DataFrame -> records;
  of_records : records -> DataFrame;
  no_records : records -> bool;
  prediction_interface : component
}.

Record stored {A : App} : Type := mkStored {
  productos : records;
  traspasos : records;
  ventas : records;
  filename : string
}.
Arguments mkStored {A}.

Section WithApp.
Context {L : Lib} {C : Charts} {X : Excel} {A : App}.
Local Open Scope store_scope.

(** [handle_file_upload]: [None] stands for the empty dict. *)
Definition handle_file_upload (contents : option string) (name : string)
  : M (option stored * children) :=
  match contents with
  | Some c =>
      try_except
        (r <~ load_excel_data c name ;;
         let '(df_productos, df_traspasos, df_ventas) := r in
         ret (Some (mkStored (to_records df_productos) (to_records df_traspasos)
                             (to_records df_ventas) name),
              One (Alert ("Archivo " ++ name ++ " cargado correctamente") "success")))
        (fun e => ret (None, One (Alert ("Error al cargar archivo: " ++ str_of_exn e) "danger")))
  | None => ret (None, Text "")
  end.

(** [toggle_components_visibility]: the three containers are shown for the
    analysis page and hidden otherwise. *)
Definition toggle_components_visibility (nav_value : string) : bool * bool * bool :=
  if String.eqb nav_value "analisis" then (true, true, true) else (false, false, false).

(** [df[df[col] == x]] when a filter is set and the column exists. *)
Definition eq_text (x : string) (v : value) : bool :=
  match v with Str s => String.eqb s x | _ => false end.

Definition apply_filter (col x : string) (df : DataFrame) : DataFrame :=
  if negb (String.eqb x "all") && has_column col df then
    match lookup col (columns df) with
    | Some s => take (map (eq_text x) (values s)) df
    | None => df
    end
  else df.

(** [update_main_content].  The filtered tables are this callback's own
    until it hands them to [create_dashboard_content]. *)
Definition update_main_content (nav_value : string) (data : option stored)
    (section season_filter family_filter : string) : M children :=
  if String.eqb nav_value "prediccion" then ret (One prediction_interface)
  else
    match data with
    | None => ret (One (Alert "Sube el archivo Excel para comenzar el análisis." "info"))
    | Some d =>
        if no_records (ventas d)
        then ret (One (Alert "Sube el archivo Excel para comenzar el análisis." "info"))
        else
          let df_productos := of_records (productos d) in
          let df_traspasos := of_records (traspasos d) in
          let df_ventas := of_records (ventas d) in
          let df_ventas := apply_filter "Temporada" season_filter df_ventas in
          let df_ventas := apply_filter "Descripción Familia" family_filter df_ventas in
          if empty df_ventas
          then ret (One (Alert "No hay datos para mostrar con los filtros seleccionados."
                               "warning"))
          else
            p <~ new df_productos ;;
            t <~ new df_traspasos ;;
            v <~ new df_ventas ;;
            create_dashboard_content p t v section
    end.

End WithApp.

End Callbacks.

Module SampleExtra.
Import Py Pandas Store DashboardDash DashApp Callbacks Sample.

(** A products sheet with the codes and no cost column. *)
Definition productos_sin_coste : DataFrame :=
  mkFrame 2 [ ("Código único", texts ["A1"; "B2"]) ].

(** A sales table whose quantity column holds a text. *)
Definition ventas_cantidad_texto : DataFrame :=
  mkFrame 2 [ ("Cantidad", mkSeries object [Num 3; Str "dos"]) ].

(** A sales table with prices and margins and no quantity column. *)
Definition ventas_sin_cantidad : DataFrame :=
  mkFrame 1 [ ("P.V.P.", floats [10]); ("Beneficio", floats [15]) ].

(** Preprocessed sales tables without rows: the online flag of type bool,
    and of type object as in a table built from column names alone. *)
Definition procesadas_sin_filas (flag : dtype) : DataFrame :=
  mkFrame 0
    [ ("Tienda", texts []); ("Cantidad", floats []); ("Beneficio", floats []);
      ("Es_Online", mkSeries flag []) ].

(** A products sheet with a document date. *)
Definition productos_con_fecha : DataFrame :=
  mkFrame 2
    [ ("Código único", texts ["A1"; "B2"]);
      ("Fecha Documento", texts ["20240115"; "sin fecha"]);
      ("Precio Coste", floats [7; 20]) ].

(** Sales lines of two seasons. *)
Definition ventas_temporadas : DataFrame :=
  mkFrame 3
    [ ("Temporada", texts ["V24"; "I24"; "V24"]);
      ("Cantidad", floats [1; 2; 3]) ].

(** The data store keeps the tables as they are; a list of records is
    empty when the table has no row. *)
Definition sample_app : App := {|
  records := DataFrame;
  to_records := fun t => t;
  of_records := fun t => t;
  no_records := fun t => (nrows t =? 0)%nat;
  prediction_interface := Alert "predicciones" "info"
|}.

End SampleExtra.

(** The number of commas of an upload. *)
Module SpecUpload.

Fixpoint comma_count (s : string) : nat :=
  match s with
  | EmptyString => 0
  | String c r => if Ascii.eqb c "," then S (comma_count r) else comma_count r
  end.

End SpecUpload.

(* ===================================================================== *)
(** * Properties                                                          *)
(* ===================================================================== *)

Import Py Pandas Store DashboardDash DashApp.

(** ** Size ordering *)

Example ex_sort {U : Unicode} :
  sorted custom_sort_key ["M"; "38"; "XL"; "36"; "U"; "S"; "Z"]
  = Ok ["36"; "38"; "S"; "M"; "XL"; "U"; "Z"].
Proof. vm_compute. reflexivity. Qed.

Example ex_key_unica {U : Unicode} :
  custom_sort_key " única " = Ok (2%Z, OStr "ÚNICA").
Proof. vm_compute. reflexivity. Qed.

Example ex_key_nbsp {U : Unicode} :
  custom_sort_key (utf8 160 ++ "38") = Ok (0%Z, OInt 38).
Proof. vm_compute. reflexivity. Qed.

(** *** Order of texts *)






(** *** The stable sort, for keys whose comparisons do not raise *)

Section SortedFacts.
Context {A : Type} (computed : (Z * obj) * A -> Prop)
        (before : (Z * obj) * A -> (Z * obj) * A -> bool).
Hypothesis key_lt :
  forall a b, computed a -> computed b -> tuple_lt (fst a) (fst b) = Ok (before a b).
Hypothesis before_asym : forall a b, before a b = true -> before b a = false.
Hypothesis before_ntrans :
  forall a b c, before b a = false -> before c b = false -> before c a = false.


End SortedFacts.



(** *** Texts of ASCII characters *)








Section SizeKeys.
Context {U : Unicode}.










End SizeKeys.

(** C9, at the size label of a superscript two.  [isdigit] accepts the
    label, so the key takes the numeric branch, and [int] refuses it:
    [custom_sort_key] raises ValueError instead of placing the label among
    the other labels, and so does [sorted] on a list that holds it. *)
Theorem custom_sort_key_raises_on_superscript_digit {U : Unicode} :
  isdigit (strip (upper "²")) = true /\
  custom_sort_key "²"
  = Raise (ValueError "invalid literal for int() with base 10: '²'") /\
  sorted custom_sort_key ["M"; "38"; "²"; "36"]
  = Raise (ValueError "invalid literal for int() with base 10: '²'").
Proof. repeat split; vm_compute; reflexivity. Qed.



(** ** Price bands *)

Lemma Qltb_lt (x y : Q) : Qltb x y = true <-> x < y.
Proof.
  unfold Qltb. rewrite negb_true_iff.
  destruct (Qle_bool y x) eqn:E.
  - apply Qle_bool_iff in E. split; [discriminate|]. intro H.
    exfalso. exact (Qlt_not_le _ _ H E).
  - split; [intros _|reflexivity].
    apply Qnot_le_lt. intro H. apply Qle_bool_iff in H. congruence.
Qed.


Example ex_band_10 : cut_cell price_bins price_labels (Num 10) = Ok (Str "0-10€").
Proof. reflexivity. Qed.

Example ex_band_100 : cut_cell price_bins price_labels (Num 100) = Ok (Str "50-100€").
Proof. reflexivity. Qed.





(** ** The loader *)

Example ex_split : split_comma "data:application/xlsx;base64,UEsDBA" =
                   ["data:application/xlsx;base64"; "UEsDBA"].
Proof. reflexivity. Qed.

Example ex_infer_exactly_80 :
  infer_column (L := Sample.sample_lib) 5 (Sample.texts ["1"; "2"; "3"; "4"; "x"])
  = Sample.texts ["1"; "2"; "3"; "4"; "x"].
Proof. reflexivity. Qed.

Example ex_infer_all_numeric :
  infer_column (L := Sample.sample_lib) 3 (Sample.texts ["1"; "2"; "3"])
  = Sample.floats [1; 2; 3].
Proof. reflexivity. Qed.





(** The cleaning of a parsed table always returns, so the [try] block
    raises only when decoding or parsing does, and it raises whenever one
    of them does (with the error of the first step that fails). *)
Lemma load_excel_body_raise {L : Lib} {X : Excel} (contents : string) (e : exn) :
  load_excel_body contents = Raise e -> SpecLoader.parse_error contents e.
Proof.
  unfold load_excel_body.
  destruct (unpack2 (split_comma contents)) as [[h payload]|e0] eqn:E0; cbn;
    [|intros [= <-]; now apply SpecLoader.bad_upload].
  destruct (b64decode payload) as [bytes|e1] eqn:E1; cbn;
    [|intros [= <-]; now apply (SpecLoader.bad_base64 contents h payload)].
  destruct (ExcelFile bytes) as [xls|e2] eqn:E2; cbn;
    [|intros [= <-]; now apply (SpecLoader.corrupt_file contents h payload bytes)].
  destruct (read_excel xls "Compra" _) as [p|e3] eqn:E3; cbn;
    [|intros [= <-];
      eapply (SpecLoader.bad_sheet contents h payload bytes xls); eauto;
      cbn; auto].
  destruct (read_excel xls "Traspasos de almacén a tienda" _) as [t|e4] eqn:E4; cbn;
    [|intros [= <-];
      eapply (SpecLoader.bad_sheet contents h payload bytes xls); eauto;
      cbn; auto].
  destruct (read_excel xls "ventas 23 24 25" _) as [v|e5] eqn:E5; cbn;
    [discriminate|intros [= <-];
      eapply (SpecLoader.bad_sheet contents h payload bytes xls); eauto;
      cbn; auto].
Qed.

Lemma parse_error_body_raises {L : Lib} {X : Excel} (contents : string) (e : exn) :
  SpecLoader.parse_error contents e -> exists e', load_excel_body contents = Raise e'.
Proof.
  unfold load_excel_body.
  intros [e0 H0|h payload e1 H0 H1|h payload bytes e2 H0 H1 H2
          |h payload bytes xls sheet dtypes e3 H0 H1 H2 Hin H3].
  - rewrite H0. eexists; reflexivity.
  - rewrite H0; cbn. rewrite H1. eexists; reflexivity.
  - rewrite H0; cbn. rewrite H1; cbn. rewrite H2. eexists; reflexivity.
  - rewrite H0; cbn. rewrite H1; cbn. rewrite H2; cbn.
    destruct Hin as [E|[E|[E|[]]]]; inversion E; subst; clear E.
    + rewrite H3. eexists; reflexivity.
    + destruct (read_excel xls "Compra" _); cbn; [|eexists; reflexivity].
      rewrite H3. eexists; reflexivity.
    + destruct (read_excel xls "Compra" _); cbn; [|eexists; reflexivity].
      destruct (read_excel xls "Traspasos de almacén a tienda" _); cbn; [|eexists; reflexivity].
      rewrite H3. eexists; reflexivity.
Qed.

(** C7.  When decoding or parsing the upload raises an error (an error
    derived from [Exception], as every parsing error is), the loader does
    not raise: it returns three empty tables, prints one line with the
    error of the step that failed, and leaves the stored tables as they
    were. *)
Theorem load_excel_data_catches {L : Lib} {X : Excel}
    (contents filename : string) (w : world) (e : exn) :
  SpecLoader.parse_error contents e ->
  (forall e', SpecLoader.parse_error contents e' -> is_Exception e' = true) ->
  exists e',
    SpecLoader.parse_error contents e' /\
    load_excel_data contents filename w
    = (Ok (empty_frame, empty_frame, empty_frame),
       mkWorld (heap w) (stdout w ++ ["Error loading Excel file: " ++ str_of_exn e'])).
Proof.
  intros He Hexc.
  destruct (parse_error_body_raises contents e He) as (e' & Hbody).
  exists e'. split; [now apply load_excel_body_raise|].
  unfold load_excel_data, try_except, lift. rewrite Hbody.
  rewrite (Hexc e' (load_excel_body_raise contents e' Hbody)).
  reflexivity.
Qed.

Example ex_corrupt_upload :
  load_excel_data (L := Sample.sample_lib) (X := SampleData.only_sales)
    SampleData.corrupt_upload "ventas.xlsx" SampleData.no_world
  = (Ok (empty_frame, empty_frame, empty_frame),
     mkWorld [] ["Error loading Excel file: File is not a zip file"]).
Proof. reflexivity. Qed.

Lemma load_excel_data_catches_witness :
  exists e',
    SpecLoader.parse_error (X := SampleData.only_sales) SampleData.upload e' /\
    load_excel_data (L := Sample.sample_lib) (X := SampleData.only_sales)
      SampleData.upload "ventas.xlsx" SampleData.no_world
    = (Ok (empty_frame, empty_frame, empty_frame),
       mkWorld [] ([] ++ ["Error loading Excel file: "
                          ++ str_of_exn (U := Sample.sample_unicode) e'])).
Proof.
  apply (load_excel_data_catches (L := Sample.sample_lib) (X := SampleData.only_sales)
           SampleData.upload "ventas.xlsx" SampleData.no_world
           (ValueError "Worksheet named 'Compra' not found")).
  - eapply (SpecLoader.bad_sheet (X := SampleData.only_sales) SampleData.upload
              "data:application/vnd.ms-excel;base64" "xlsx" "xlsx" _ "Compra").
    + reflexivity.
    + reflexivity.
    + reflexivity.
    + left. reflexivity.
    + reflexivity.
  - intros e' H.
    destruct H as [e0 H0|h payload e1 H0 H1|h payload bytes e2 H0 H1 H2
                  |h payload bytes xls sheet dtypes e3 H0 H1 H2 Hin H3].
    + discriminate H0.
    + discriminate H1.
    + injection H0 as <- <-. injection H1 as <-. discriminate H2.
    + injection H0 as <- <-. injection H1 as <-. injection H2 as <-.
      cbn in H3. destruct (String.eqb sheet "ventas 23 24 25"); [discriminate H3|].
      injection H3 as <-. reflexivity.
Defined.

(** ** Columns of a table *)

Lemma has_column_lookup (c : string) (df : DataFrame) :
  has_column c df = match lookup c (columns df) with Some _ => true | None => false end.
Proof.
  unfold has_column, names, str_in. induction (columns df) as [|[n s] r IH]; cbn.
  - reflexivity.
  - destruct (String.eqb c n); cbn; [reflexivity|exact IH].
Qed.

Lemma getitem_lookup (c : string) (df : DataFrame) :
  getitem df c = match lookup c (columns df) with
                 | Some s => Ok s
                 | None => Raise (KeyError c)
                 end.
Proof. reflexivity. Qed.

Lemma lookup_assign (c c' : string) (s : Series) (cols : list (string * Series)) :
  lookup c (assign c' s cols) = if String.eqb c c' then Some s else lookup c cols.
Proof.
  induction cols as [|[n x] r IH]; cbn.
  - destruct (String.eqb c c'); reflexivity.
  - destruct (String.eqb_spec c' n) as [->|Hn]; cbn.
    + destruct (String.eqb c n); reflexivity.
    + rewrite IH. destruct (String.eqb_spec c c') as [->|Hc]; [|reflexivity].
      apply String.eqb_neq in Hn. now rewrite Hn.
Qed.

Lemma lookup_setitem (c c' : string) (s : Series) (df : DataFrame) :
  lookup c (columns (setitem df c' s))
  = if String.eqb c c' then Some s else lookup c (columns df).
Proof. apply lookup_assign. Qed.

Lemma assign_same (c : string) (s : Series) (cols : list (string * Series)) :
  lookup c cols = Some s -> assign c s cols = cols.
Proof.
  induction cols as [|[n x] r IH]; cbn; [discriminate|].
  destruct (String.eqb c n).
  - now intros [= ->].
  - intro H. now rewrite IH.
Qed.

Lemma setitem_same (c : string) (s : Series) (df : DataFrame) :
  lookup c (columns df) = Some s -> setitem df c s = df.
Proof.
  intro H. unfold setitem. rewrite (assign_same _ _ _ H). now destruct df.
Qed.

Lemma assign_not_nil (c : string) (s : Series) (cols : list (string * Series)) :
  assign c s cols <> [].
Proof.
  destruct cols as [|[n x] r]; cbn; [discriminate|].
  destruct (String.eqb c n); discriminate.
Qed.

Lemma empty_setitem (c : string) (s : Series) (df : DataFrame) :
  empty df = false -> empty (setitem df c s) = false.
Proof.
  unfold empty. cbn. intro H. apply orb_false_iff in H as [Hn _].
  rewrite Hn. cbn. destruct (assign c s (columns df)) eqn:E; [|reflexivity].
  now destruct (assign_not_nil c s (columns df)).
Qed.

(** ** The steps of the sales preprocessor *)

Lemma str_in_In (x : string) (l : list string) : str_in x l = true <-> In x l.
Proof.
  unfold str_in. rewrite existsb_exists. split.
  - intros (y & Hy & E). apply String.eqb_eq in E. now subst.
  - intro H. exists x. split; [exact H|apply String.eqb_refl].
Qed.

Lemma str_in_not_In (x : string) (l : list string) : ~ In x l -> str_in x l = false.
Proof.
  intro H. destruct (str_in x l) eqn:E; [|reflexivity].
  apply str_in_In in E. contradiction.
Qed.

Section Steps.
Context {L : Lib}.

(** [fix_dates] always returns: each listed column that exists is parsed,
    every other column is kept. *)
Lemma fix_dates_spec (cols : list string) (y : DataFrame) :
  NoDup cols ->
  exists z, fix_dates cols y = Ok z /\ nrows z = nrows y /\
            (empty y = false -> empty z = false) /\
            forall c, lookup c (columns z)
                      = option_map (fun s => if str_in c cols then to_datetime s else s)
                                   (lookup c (columns y)).
Proof.
  revert y. induction cols as [|col rest IH]; intros y Hnd.
  - exists y. repeat split; auto. intro c. now destruct (lookup c (columns y)).
  - inversion Hnd as [|? ? Hnot Hrest]; subst. cbn [fix_dates].
    rewrite has_column_lookup, getitem_lookup.
    destruct (lookup col (columns y)) as [s0|] eqn:E; cbn [bind].
    + destruct (IH (setitem y col (to_datetime s0)) Hrest) as (z & Hz & Hn & He & Hl).
      exists z. repeat split; auto.
      * intro H. apply He. now apply empty_setitem.
      * intro c. rewrite Hl, lookup_setitem. cbn [str_in existsb].
        destruct (String.eqb_spec c col) as [->|Hc]; cbn.
        -- rewrite E. cbn. now rewrite (str_in_not_In _ _ Hnot).
        -- reflexivity.
    + destruct (IH y Hrest) as (z & Hz & Hn & He & Hl).
      exists z. repeat split; auto.
      intro c. rewrite Hl. cbn [str_in existsb].
      destruct (String.eqb_spec c col) as [->|Hc]; cbn; [|reflexivity].
      now rewrite E.
Qed.

(** A table whose listed date columns are already parsed is left as it is. *)
Lemma fix_dates_fixed (cols : list string) (d : DataFrame) :
  (forall col s, In col cols -> lookup col (columns d) = Some s -> to_datetime s = s) ->
  fix_dates cols d = Ok d.
Proof.
  induction cols as [|col rest IH]; intro H; [reflexivity|].
  cbn [fix_dates]. rewrite has_column_lookup, getitem_lookup.
  destruct (lookup col (columns d)) as [s|] eqn:E; cbn [bind].
  - rewrite (H col s (or_introl eq_refl) E), (setitem_same _ _ _ E).
    apply IH. intros c s' Hin. apply H. now right.
  - apply IH. intros c s' Hin. apply H. now right.
Qed.

Lemma add_date_parts_spec (a : DataFrame) :
  add_date_parts a =
  Ok match lookup "Fecha Documento" (columns a) with
     | Some fd =>
         setitem (setitem (setitem a "Año" (dt_year fd)) "Mes" (dt_month fd))
                 "Mes_Nombre" (dt_strftime_B fd)
     | None => a
     end.
Proof.
  unfold add_date_parts. rewrite has_column_lookup, getitem_lookup.
  destruct (lookup "Fecha Documento" (columns a)) as [fd|] eqn:E; [|reflexivity].
  assert (E1 : String.eqb "Fecha Documento" "Año" = false) by reflexivity.
  assert (E2 : String.eqb "Fecha Documento" "Mes" = false) by reflexivity.
  cbn [bind]. rewrite getitem_lookup, lookup_setitem, E1, E. cbn [bind].
  rewrite getitem_lookup, !lookup_setitem, E1, E2, E. reflexivity.
Qed.

Lemma add_date_parts_fixed (d : DataFrame) :
  (forall fd, lookup "Fecha Documento" (columns d) = Some fd ->
              lookup "Año" (columns d) = Some (dt_year fd) /\
              lookup "Mes" (columns d) = Some (dt_month fd) /\
              lookup "Mes_Nombre" (columns d) = Some (dt_strftime_B fd)) ->
  add_date_parts d = Ok d.
Proof.
  intro H. rewrite add_date_parts_spec.
  destruct (lookup "Fecha Documento" (columns d)) as [fd|]; [|reflexivity].
  destruct (H fd eq_refl) as (Hy & Hm & Hn).
  now rewrite (setitem_same _ _ _ Hy), (setitem_same _ _ _ Hm), (setitem_same _ _ _ Hn).
Qed.

Lemma add_es_online_spec (b : DataFrame) :
  add_es_online b =
  match lookup "Tienda" (columns b) with
  | Some tienda => Ok (setitem b "Es_Online" (isin tienda TIENDAS_EXTRANJERAS))
  | None => Raise (KeyError "Tienda")
  end.
Proof.
  unfold add_es_online. rewrite getitem_lookup.
  now destruct (lookup "Tienda" (columns b)).
Qed.

(** [add_beneficio] changes nothing but the column Beneficio, and only
    when the table has none. *)
Lemma add_beneficio_cases (c d : DataFrame) :
  add_beneficio c = Ok d ->
  d = c \/ exists s, d = setitem c "Beneficio" s.
Proof.
  unfold add_beneficio.
  destruct (negb (has_column "Beneficio" c)); [|intros [= <-]; now left].
  destruct (forallb _ ["P.V.P."; "Cantidad"; "Precio Coste"]).
  - destruct (getitem c "P.V.P.") as [pvp|]; cbn [bind]; [|discriminate].
    destruct (getitem c "Precio Coste") as [coste|]; cbn [bind]; [|discriminate].
    destruct (series_binop Sub pvp coste) as [diff|]; cbn [bind]; [|discriminate].
    destruct (getitem c "Cantidad") as [cantidad|]; cbn [bind]; [|discriminate].
    destruct (series_binop Mul diff cantidad) as [ben|]; cbn [bind]; [|discriminate].
    intros [= <-]. right. eauto.
  - destruct (forallb _ ["P.V.P."; "Cantidad"]); [|intros [= <-]; now left].
    destruct (getitem c "P.V.P.") as [pvp|]; cbn [bind]; [|discriminate].
    destruct (getitem c "Cantidad") as [cantidad|]; cbn [bind]; [|discriminate].
    destruct (series_binop Mul pvp cantidad) as [prod|]; cbn [bind]; [|discriminate].
    destruct (series_scale prod (1 # 2)) as [ben|]; cbn [bind]; [|discriminate].
    intros [= <-]. right. eauto.
Qed.

Lemma add_beneficio_idem (c d : DataFrame) :
  add_beneficio c = Ok d -> add_beneficio d = Ok d.
Proof.
  intro H. destruct (add_beneficio_cases c d H) as [->|(s & ->)]; [exact H|].
  unfold add_beneficio. rewrite has_column_lookup, lookup_setitem. reflexivity.
Qed.

End Steps.

Ltac eqb_names :=
  repeat match goal with
         | |- context [String.eqb ?a ?b] =>
             let v := eval vm_compute in (String.eqb a b) in
             match v with
             | true => change (String.eqb a b) with true
             | false => change (String.eqb a b) with false
             end
         end.

Ltac lookups := rewrite ?lookup_setitem; eqb_names; cbv iota.

Section Idempotence.
Context {L : Lib}.
Hypothesis parse_idem : parse_dates_idempotent.

Lemma to_datetime_idem (s : Series) : to_datetime (to_datetime s) = to_datetime s.
Proof. unfold to_datetime. cbn [values]. now rewrite parse_idem. Qed.

Lemma preprocess_ventas_body_idem (t d : DataFrame) :
  preprocess_ventas_body t = Ok d -> preprocess_ventas_body d = Ok d.
Proof.
  unfold preprocess_ventas_body at 1.
  destruct (fix_dates_spec ["Fecha Documento"; "Fecha"] t) as (a & Ha & _ & _ & Hla).
  { repeat constructor; cbn; intuition discriminate. }
  rewrite Ha. cbn [bind]. rewrite add_date_parts_spec. cbn [bind].
  set (b := match lookup "Fecha Documento" (columns a) with
            | Some fd => _ | None => a end).
  rewrite add_es_online_spec.
  destruct (lookup "Tienda" (columns b)) as [tienda|] eqn:ET; [|discriminate].
  cbn [bind]. set (c := setitem b "Es_Online" _). intro Hd.
  (* what the later steps leave alone *)
  assert (Hdc : forall col, String.eqb col "Beneficio" = false ->
                            lookup col (columns d) = lookup col (columns c)).
  { intros col Hcol. destruct (add_beneficio_cases c d Hd) as [->|(s & ->)]; auto.
    now rewrite lookup_setitem, Hcol. }
  assert (Hcb : forall col, String.eqb col "Es_Online" = false ->
                            lookup col (columns c) = lookup col (columns b)).
  { intros col Hcol. unfold c. now rewrite lookup_setitem, Hcol. }
  assert (Hba : forall col, String.eqb col "Año" = false -> String.eqb col "Mes" = false ->
                            String.eqb col "Mes_Nombre" = false ->
                            lookup col (columns b) = lookup col (columns a)).
  { intros col H1 H2 H3. unfold b.
    destruct (lookup "Fecha Documento" (columns a)); [|reflexivity].
    now rewrite !lookup_setitem, H1, H2, H3. }
  assert (Hdate : forall col s, In col ["Fecha Documento"; "Fecha"] ->
                                lookup col (columns d) = Some s -> to_datetime s = s).
  { intros col s Hin.
    assert (lookup col (columns d) = lookup col (columns a)) as ->.
    { destruct Hin as [<-|[<-|[]]];
        (rewrite Hdc, Hcb, Hba by reflexivity; reflexivity). }
    rewrite Hla. apply str_in_In in Hin. rewrite Hin.
    destruct (lookup col (columns t)); [|discriminate].
    intros [= <-]. apply to_datetime_idem. }
  unfold preprocess_ventas_body.
  rewrite (fix_dates_fixed _ d Hdate). cbn [bind].
  rewrite add_date_parts_fixed.
  - cbn [bind]. rewrite add_es_online_spec.
    rewrite Hdc, Hcb, ET by reflexivity.
    rewrite setitem_same.
    + cbn [bind]. exact (add_beneficio_idem c d Hd).
    + rewrite Hdc by reflexivity. unfold c. now rewrite lookup_setitem.
  - intros fd Hfd.
    rewrite Hdc, Hcb, Hba in Hfd by reflexivity.
    rewrite !Hdc, !Hcb by reflexivity. unfold b. rewrite Hfd.
    repeat split; lookups; reflexivity.
Qed.

Lemma preprocess_ventas_fixed (t : DataFrame) :
  preprocess_ventas (preprocess_ventas t) = preprocess_ventas t.
Proof.
  unfold preprocess_ventas, preprocessed.
  destruct (empty t) eqn:Ee; [now rewrite Ee|].
  destruct (preprocess_ventas_body t) as [d|e] eqn:Hb.
  - destruct (empty d); [reflexivity|].
    now rewrite (preprocess_ventas_body_idem t d Hb).
  - now rewrite Ee, Hb.
Qed.

End Idempotence.

Lemma sample_dates_idempotent : parse_dates_idempotent (L := Sample.sample_lib).
Proof.
  intro l. cbn [parse_dates Sample.sample_lib]. unfold Sample.sample_dates.
  induction l as [|v r IH]; [reflexivity|].
  cbn [map]. rewrite IH. f_equal.
  destruct v as [| q | s | b | t]; try reflexivity.
  now destruct (Sample.digits s).
Qed.

Example ex_preprocess_ventas :
  preprocess_ventas (L := Sample.sample_lib) SampleTables.ventas
  = mkFrame 2
      [ ("Tienda", Sample.texts ["TRUCCOONLINEB2C"; "MADRID"]);
        ("Código único", Sample.texts ["A1"; "B2"]);
        ("Fecha Documento", mkSeries datetime64 [Timestamp 20240115; NA]);
        ("P.V.P.", Sample.floats [10; 40]);
        ("Precio Coste", Sample.floats [4; 15]);
        ("Cantidad", Sample.floats [2; -1]);
        ("Año", mkSeries numeric [Num 2024; NA]);
        ("Mes", mkSeries numeric [Num 1; NA]);
        ("Mes_Nombre", mkSeries object [Str "January"; NA]);
        ("Es_Online", mkSeries boolean [Bool true; Bool false]);
        ("Beneficio", mkSeries numeric [Num 12; Num (-25)]) ].
Proof. vm_compute. reflexivity. Qed.

(** C5.  The sales preprocessor is idempotent: the table it returns for an
    already preprocessed table is that table.  ([pd.to_datetime] is taken
    to return a column of timestamps as it is.) *)
Theorem preprocess_ventas_idempotent {L : Lib} (t : DataFrame) :
  parse_dates_idempotent ->
  preprocess_ventas (preprocess_ventas t) = preprocess_ventas t.
Proof. intro H. now apply preprocess_ventas_fixed. Qed.

Lemma preprocess_ventas_idempotent_witness :
  preprocess_ventas (L := Sample.sample_lib)
    (preprocess_ventas (L := Sample.sample_lib) SampleTables.ventas)
  = preprocess_ventas (L := Sample.sample_lib) SampleTables.ventas.
Proof.
  exact (preprocess_ventas_idempotent (L := Sample.sample_lib) SampleTables.ventas
           sample_dates_idempotent).
Defined.

(** ** The margin *)

Section Margin.
Context {L : Lib}.

(** Up to the margin step, the preprocessor touches only the date columns
    and the columns it derives; it stops there when the store column is
    absent. *)
Lemma before_beneficio (t : DataFrame) :
  exists b,
    nrows b = nrows t /\
    (forall col,
       str_in col ["Fecha Documento"; "Fecha"; "Año"; "Mes"; "Mes_Nombre"] = false ->
       lookup col (columns b) = lookup col (columns t)) /\
    preprocess_ventas_body t =
    match lookup "Tienda" (columns t) with
    | Some tienda =>
        add_beneficio (setitem b "Es_Online" (isin tienda TIENDAS_EXTRANJERAS))
    | None => Raise (KeyError "Tienda")
    end.
Proof.
  unfold preprocess_ventas_body.
  destruct (fix_dates_spec ["Fecha Documento"; "Fecha"] t) as (a & Ha & Hn & _ & Hla).
  { repeat constructor; cbn; intuition discriminate. }
  rewrite Ha. cbn [bind]. rewrite add_date_parts_spec. cbn [bind].
  set (b := match lookup "Fecha Documento" (columns a) with
            | Some fd => _ | None => a end).
  assert (Hb : forall col,
             str_in col ["Fecha Documento"; "Fecha"; "Año"; "Mes"; "Mes_Nombre"] = false ->
             lookup col (columns b) = lookup col (columns t)).
  { intros col Hcol. cbn in Hcol.
    repeat (apply orb_false_iff in Hcol as [? Hcol]).
    assert (lookup col (columns b) = lookup col (columns a)) as ->.
    { unfold b. destruct (lookup "Fecha Documento" (columns a)); [|reflexivity].
      rewrite !lookup_setitem.
      repeat match goal with H : String.eqb col _ = false |- _ => rewrite H; clear H end.
      reflexivity. }
    rewrite Hla. cbn.
    repeat match goal with H : String.eqb col _ = false |- _ => rewrite H; clear H end.
    now destruct (lookup col (columns t)). }
  exists b. split; [|split; [exact Hb|]].
  - unfold b. now destruct (lookup "Fecha Documento" (columns a)).
  - rewrite add_es_online_spec, (Hb "Tienda") by reflexivity.
    now destruct (lookup "Tienda" (columns t)).
Qed.

(** Without a store column the preprocessor hands back its input. *)
Lemma preprocess_ventas_without_tienda (t : DataFrame) :
  lookup "Tienda" (columns t) = None -> preprocess_ventas t = t.
Proof.
  intro H. unfold preprocess_ventas, preprocessed.
  destruct (empty t); [reflexivity|].
  destruct (before_beneficio t) as (b & _ & _ & Hbody).
  now rewrite Hbody, H.
Qed.

End Margin.

(** C3, at a table with a document date, prices, costs and quantities but
    no store column: the preprocessor returns the table as it was, without
    the year, month and margin columns whose source columns are present. *)
Theorem preprocess_without_tienda_derives_nothing :
  let t := SampleTables.ventas_sin_tienda in
  forallb (fun c => has_column c t) ["Fecha Documento"; "P.V.P."; "Precio Coste"; "Cantidad"]
  = true /\
  preprocess_ventas (L := Sample.sample_lib) t = t /\
  forallb (fun c => has_column c (preprocess_ventas (L := Sample.sample_lib) t))
          ["Año"; "Mes"; "Mes_Nombre"; "Beneficio"]
  = false /\
  existsb (fun c => has_column c (preprocess_ventas (L := Sample.sample_lib) t))
          ["Año"; "Mes"; "Mes_Nombre"; "Es_Online"; "Beneficio"]
  = false.
Proof. vm_compute. repeat split. Qed.

Section Arithmetic.
Context {L : Lib}.

Lemma cell_binop_numeric (op : binop) (a b : value) :
  is_number_or_na a = true -> is_number_or_na b = true ->
  cell_binop op a b = Ok (SpecMargin.numeric_binop op a b).
Proof. destruct a, b; cbn; try discriminate; reflexivity. Qed.

Lemma numeric_binop_numeric (op : binop) (a b : value) :
  is_number_or_na (SpecMargin.numeric_binop op a b) = true.
Proof. destruct a, b; reflexivity. Qed.

Lemma zipM_numeric (op : binop) (l1 l2 : list value) :
  forallb is_number_or_na l1 = true -> forallb is_number_or_na l2 = true ->
  exists vs,
    zipM (cell_binop op) l1 l2 = Ok vs /\
    forallb is_number_or_na vs = true /\
    forall i, nth_error vs i =
              match nth_error l1 i, nth_error l2 i with
              | Some a, Some b => Some (SpecMargin.numeric_binop op a b)
              | _, _ => None
              end.
Proof.
  revert l2. induction l1 as [|a r1 IH]; intros l2 H1 H2.
  - exists []. repeat split; auto. intros [|i]; reflexivity.
  - destruct l2 as [|b r2].
    + exists []. repeat split; auto. intros [|i]; cbn; [reflexivity|].
      now destruct (nth_error r1 i).
    + cbn in H1, H2. apply andb_true_iff in H1 as [Ha H1], H2 as [Hb H2].
      destruct (IH r2 H1 H2) as (vs & Hvs & Hnum & Hrow).
      exists (SpecMargin.numeric_binop op a b :: vs). cbn [zipM].
      rewrite (cell_binop_numeric op a b Ha Hb). cbn [bind]. rewrite Hvs. cbn [bind].
      repeat split.
      * cbn. now rewrite numeric_binop_numeric.
      * intros [|i]; cbn; [reflexivity|apply Hrow].
Qed.

Lemma scale_numeric (k : Q) (l : list value) :
  forallb is_number_or_na l = true ->
  exists vs,
    mapM (fun v => cell_binop Mul v (Num k)) l = Ok vs /\
    forall i, nth_error vs i
              = option_map (fun v => SpecMargin.numeric_binop Mul v (Num k)) (nth_error l i).
Proof.
  induction l as [|a r IH]; intro H.
  - exists []. split; auto. intros [|i]; reflexivity.
  - cbn in H. apply andb_true_iff in H as [Ha H].
    destruct (IH H) as (vs & Hvs & Hrow).
    exists (SpecMargin.numeric_binop Mul a (Num k) :: vs). cbn [mapM].
    rewrite (cell_binop_numeric Mul a (Num k) Ha eq_refl). cbn [bind].
    rewrite Hvs. cbn [bind]. split; [reflexivity|].
    intros [|i]; cbn; [reflexivity|apply Hrow].
Qed.

End Arithmetic.

(** C6, as the code has it.  For a sales table that is not empty, has a
    store column, has no margin column, and whose list prices and
    quantities are numbers or missing cells: without a cost-price column
    the preprocessor adds a margin column with, in every row,
    price * quantity * 1/2; with a cost-price column of numbers or missing
    cells it adds (price - cost) * quantity instead.  A missing operand
    gives a missing margin. *)
Theorem margin_formula {L : Lib} (t : DataFrame) (tienda pvp cantidad : Series) :
  empty t = false ->
  lookup "Tienda" (columns t) = Some tienda ->
  lookup "Beneficio" (columns t) = None ->
  lookup "P.V.P." (columns t) = Some pvp -> SpecMargin.numeric_cells pvp ->
  lookup "Cantidad" (columns t) = Some cantidad -> SpecMargin.numeric_cells cantidad ->
  (lookup "Precio Coste" (columns t) = None ->
   exists beneficio,
     lookup "Beneficio" (columns (preprocess_ventas t)) = Some beneficio /\
     forall i, SpecMargin.row beneficio i =
               match SpecMargin.row pvp i, SpecMargin.row cantidad i with
               | Some p, Some q => Some (SpecMargin.fallback_margin p q)
               | _, _ => None
               end) /\
  (forall coste,
     lookup "Precio Coste" (columns t) = Some coste -> SpecMargin.numeric_cells coste ->
     exists beneficio,
       lookup "Beneficio" (columns (preprocess_ventas t)) = Some beneficio /\
       forall i, SpecMargin.row beneficio i =
                 match SpecMargin.row pvp i, SpecMargin.row coste i,
                       SpecMargin.row cantidad i with
                 | Some p, Some c, Some q => Some (SpecMargin.cost_margin p c q)
                 | _, _, _ => None
                 end).
Proof.
  intros Hne HT HB HP HPn HC HCn.
  unfold preprocess_ventas, preprocessed. rewrite Hne.
  destruct (before_beneficio t) as (b & _ & Hb & Hbody). rewrite Hbody, HT.
  set (c := setitem b "Es_Online" _).
  assert (Hc : forall col,
             str_in col ["Fecha Documento"; "Fecha"; "Año"; "Mes"; "Mes_Nombre"; "Es_Online"]
             = false -> lookup col (columns c) = lookup col (columns t)).
  { intros col Hcol. unfold c. rewrite lookup_setitem.
    cbn in Hcol. repeat (apply orb_false_iff in Hcol as [? Hcol]).
    assert (E : String.eqb col "Es_Online" = false) by assumption. rewrite E.
    apply Hb. cbn.
    repeat match goal with H : String.eqb col _ = false |- _ => rewrite H; clear H end.
    reflexivity. }
  unfold add_beneficio. cbn [forallb]. rewrite !has_column_lookup, !getitem_lookup.
  rewrite (Hc "Beneficio"), (Hc "P.V.P."), (Hc "Cantidad"), (Hc "Precio Coste")
    by reflexivity.
  rewrite HB, HP, HC. cbn [negb andb bind]. split.
  - intro HK. rewrite HK. cbn [andb bind]. unfold series_binop, series_scale.
    destruct (zipM_numeric Mul _ _ HPn HCn) as (prod & Hprod & Hnum & Hrow).
    rewrite Hprod. cbn [bind values].
    destruct (scale_numeric (1 # 2) prod Hnum) as (ben & Hben & Hrow').
    rewrite Hben. cbn [bind].
    eexists. split; [now rewrite lookup_setitem|].
    intro i. unfold SpecMargin.row. cbn [values]. rewrite Hrow', Hrow.
    destruct (nth_error (values pvp) i) as [p|]; [|reflexivity].
    destruct (nth_error (values cantidad) i) as [q|]; [|reflexivity].
    destruct p, q; reflexivity.
  - intros coste HK HKn. rewrite HK. cbn [andb bind]. unfold series_binop.
    destruct (zipM_numeric Sub _ _ HPn HKn) as (diff & Hdiff & Hnum & Hrow).
    rewrite Hdiff. cbn [bind values].
    destruct (zipM_numeric Mul _ _ Hnum HCn) as (ben & Hben & _ & Hrow').
    rewrite Hben. cbn [bind].
    eexists. split; [now rewrite lookup_setitem|].
    intro i. unfold SpecMargin.row. cbn [values]. rewrite Hrow', Hrow.
    destruct (nth_error (values pvp) i) as [p|]; [|reflexivity].
    destruct (nth_error (values coste) i) as [k|]; [|reflexivity].
    destruct (nth_error (values cantidad) i) as [q|]; [|reflexivity].
    destruct p, k, q; reflexivity.
Qed.

(** ** The cost join *)

Lemma lookup_app (c : string) (l1 l2 : list (string * Series)) :
  lookup c (l1 ++ l2) = match lookup c l1 with Some s => Some s | None => lookup c l2 end.
Proof.
  induction l1 as [|[n s] r IH]; cbn; [reflexivity|].
  destruct (String.eqb c n); [reflexivity|exact IH].
Qed.

Lemma lookup_drop_column (c c' : string) (df : DataFrame) :
  String.eqb c' c = false ->
  lookup c (columns (drop_column c' df)) = lookup c (columns df).
Proof.
  intro H. unfold drop_column. cbn [columns].
  induction (columns df) as [|[n s] r IH]; cbn; [reflexivity|].
  destruct (String.eqb_spec c' n) as [->|Hn]; cbn.
  - rewrite String.eqb_sym, H. exact IH.
  - destruct (String.eqb c n); [reflexivity|exact IH].
Qed.

Example ex_dashboard_ventas :
  dashboard_ventas (L := Sample.sample_lib) SampleTables.ventas SampleTables.productos
  = Ok SampleTables.ventas_tras_cruce.
Proof. vm_compute. reflexivity. Qed.

Lemma lookup_map_series (f : Series -> Series) (c : string) (cols : list (string * Series)) :
  lookup c (map (fun p => (fst p, f (snd p))) cols) = option_map f (lookup c cols).
Proof.
  induction cols as [|[n s] r IH]; cbn; [reflexivity|].
  destruct (String.eqb c n); [reflexivity|exact IH].
Qed.

Lemma lookup_take_rows (c : string) (rows : list nat) (df : DataFrame) :
  lookup c (columns (take_rows rows df))
  = option_map (fun s => mkSeries (dtype_of s) (map (fun i => nth i (values s) NA) rows))
               (lookup c (columns df)).
Proof.
  exact (lookup_map_series
           (fun s => mkSeries (dtype_of s) (map (fun i => nth i (values s) NA) rows))
           c (columns df)).
Qed.

Lemma preprocessed_productos_lookup {L : Lib} (productos : DataFrame) (col : string) :
  str_in col ["Fecha Entrada Almacén"; "Fecha Documento"] = false ->
  lookup col (columns (preprocessed preprocess_productos_body productos))
  = lookup col (columns productos).
Proof.
  intro H. unfold preprocessed, preprocess_productos_body.
  destruct (empty productos); [reflexivity|].
  destruct (fix_dates_spec ["Fecha Entrada Almacén"; "Fecha Documento"] productos)
    as (z & Hz & _ & _ & Hl).
  { repeat constructor; cbn; intuition discriminate. }
  rewrite Hz, Hl, H. now destruct (lookup col (columns productos)).
Qed.

Lemma count_label_cons (c n : string) (s : Series) (k : nat) (r : list (string * Series)) :
  count_label c (mkFrame k ((n, s) :: r))
  = ((if String.eqb c n then 1 else 0) + count_label c (mkFrame k r))%nat.
Proof. unfold count_label, names. cbn. now destruct (String.eqb c n). Qed.

Lemma count_label_app (c : string) (k : nat) (l1 l2 : list (string * Series)) :
  count_label c (mkFrame k (l1 ++ l2))
  = (count_label c (mkFrame k l1) + count_label c (mkFrame k l2))%nat.
Proof.
  induction l1 as [|[n s] r IH]; [reflexivity|].
  cbn [app]. rewrite !count_label_cons, IH. lia.
Qed.

Lemma count_label_lookup (c : string) (k : nat) (l : list (string * Series)) :
  lookup c l = None <-> count_label c (mkFrame k l) = 0%nat.
Proof.
  induction l as [|[n s] r IH]; [split; reflexivity|].
  rewrite count_label_cons. cbn [lookup].
  destruct (String.eqb c n); [split; [discriminate|lia]|]. exact IH.
Qed.

Lemma lookup_name_map (f : string * Series -> Series) (c : string) (l : list (string * Series)) :
  lookup c (map (fun p => (fst p, f p)) l) = None <-> lookup c l = None.
Proof.
  induction l as [|[n s] r IH]; [split; reflexivity|]. cbn.
  destruct (String.eqb c n); [split; discriminate|exact IH].
Qed.

Section Join.
Context {L : Lib}.

(** The two columns [merge_cost] takes from the products table. *)
Lemma getitems_cost (p : DataFrame) (rk : Series) :
  lookup "Código único" (columns p) = Some rk ->
  getitems p ["Código único"; "Precio Coste"]
  = match lookup "Precio Coste" (columns p) with
    | Some pc => Ok (mkFrame (nrows p) [("Código único", rk); ("Precio Coste", pc)])
    | None => Raise (KeyError "['Precio Coste'] not in index")
    end.
Proof.
  intro Hk. unfold getitems. cbn [filter forallb mapM].
  rewrite !has_column_lookup, !getitem_lookup, Hk. cbn [negb andb bind].
  destruct (lookup "Precio Coste" (columns p)); reflexivity.
Qed.

(** The join of the sales table with these two columns. *)
Lemma merge_left_cost (v : DataFrame) (n : nat) (lk rk pc : Series) :
  lookup "Código único" (columns v) = Some lk ->
  merge_left v (mkFrame n [("Código único", rk); ("Precio Coste", pc)])
             "Código único" "_producto"
  = match merge_key_error lk rk with
    | Some msg => Raise (ValueError msg)
    | None =>
        let rows := join_rows (values lk) (values rk) 0 in
        Ok (mkFrame (List.length rows)
              (columns (take_rows (map fst rows) v)
               ++ [ ((if has_column "Precio Coste" v
                      then "Precio Coste_producto" else "Precio Coste"),
                     mkSeries (dtype_of pc) (map (fun r => right_cell pc (snd r)) rows)) ]))
    end.
Proof.
  intro Hk. unfold merge_left. rewrite !getitem_lookup, Hk. cbn [bind columns lookup].
  eqb_names. cbv iota. cbn [bind].
  destruct (merge_key_error lk rk); [reflexivity|].
  cbn [filter fst snd]. eqb_names. cbn [negb map fst snd suffix_duplicates str_in existsb andb app].
  destruct (has_column "Precio Coste" v); reflexivity.
Qed.

Lemma margin_after_merge (ventas productos out : DataFrame) :
  dashboard_ventas ventas productos = Ok out ->
  lookup "Beneficio" (columns out)
  = SpecJoin.margin_after_join (preprocess_ventas ventas) productos.
Proof.
  unfold dashboard_ventas, merge_cost, SpecJoin.margin_after_join.
  set (v := preprocess_ventas ventas).
  pose proof (preprocessed_productos_lookup productos "Código único" eq_refl) as Hpk.
  pose proof (preprocessed_productos_lookup productos "Precio Coste" eq_refl) as Hpc.
  set (p := preprocessed preprocess_productos_body productos) in *.
  rewrite !has_column_lookup, Hpk.
  destruct (lookup "Código único" (columns v)) as [lk|] eqn:Elk;
    [|intros [= <-]; reflexivity].
  destruct (lookup "Código único" (columns productos)) as [rk|] eqn:Erk;
    [|intros [= <-]; reflexivity].
  cbn [andb]. rewrite (getitems_cost p rk) by congruence. rewrite Hpc.
  destruct (lookup "Precio Coste" (columns productos)) as [pc|] eqn:Epc;
    [|discriminate].
  cbn [bind]. rewrite (merge_left_cost v _ lk rk pc Elk).
  destruct (merge_key_error lk rk); [discriminate|]. cbv zeta. cbn [bind].
  set (rows := join_rows (values lk) (values rk) 0).
  set (lcols := columns (take_rows (map fst rows) v)).
  set (rcol := (if has_column "Precio Coste" v then _ else _, _)).
  set (merged := mkFrame _ _).
  assert (F : lookup "Beneficio" (columns merged) = lookup "Beneficio" lcols).
  { unfold merged. cbn [columns]. rewrite lookup_app.
    destruct (lookup "Beneficio" lcols); [reflexivity|].
    unfold rcol. now destruct (has_column "Precio Coste" v). }
  destruct (has_column "Precio Coste_producto" merged).
  - destruct (1 <? count_label "Precio Coste_producto" merged)%nat; [discriminate|].
    destruct (getitem merged "Precio Coste_producto") as [joined|]; [|discriminate].
    cbn [bind].
    destruct (lookup "Precio Coste" (columns merged)) as [own|]; [|discriminate].
    cbn [bind]. intros [= <-].
    rewrite lookup_drop_column by reflexivity.
    rewrite lookup_setitem. eqb_names. cbv iota. exact F.
  - intros [= <-]. exact F.
Qed.

Lemma cost_after_merge (ventas productos out : DataFrame) (lk rk own pc : Series) :
  dashboard_ventas ventas productos = Ok out ->
  lookup "Código único" (columns (preprocess_ventas ventas)) = Some lk ->
  lookup "Código único" (columns productos) = Some rk ->
  lookup "Precio Coste" (columns (preprocess_ventas ventas)) = Some own ->
  lookup "Precio Coste" (columns productos) = Some pc ->
  lookup "Precio Coste" (columns out)
  = Some (combine_first
            (mkSeries (dtype_of pc)
               (map (fun r => right_cell pc (snd r))
                    (join_rows (values lk) (values rk) 0)))
            (mkSeries (dtype_of own)
               (map (fun i => nth i (values own) NA)
                    (map fst (join_rows (values lk) (values rk) 0))))).
Proof.
  unfold dashboard_ventas, merge_cost.
  set (v := preprocess_ventas ventas).
  pose proof (preprocessed_productos_lookup productos "Código único" eq_refl) as Hpk.
  pose proof (preprocessed_productos_lookup productos "Precio Coste" eq_refl) as Hpc.
  set (p := preprocessed preprocess_productos_body productos) in *.
  intros H Elk Erk Eown Epc. revert H.
  rewrite !has_column_lookup, Hpk, Elk, Erk.
  cbn [andb]. rewrite (getitems_cost p rk) by congruence. rewrite Hpc, Epc.
  cbn [bind]. rewrite (merge_left_cost v _ lk rk pc Elk).
  destruct (merge_key_error lk rk); [discriminate|]. cbv zeta. cbn [bind].
  rewrite (has_column_lookup "Precio Coste" v), Eown.
  set (rows := join_rows (values lk) (values rk) 0).
  rewrite has_column_lookup. cbn [columns].
  rewrite !lookup_app, !lookup_take_rows, Eown.
  rewrite count_label_app, count_label_cons. eqb_names. cbv iota.
  destruct (lookup "Precio Coste_producto" (columns v)) as [dup|] eqn:Ecol.
  - assert (Hc : count_label "Precio Coste_producto"
                   (mkFrame (List.length rows) (columns (take_rows (map fst rows) v)))
                 <> 0%nat).
    { intro H0. apply count_label_lookup in H0.
      rewrite lookup_take_rows, Ecol in H0. discriminate. }
    destruct (Nat.ltb_spec 1
                (count_label "Precio Coste_producto"
                   (mkFrame (List.length rows) (columns (take_rows (map fst rows) v)))
                 + (1 + count_label "Precio Coste_producto"
                          (mkFrame (List.length rows) [])))); [discriminate|].
    exfalso. lia.
  - assert (Hc : count_label "Precio Coste_producto"
                   (mkFrame (List.length rows) (columns (take_rows (map fst rows) v)))
                 = 0%nat).
    { apply count_label_lookup. now rewrite lookup_take_rows, Ecol. }
    rewrite Hc. cbn [option_map lookup Nat.add Nat.ltb Nat.leb count_label names map filter
                     List.length columns].
    eqb_names. cbv iota. cbn [bind]. rewrite getitem_lookup. cbn [columns].
    rewrite lookup_app, lookup_take_rows, Ecol. cbn [option_map lookup].
    eqb_names. cbv iota. cbn [bind]. intros [= <-].
    rewrite lookup_drop_column by reflexivity.
    rewrite lookup_setitem. eqb_names. reflexivity.
Qed.

End Join.

Example ex_margin_keeps_sheet_cost :
  lookup "Beneficio" (columns SampleTables.ventas_tras_cruce)
  = Some (mkSeries numeric [Num ((10 - 4) * 2); Num ((40 - 15) * -1)]) /\
  lookup "Precio Coste" (columns SampleTables.ventas_tras_cruce)
  = Some (Sample.floats [7; 20]).
Proof. split; reflexivity. Qed.

(** ** Returns *)

Lemma mapM_length {A B : Type} (f : A -> result B) (l : list A) (l' : list B) :
  mapM f l = Ok l' -> List.length l' = List.length l.
Proof.
  revert l'. induction l as [|a r IH]; intros l'; cbn.
  - now intros [= <-].
  - destruct (f a); cbn; [|discriminate].
    destruct (mapM f r) as [bs|]; cbn; [|discriminate].
    intros [= <-]. cbn. now rewrite (IH bs eq_refl).
Qed.

Lemma lt0_negative (l : list value) (mask : list bool) :
  mapM cell_lt0 l = Ok mask ->
  forall i, nth i mask false = true <->
            exists q, nth_error l i = Some (Num q) /\ q < 0.
Proof.
  revert mask. induction l as [|v r IH]; intros mask; cbn.
  - intros [= <-] i. split.
    + destruct i; discriminate.
    + intros (q & H & _). destruct i; discriminate.
  - destruct (cell_lt0 v) as [b|] eqn:Ev; cbn; [|discriminate].
    destruct (mapM cell_lt0 r) as [bs|]; cbn; [|discriminate].
    intros [= <-] [|i]; cbn.
    + destruct v as [| q | s | b' | t]; cbn in Ev; try discriminate;
        injection Ev as <-.
      * split; [discriminate|]. intros (q & H & _). discriminate.
      * rewrite Qltb_lt. split.
        -- intro H. now exists q.
        -- now intros (q' & [= <-] & H).
      * split; [discriminate|]. intros (q & H & _). discriminate.
    + now apply IH.
Qed.

Lemma lt0_selects_numbers (l : list value) (mask : list bool) :
  mapM cell_lt0 l = Ok mask -> forallb is_number_or_na (select mask l) = true.
Proof.
  revert mask. induction l as [|v r IH]; intros mask; cbn.
  - now intros [= <-].
  - destruct (cell_lt0 v) as [b|] eqn:Ev; cbn; [|discriminate].
    destruct (mapM cell_lt0 r) as [bs|] eqn:Er; cbn; [|discriminate].
    intros [= <-]. cbn. destruct b; [|now apply IH].
    cbn. rewrite (IH bs eq_refl).
    destruct v; cbn in Ev; try discriminate; reflexivity.
Qed.

Lemma lookup_take (c : string) (mask : list bool) (df : DataFrame) :
  lookup c (columns (take mask df))
  = option_map (fun s => mkSeries (dtype_of s) (select mask (values s)))
               (lookup c (columns df)).
Proof.
  exact (lookup_map_series (fun s => mkSeries (dtype_of s) (select mask (values s)))
           c (columns df)).
Qed.

Lemma lookup_some_not_nil (c : string) (s : Series) (cols : list (string * Series)) :
  lookup c cols = Some s -> (List.length cols =? 0)%nat = false.
Proof. destruct cols; [discriminate|reflexivity]. Qed.

Section Returns.
Context {L : Lib}.

Lemma returns_analysis_spec (t : DataFrame) (c : Series) (mask : list bool) :
  lookup "Cantidad" (columns t) = Some c ->
  lt0 c = Ok mask ->
  List.length (values c) = nrows t ->
  returns_analysis t =
  Ok (if (count_true mask =? 0)%nat then None
      else Some (take mask t, count_true mask,
                 Num (Qabs (sum_numbers (select mask (values c)))))).
Proof.
  intros Hc Hm Hlen. unfold returns_analysis.
  rewrite has_column_lookup, getitem_lookup, Hc. cbn [bind]. rewrite Hm. cbn [bind].
  assert (Hfirst : firstn (nrows t) mask = mask).
  { apply firstn_all2. unfold lt0 in Hm. rewrite (mapM_length _ _ _ Hm). lia. }
  unfold empty. cbn [nrows columns take]. rewrite Hfirst, length_map.
  rewrite (lookup_some_not_nil _ _ _ Hc), orb_false_r.
  destruct (count_true mask =? 0)%nat; [reflexivity|]. cbn [negb].
  rewrite getitem_lookup.
  change (lookup "Cantidad" (map _ (columns t)))
    with (lookup "Cantidad" (columns (take mask t))).
  rewrite lookup_take, Hc. cbn [option_map bind]. unfold sum. cbn [values].
  rewrite (lt0_selects_numbers _ _ Hm). cbn [bind abs].
  unfold take. now rewrite Hfirst.
Qed.

End Returns.

Section ReturnsKpi.
Context {L : Lib}.

(** The returns amount of the KPI summary is taken over the same rows. *)
Lemma kpi_returns_rows (t : DataFrame) (c : Series) (mask : list bool) (k : kpis) :
  lookup "Cantidad" (columns t) = Some c ->
  lt0 c = Ok mask ->
  calculate_basic_kpis t = Ok k ->
  (if negb (empty (take mask t)) && has_column "Beneficio" (take mask t)
   then bind (sum_of "Beneficio" (take mask t)) abs
   else Ok (Num 0))
  = Ok (total_devoluciones_dinero k).
Proof.
  intros Hc Hm. unfold calculate_basic_kpis.
  rewrite (has_column_lookup "Cantidad"), (getitem_lookup "Cantidad"), Hc.
  cbn [bind]. rewrite Hm. cbn [bind].
  repeat match goal with
         | |- bind ?x _ = Ok _ -> _ =>
             let E := fresh "E" in
             destruct x eqn:E; cbn [bind]; [|discriminate]
         end.
  intros [= <-]. cbn [total_devoluciones_dinero]. reflexivity.
Qed.

End ReturnsKpi.

Example ex_returns :
  returns_analysis (L := Sample.sample_lib) SampleTables.ventas_devoluciones
  = Ok (Some (mkFrame 2 [ ("Cantidad", Sample.floats [-3; -5]);
                          ("Beneficio", Sample.floats [-15; -25]) ],
              2%nat, Num 8)).
Proof. vm_compute. reflexivity. Qed.

(** C8.  The returns card of [create_product_analysis] and the returns
    amount of the KPI summary are computed over the rows selected by
    [Cantidad < 0]: a row is selected exactly when its quantity is a number
    below zero (a missing quantity is not).  [create_product_analysis]
    returns the products card when there is a family column, followed by
    the returns card, which shows the number of those rows and the absolute
    value of the sum of their quantities, and by no returns card when there
    is no such row.  For the quantities 10, -3, 7, -5 the card shows 2 rows
    and 8 units, and the KPI is the absolute value of the margins of those
    2 rows. *)
Theorem returns_are_negative_quantities {L : Lib} {C : Charts} :
  (forall (df_ventas : ref) (w : world) (c : Series) (mask : list bool),
     lookup "Cantidad" (columns (load w df_ventas)) = Some c ->
     lt0 c = Ok mask ->
     List.length (values c) = nrows (load w df_ventas) ->
     (forall i, nth i mask false = true <->
                exists q, nth_error (values c) i = Some (Num q) /\ q < 0) /\
     create_product_analysis df_ventas w =
     (Ok ((if has_column "Familia" (load w df_ventas)
           then [Card "Análisis de Productos y Rentabilidad"
                   [top_products_table (load w df_ventas)]]
           else [])
          ++ (if (count_true mask =? 0)%nat then []
              else [Card "Análisis de Devoluciones"
                      [ P "Total devoluciones: {} registros" [count (count_true mask)];
                        P "Cantidad devuelta: {:,} unidades"
                          [Num (Qabs (sum_numbers (select mask (values c))))] ]]))%list,
      w) /\
     (forall k, calculate_basic_kpis (load w df_ventas) = Ok k ->
                (if negb (empty (take mask (load w df_ventas)))
                    && has_column "Beneficio" (take mask (load w df_ventas))
                 then bind (sum_of "Beneficio" (take mask (load w df_ventas))) abs
                 else Ok (Num 0))
                = Ok (total_devoluciones_dinero k))) /\
  create_product_analysis 0%nat (mkWorld [SampleTables.ventas_devoluciones] [])
  = (Ok [Card "Análisis de Devoluciones"
           [ P "Total devoluciones: {} registros" [Num 2];
             P "Cantidad devuelta: {:,} unidades" [Num 8] ]],
     mkWorld [SampleTables.ventas_devoluciones] []) /\
  (exists k, calculate_basic_kpis SampleTables.ventas_devoluciones = Ok k /\
             total_devoluciones_dinero k = Num 40).
Proof.
  split; [|split].
  - intros df_ventas w c mask Hc Hm Hlen. split; [|split].
    + now apply lt0_negative.
    + unfold create_product_analysis, bindM, read, lift, ret.
      rewrite (returns_analysis_spec _ c mask Hc Hm Hlen).
      destruct (count_true mask =? 0)%nat; [now rewrite app_nil_r|reflexivity].
    + intros k Hk. now apply (kpi_returns_rows _ c mask k).
  - vm_compute. reflexivity.
  - eexists. split; [vm_compute; reflexivity|reflexivity].
Qed.

Lemma returns_are_negative_quantities_witness :
  let w := mkWorld [SampleTables.ventas_devoluciones] [] in
  (forall i, nth i [false; true; false; true] false = true <->
             exists q, nth_error (values (Sample.floats [10; -3; 7; -5])) i = Some (Num q)
                       /\ q < 0) /\
  create_product_analysis (L := Sample.sample_lib) (C := Sample.sample_charts) 0%nat w =
  (Ok ((if has_column "Familia" (load w 0%nat)
        then [Card "Análisis de Productos y Rentabilidad"
                [top_products_table (Charts := Sample.sample_charts) (load w 0%nat)]]
        else [])
       ++ (if (count_true [false; true; false; true] =? 0)%nat then []
           else [Card "Análisis de Devoluciones"
                   [ P "Total devoluciones: {} registros"
                       [count (count_true [false; true; false; true])];
                     P "Cantidad devuelta: {:,} unidades"
                       [Num (Qabs (sum_numbers (L := Sample.sample_lib)
                                     (select [false; true; false; true]
                                        (values (Sample.floats [10; -3; 7; -5])))))] ]]))%list,
   w).
Proof.
  intro w.
  destruct (proj1 (returns_are_negative_quantities (L := Sample.sample_lib)
                     (C := Sample.sample_charts))
              0%nat w (Sample.floats [10; -3; 7; -5])
              [false; true; false; true] eq_refl eq_refl eq_refl) as (H1 & H2 & _).
  split; [exact H1|exact H2].
Defined.

(** ** Objects: who changes which table *)

Lemma nth_update_same (r : ref) (t d : DataFrame) (h : list DataFrame) :
  (r < List.length h)%nat -> nth r (update r t h) d = t.
Proof.
  revert r. induction h as [|x rest IH]; intros [|r] H; cbn in *; try lia.
  - reflexivity.
  - apply IH. lia.
Qed.

Lemma nth_update_other (r r' : ref) (t d : DataFrame) (h : list DataFrame) :
  r <> r' -> nth r' (update r t h) d = nth r' h d.
Proof.
  revert r r'. induction h as [|x rest IH]; intros [|r] [|r'] H; cbn; try reflexivity.
  - congruence.
  - apply IH. congruence.
Qed.

Lemma update_last (t t' : DataFrame) (h : list DataFrame) :
  update (List.length h) t' (h ++ [t])%list = (h ++ [t'])%list.
Proof. induction h as [|x rest IH]; cbn; [reflexivity|now rewrite IH]. Qed.

(** A preprocessor returns a reference to the table [preprocessed] computes
    and leaves every table that existed before as it was, the one it was
    given included. *)
Lemma preprocess_with_table {L : Lib} (what : string) (body : DataFrame -> result DataFrame)
    (df_in : ref) (w : world) :
  (forall t e, body t = Raise e -> is_Exception e = true) ->
  (df_in < List.length (heap w))%nat ->
  exists df_out w',
    preprocess_with what body df_in w = (Ok df_out, w') /\
    load w' df_out = preprocessed body (load w df_in) /\
    (forall r, (r < List.length (heap w))%nat -> load w' r = load w r) /\
    (List.length (heap w) <= List.length (heap w'))%nat /\
    (df_out < List.length (heap w'))%nat.
Proof.
  intros Hexc Hin. unfold preprocess_with, bindM, read, preprocessed.
  destruct (empty (load w df_in)) eqn:Ee.
  - exists df_in, w. repeat split; auto.
  - unfold try_except, bindM, new, lift, write, ret, print.
    destruct (body (load w df_in)) as [t'|e] eqn:Eb.
    + eexists _, _. split; [reflexivity|]. unfold load. cbn [heap].
      rewrite update_last, length_app. cbn [List.length]. repeat split.
      * now rewrite nth_middle.
      * intros r Hr. now rewrite app_nth1.
      * lia.
      * lia.
    + rewrite (Hexc _ _ Eb).
      eexists _, _. split; [reflexivity|]. unfold load. cbn [heap].
      rewrite length_app. cbn [List.length]. repeat split.
      * now rewrite app_nth1.
      * intros r Hr. now rewrite app_nth1.
      * lia.
      * lia.
Qed.

Section Objects.
Context {L : Lib}.

(** [create_pvp_analysis] leaves the column of price ranges in the table it
    was given, whether or not the grouping that follows succeeds. *)
Lemma create_pvp_analysis_assigns (df_ventas : ref) (w : world) (pvp rango : Series) :
  (df_ventas < List.length (heap w))%nat ->
  lookup "P.V.P." (columns (load w df_ventas)) = Some pvp ->
  cut pvp price_bins price_labels = Ok rango ->
  load (snd (create_pvp_analysis df_ventas w)) df_ventas
  = setitem (load w df_ventas) "Rango_Precio" rango.
Proof.
  intros Hin Hp Hcut.
  unfold create_pvp_analysis, try_except, bindM, read, lift, write, ret.
  rewrite has_column_lookup, getitem_lookup, Hp. cbn [negb]. rewrite Hcut.
  set (w1 := mkWorld _ _).
  assert (Hload : load w1 df_ventas = setitem (load w df_ventas) "Rango_Precio" rango).
  { unfold load, w1. cbn [heap]. now apply nth_update_same. }
  destruct (groupby_sum (load w1 df_ventas) _ _ _) as [g|e]; cbn [snd]; [exact Hload|].
  destruct (is_Exception e); exact Hload.
Qed.

End Objects.

Example ex_pvp_card :
  create_pvp_analysis (L := Sample.sample_lib) 0%nat
    (mkWorld [SampleTables.ventas_pvp_10] [])
  = (Ok [ Card "Análisis de Precios PVP"
            [ Graph "Distribución de Precios de Venta al Público"
                SampleTables.ventas_pvp_10;
              Graph "Cantidad Vendida por Rango de Precio"
                (mkFrame 5%nat
                   [ ("Rango_Precio",
                      mkSeries category
                        [Str "0-10€"; Str "10-25€"; Str "25-50€"; Str "50-100€";
                         Str "100€+"]);
                     ("Cantidad", Sample.floats [3; 0; 0; 0; 0]);
                     ("Beneficio", Sample.floats [15; 0; 0; 0; 0]) ]) ] ],
     mkWorld [ mkFrame 1%nat
                 [ ("P.V.P.", Sample.floats [10]); ("Cantidad", Sample.floats [3]);
                   ("Beneficio", Sample.floats [15]);
                   ("Rango_Precio", mkSeries category [Str "0-10€"]) ] ] []).
Proof. vm_compute. reflexivity. Qed.

(** C4, at a sales table with one line at a list price of 10.  Called on
    the object that holds it, [create_pvp_analysis] adds the column
    Rango_Precio to that object; and so does [create_dashboard_content]
    for the section pvp, to the table its caller passed in, when the
    preprocessor hands that object back (here: no store column) and there
    is no product code to join on. *)
Theorem create_pvp_analysis_changes_its_table :
  let w := mkWorld [SampleTables.ventas_pvp_10] [] in
  let w' := snd (create_pvp_analysis (L := Sample.sample_lib) 0%nat w) in
  let w2 := mkWorld [SampleTables.productos; empty_frame; SampleTables.ventas_pvp_10] [] in
  let w2' := snd (create_dashboard_content (L := Sample.sample_lib)
                    (C := Sample.sample_charts) 0%nat 1%nat 2%nat "pvp" w2) in
  load w 0%nat = SampleTables.ventas_pvp_10 /\
  load w' 0%nat = setitem SampleTables.ventas_pvp_10 "Rango_Precio"
                (mkSeries category [Str "0-10€"]) /\
  load w' 0%nat <> load w 0%nat /\
  load w2' 2%nat = setitem SampleTables.ventas_pvp_10 "Rango_Precio"
                 (mkSeries category [Str "0-10€"]) /\
  load w2' 2%nat <> load w2 2%nat.
Proof.
  cbv zeta. repeat split; try (vm_compute; reflexivity); vm_compute; discriminate.
Qed.

(** ** The methods and the tables they compute *)

Lemma mapM_raise {A B : Type} (P : exn -> Prop) (f : A -> result B) (l : list A) (e : exn) :
  (forall a e', f a = Raise e' -> P e') -> mapM f l = Raise e -> P e.
Proof.
  intro Hf. induction l as [|a r IH]; cbn; [discriminate|].
  destruct (f a) eqn:Ea; cbn; [|intros [= <-]; eauto].
  destruct (mapM f r); cbn; [discriminate|]. intros [= <-]. now apply IH.
Qed.

Section Raises.
Context {L : Lib}.

Lemma cell_binop_raise (op : binop) (a b : value) (e : exn) :
  cell_binop op a b = Raise e -> is_Exception e = true.
Proof.
  unfold cell_binop.
  destruct a, b; try discriminate; apply object_binop_raises.
Qed.

Lemma zipM_raise (op : binop) (l1 l2 : list value) (e : exn) :
  zipM (cell_binop op) l1 l2 = Raise e -> is_Exception e = true.
Proof.
  revert l2. induction l1 as [|a r1 IH]; intros l2; cbn; [discriminate|].
  destruct l2 as [|b r2]; [discriminate|].
  destruct (cell_binop op a b) eqn:Ec; cbn.
  - destruct (zipM (cell_binop op) r1 r2) eqn:Ez; cbn; [discriminate|].
    intros [= <-]. now apply (IH r2).
  - intros [= <-]. now apply (cell_binop_raise op a b).
Qed.

Lemma series_binop_raise (op : binop) (a b : Series) (e : exn) :
  series_binop op a b = Raise e -> is_Exception e = true.
Proof.
  unfold series_binop. destruct (zipM _ _ _) eqn:Ez; cbn; [discriminate|].
  intros [= <-]. now apply (zipM_raise op (values a) (values b)).
Qed.

Lemma series_scale_raise (a : Series) (k : Q) (e : exn) :
  series_scale a k = Raise e -> is_Exception e = true.
Proof.
  unfold series_scale. destruct (mapM _ _) eqn:Em; cbn; [discriminate|].
  intros [= <-].
  apply (mapM_raise (fun e => is_Exception e = true) _ _ _
           (fun v e' => cell_binop_raise Mul v (Num k) e') Em).
Qed.

Lemma getitem_raise (df : DataFrame) (c : string) (e : exn) :
  getitem df c = Raise e -> is_Exception e = true.
Proof. unfold getitem. destruct (lookup c (columns df)); [discriminate|now intros [= <-]]. Qed.

Lemma add_beneficio_raise (c : DataFrame) (e : exn) :
  add_beneficio c = Raise e -> is_Exception e = true.
Proof.
  unfold add_beneficio.
  destruct (negb (has_column "Beneficio" c)); [|discriminate].
  destruct (forallb _ ["P.V.P."; "Cantidad"; "Precio Coste"]).
  - destruct (getitem c "P.V.P.") as [pvp|] eqn:E1; cbn [bind];
      [|intros [= <-]; exact (getitem_raise _ _ _ E1)].
    destruct (getitem c "Precio Coste") as [coste|] eqn:E2; cbn [bind];
      [|intros [= <-]; exact (getitem_raise _ _ _ E2)].
    destruct (series_binop Sub pvp coste) as [diff|] eqn:E3; cbn [bind];
      [|intros [= <-]; exact (series_binop_raise _ _ _ _ E3)].
    destruct (getitem c "Cantidad") as [cantidad|] eqn:E4; cbn [bind];
      [|intros [= <-]; exact (getitem_raise _ _ _ E4)].
    destruct (series_binop Mul diff cantidad) as [ben|] eqn:E5; cbn [bind];
      [discriminate|intros [= <-]; exact (series_binop_raise _ _ _ _ E5)].
  - destruct (forallb _ ["P.V.P."; "Cantidad"]); [|discriminate].
    destruct (getitem c "P.V.P.") as [pvp|] eqn:E1; cbn [bind];
      [|intros [= <-]; exact (getitem_raise _ _ _ E1)].
    destruct (getitem c "Cantidad") as [cantidad|] eqn:E4; cbn [bind];
      [|intros [= <-]; exact (getitem_raise _ _ _ E4)].
    destruct (series_binop Mul pvp cantidad) as [prod|] eqn:E5; cbn [bind];
      [|intros [= <-]; exact (series_binop_raise _ _ _ _ E5)].
    destruct (series_scale prod (1 # 2)) as [ben|] eqn:E6; cbn [bind];
      [discriminate|intros [= <-]; exact (series_scale_raise _ _ _ E6)].
Qed.

(** Whatever the sales block raises is caught by [except Exception]. *)
Lemma preprocess_ventas_body_raise (t : DataFrame) (e : exn) :
  preprocess_ventas_body t = Raise e -> is_Exception e = true.
Proof.
  destruct (before_beneficio t) as (b & _ & _ & Hbody). rewrite Hbody.
  destruct (lookup "Tienda" (columns t)); [apply add_beneficio_raise|].
  now intros [= <-].
Qed.

Lemma fix_dates_raise (cols : list string) (t : DataFrame) (e : exn) :
  fix_dates cols t = Raise e -> is_Exception e = true.
Proof.
  revert t. induction cols as [|col rest IH]; intro t; cbn [fix_dates]; [discriminate|].
  rewrite has_column_lookup, getitem_lookup.
  destruct (lookup col (columns t)); cbn [bind]; apply IH.
Qed.

(** [preprocess_ventas_data] never raises; it returns the table
    [preprocess_ventas] computes and changes no table that existed. *)
Lemma preprocess_ventas_data_table (df_ventas : ref) (w : world) :
  (df_ventas < List.length (heap w))%nat ->
  exists df w',
    preprocess_ventas_data df_ventas w = (Ok df, w') /\
    load w' df = preprocess_ventas (load w df_ventas) /\
    (forall r, (r < List.length (heap w))%nat -> load w' r = load w r) /\
    (List.length (heap w) <= List.length (heap w'))%nat /\
    (df < List.length (heap w'))%nat.
Proof.
  apply preprocess_with_table. exact preprocess_ventas_body_raise.
Qed.


(** [create_dashboard_content] hands to the builder of the section a
    reference to the table [dashboard_ventas] computes, and up to that
    point changes no table that existed. *)
Lemma create_dashboard_content_table {C : Charts}
    (df_productos df_traspasos df_ventas : ref) (seccion : string) (w : world)
    (out : DataFrame) :
  (df_productos < List.length (heap w))%nat ->
  (df_traspasos < List.length (heap w))%nat ->
  (df_ventas < List.length (heap w))%nat ->
  dashboard_ventas (load w df_ventas) (load w df_productos) = Ok out ->
  exists r w1,
    load w1 r = out /\
    (forall r0, (r0 < List.length (heap w))%nat -> load w1 r0 = load w r0) /\
    create_dashboard_content df_productos df_traspasos df_ventas seccion w =
    section_content seccion r w1.
Proof.
  intros Hp Ht Hv Hout.
  unfold create_dashboard_content, bindM.
  destruct (preprocess_ventas_data_table df_ventas w Hv)
    as (rv & w1 & E1 & T1 & F1 & Len1 & In1).
  rewrite E1.
  destruct (preprocess_with_table "products" preprocess_productos_body df_productos w1)
    as (rp & w2 & E2 & T2 & F2 & Len2 & In2);
    [apply fix_dates_raise|lia|].
  unfold preprocess_productos_data. rewrite E2.
  destruct (preprocess_with_table "transfers" preprocess_traspasos_body df_traspasos w2)
    as (rt & w3 & E3 & T3 & F3 & Len3 & In3);
    [apply fix_dates_raise|lia|].
  unfold preprocess_traspasos_data. rewrite E3.
  unfold read at 1 2.
  assert (Hlv : load w3 rv = preprocess_ventas (load w df_ventas)).
  { rewrite F3, F2 by lia. exact T1. }
  assert (Hlp : load w3 rp = preprocessed preprocess_productos_body (load w df_productos)).
  { rewrite F3 by lia. rewrite T2. now rewrite F1 by lia. }
  rewrite Hlv, Hlp. unfold dashboard_ventas in Hout.
  destruct (has_column "Código único" (preprocess_ventas (load w df_ventas)) &&
            has_column "Código único"
              (preprocessed preprocess_productos_body (load w df_productos))) eqn:Ec.
  - unfold lift, new. rewrite Hout.
    eexists _, _. split; [|split; [|reflexivity]].
    + unfold load. cbn [heap]. now rewrite nth_middle.
    + intros r0 Hr0. unfold load at 1. cbn [heap].
      rewrite app_nth1 by lia.
      change (nth r0 (heap w3) empty_frame) with (load w3 r0).
      rewrite F3, F2, F1 by lia. reflexivity.
  - unfold merge_cost in Hout. rewrite Ec in Hout. injection Hout as <-.
    unfold ret. eexists _, _. split; [exact Hlv|]. split; [|reflexivity].
    intros r0 Hr0. rewrite F3, F2, F1 by lia. reflexivity.
Qed.

End Raises.

(** C10.  In [create_dashboard_content] the cost join runs on the table the
    preprocessor returned.  For a sales table without a margin column,
    whenever the join returns, the method ends with the builder of the
    section run on a table in which each row carries the margin of the
    preprocessed sales row it comes from, the margin the preprocessor
    computed from the sheet's own columns; and where both tables have a cost
    column, the cost column of that table is the products cost, with the
    sheet's own cost only where the products cost is missing. *)
Theorem margin_ignores_joined_cost {L : Lib} {C : Charts}
    (df_productos df_traspasos df_ventas : ref) (seccion : string) (w : world)
    (out : DataFrame) :
  (df_productos < List.length (heap w))%nat ->
  (df_traspasos < List.length (heap w))%nat ->
  (df_ventas < List.length (heap w))%nat ->
  lookup "Beneficio" (columns (load w df_ventas)) = None ->
  dashboard_ventas (load w df_ventas) (load w df_productos) = Ok out ->
  exists r w1,
    create_dashboard_content df_productos df_traspasos df_ventas seccion w
    = section_content seccion r w1 /\
    load w1 r = out /\
    lookup "Beneficio" (columns (load w1 r))
    = SpecJoin.margin_after_join (preprocess_ventas (load w df_ventas))
        (load w df_productos) /\
    (forall lk rk own pc,
       lookup "Código único" (columns (preprocess_ventas (load w df_ventas))) = Some lk ->
       lookup "Código único" (columns (load w df_productos)) = Some rk ->
       lookup "Precio Coste" (columns (preprocess_ventas (load w df_ventas))) = Some own ->
       lookup "Precio Coste" (columns (load w df_productos)) = Some pc ->
       lookup "Precio Coste" (columns (load w1 r))
       = Some (combine_first
                 (mkSeries (dtype_of pc)
                    (map (fun r => right_cell pc (snd r))
                         (join_rows (values lk) (values rk) 0)))
                 (mkSeries (dtype_of own)
                    (map (fun i => nth i (values own) NA)
                         (map fst (join_rows (values lk) (values rk) 0)))))).
Proof.
  intros Hp Ht Hv _ Hout.
  destruct (create_dashboard_content_table df_productos df_traspasos df_ventas seccion w
              out Hp Ht Hv Hout) as (r & w1 & Hr & _ & Heq).
  exists r, w1. split; [exact Heq|]. split; [exact Hr|]. rewrite Hr. split.
  - now apply margin_after_merge.
  - intros lk rk own pc. now apply cost_after_merge.
Qed.

Lemma margin_ignores_joined_cost_witness :
  let w := mkWorld [SampleTables.productos; empty_frame; SampleTables.ventas] [] in
  exists r w1,
    create_dashboard_content (L := Sample.sample_lib) (C := Sample.sample_charts)
      0%nat 1%nat 2%nat "producto" w
    = section_content (L := Sample.sample_lib) (C := Sample.sample_charts) "producto" r w1 /\
    load w1 r = SampleTables.ventas_tras_cruce /\
    lookup "Beneficio" (columns (load w1 r))
    = Some (mkSeries numeric [Num ((10 - 4) * 2); Num ((40 - 15) * -1)]) /\
    lookup "Precio Coste" (columns (load w1 r)) = Some (Sample.floats [7; 20]).
Proof.
  intro w.
  assert (H0 : (0 < List.length (heap w))%nat) by (cbn; lia).
  assert (H1 : (1 < List.length (heap w))%nat) by (cbn; lia).
  assert (H2 : (2 < List.length (heap w))%nat) by (cbn; lia).
  destruct (margin_ignores_joined_cost (L := Sample.sample_lib) (C := Sample.sample_charts)
              0%nat 1%nat 2%nat "producto" w SampleTables.ventas_tras_cruce
              H0 H1 H2 eq_refl eq_refl) as (r & w1 & Heq & Hr & Hm & Hc).
  exists r, w1. split; [exact Heq|]. split; [exact Hr|]. split.
  - rewrite Hm. reflexivity.
  - rewrite (Hc (Sample.texts ["A1"; "B2"]) (Sample.texts ["A1"; "B2"])
               (Sample.floats [4; 15]) (Sample.floats [7; 20])
               eq_refl eq_refl eq_refl eq_refl).
    reflexivity.
Defined.

(** ** The margin, on the sample tables *)

Example ex_fallback_margin :
  lookup "Beneficio"
    (columns (preprocess_ventas (L := Sample.sample_lib) SampleTables.ventas_sin_coste))
  = Some (mkSeries numeric [Num (10 * 2 * (1 # 2)); Num (40 * -1 * (1 # 2))]).
Proof. vm_compute. reflexivity. Qed.

Lemma margin_formula_witness :
  (exists beneficio,
     lookup "Beneficio"
       (columns (preprocess_ventas (L := Sample.sample_lib) SampleTables.ventas_sin_coste))
     = Some beneficio /\
     forall i, SpecMargin.row beneficio i =
               match SpecMargin.row (Sample.floats [10; 40]) i,
                     SpecMargin.row (Sample.floats [2; -1]) i with
               | Some p, Some q => Some (SpecMargin.fallback_margin p q)
               | _, _ => None
               end) /\
  (exists beneficio,
     lookup "Beneficio"
       (columns (preprocess_ventas (L := Sample.sample_lib) SampleTables.ventas))
     = Some beneficio /\
     forall i, SpecMargin.row beneficio i =
               match SpecMargin.row (Sample.floats [10; 40]) i,
                     SpecMargin.row (Sample.floats [4; 15]) i,
                     SpecMargin.row (Sample.floats [2; -1]) i with
               | Some p, Some c, Some q => Some (SpecMargin.cost_margin p c q)
               | _, _, _ => None
               end).
Proof.
  split.
  - exact (proj1 (margin_formula (L := Sample.sample_lib) SampleTables.ventas_sin_coste
                    (Sample.texts ["TRUCCOONLINEB2C"; "MADRID"])
                    (Sample.floats [10; 40]) (Sample.floats [2; -1])
                    eq_refl eq_refl eq_refl eq_refl eq_refl eq_refl eq_refl) eq_refl).
  - exact (proj2 (margin_formula (L := Sample.sample_lib) SampleTables.ventas
                    (Sample.texts ["TRUCCOONLINEB2C"; "MADRID"])
                    (Sample.floats [10; 40]) (Sample.floats [2; -1])
                    eq_refl eq_refl eq_refl eq_refl eq_refl eq_refl eq_refl)
             (Sample.floats [4; 15]) eq_refl eq_refl).
Defined.

(** C6, as stated, fails: a sales table with the list-price and quantity
    columns, no cost and no margin column, and no row is handed back as it
    is by the guard [if df_ventas.empty], so no margin column is added. *)
Lemma margin_not_added_to_empty_table :
  let t := SampleTables.ventas_sin_filas in
  has_column "P.V.P." t = true /\ has_column "Cantidad" t = true /\
  has_column "Precio Coste" t = false /\ has_column "Beneficio" t = false /\
  preprocess_ventas (L := Sample.sample_lib) t = t /\
  has_column "Beneficio" (preprocess_ventas (L := Sample.sample_lib) t) = false.
Proof. vm_compute. repeat split. Qed.

(* ===================================================================== *)
(** * Further properties of the code                                      *)
(* ===================================================================== *)

(** ** What a successful run of the sales block leaves in the table *)

Section BodyOk.
Context {L : Lib}.

Lemma body_steps (t : DataFrame) :
  exists a,
    nrows a = nrows t /\
    (forall c, lookup c (columns a)
               = option_map (fun s => if str_in c ["Fecha Documento"; "Fecha"]
                                      then to_datetime s else s)
                            (lookup c (columns t))) /\
    preprocess_ventas_body t =
    match lookup "Tienda" (columns t) with
    | Some tienda =>
        add_beneficio
          (setitem
             match lookup "Fecha Documento" (columns a) with
             | Some fd =>
                 setitem (setitem (setitem a "Año" (dt_year fd)) "Mes" (dt_month fd))
                         "Mes_Nombre" (dt_strftime_B fd)
             | None => a
             end
             "Es_Online" (isin tienda TIENDAS_EXTRANJERAS))
    | None => Raise (KeyError "Tienda")
    end.
Proof.
  unfold preprocess_ventas_body.
  destruct (fix_dates_spec ["Fecha Documento"; "Fecha"] t) as (a & Ha & Hn & _ & Hla).
  { repeat constructor; cbn; intuition discriminate. }
  exists a. split; [exact Hn|]. split; [exact Hla|].
  rewrite Ha. cbn [bind]. rewrite add_date_parts_spec. cbn [bind].
  rewrite add_es_online_spec.
  assert (E : lookup "Tienda"
                (columns match lookup "Fecha Documento" (columns a) with
                         | Some fd =>
                             setitem (setitem (setitem a "Año" (dt_year fd)) "Mes"
                                        (dt_month fd)) "Mes_Nombre" (dt_strftime_B fd)
                         | None => a
                         end)
              = lookup "Tienda" (columns t)).
  { destruct (lookup "Fecha Documento" (columns a)).
    - rewrite !lookup_setitem. eqb_names. cbv iota. rewrite Hla.
      now destruct (lookup "Tienda" (columns t)).
    - rewrite Hla. now destruct (lookup "Tienda" (columns t)). }
  rewrite E. now destruct (lookup "Tienda" (columns t)).
Qed.

Lemma add_beneficio_keeps (c : DataFrame) (b : Series) :
  lookup "Beneficio" (columns c) = Some b -> add_beneficio c = Ok c.
Proof.
  intro H. unfold add_beneficio. now rewrite has_column_lookup, H.
Qed.

Lemma nrows_setitem (df : DataFrame) (c : string) (s : Series) :
  nrows (setitem df c s) = nrows df.
Proof. reflexivity. Qed.

(** The table after a run of the block that did not raise. *)
Lemma body_ok_lookups (t d : DataFrame) :
  preprocess_ventas_body t = Ok d ->
  exists tienda,
    lookup "Tienda" (columns t) = Some tienda /\
    nrows d = nrows t /\
    lookup "Es_Online" (columns d) = Some (isin tienda TIENDAS_EXTRANJERAS) /\
    (forall col,
       str_in col ["Fecha Documento"; "Fecha"; "Año"; "Mes"; "Mes_Nombre";
                   "Es_Online"; "Beneficio"] = false ->
       lookup col (columns d) = lookup col (columns t)) /\
    (forall b, lookup "Beneficio" (columns t) = Some b ->
               lookup "Beneficio" (columns d) = Some b) /\
    (forall col, In col ["Fecha Documento"; "Fecha"] ->
                 lookup col (columns d) = option_map to_datetime (lookup col (columns t))) /\
    (forall s, lookup "Fecha Documento" (columns t) = Some s ->
               lookup "Año" (columns d) = Some (dt_year (to_datetime s)) /\
               lookup "Mes" (columns d) = Some (dt_month (to_datetime s)) /\
               lookup "Mes_Nombre" (columns d) = Some (dt_strftime_B (to_datetime s))) /\
    (lookup "Fecha Documento" (columns t) = None ->
     forall col, In col ["Año"; "Mes"; "Mes_Nombre"] ->
                 lookup col (columns d) = lookup col (columns t)).
Proof.
  destruct (body_steps t) as (a & Hn & Hla & Hbody). rewrite Hbody.
  destruct (lookup "Tienda" (columns t)) as [tienda|] eqn:ET; [|discriminate].
  set (b := match lookup "Fecha Documento" (columns a) with
            | Some fd => _ | None => a end).
  set (c := setitem b "Es_Online" _). intro Hd.
  exists tienda. split; [reflexivity|].
  assert (Hdc : forall col, String.eqb col "Beneficio" = false ->
                            lookup col (columns d) = lookup col (columns c)).
  { intros col Hcol. destruct (add_beneficio_cases c d Hd) as [->|(s & ->)]; auto.
    now rewrite lookup_setitem, Hcol. }
  assert (Hcb : forall col, String.eqb col "Es_Online" = false ->
                            lookup col (columns c) = lookup col (columns b)).
  { intros col Hcol. unfold c. now rewrite lookup_setitem, Hcol. }
  assert (Hba : forall col, String.eqb col "Año" = false -> String.eqb col "Mes" = false ->
                            String.eqb col "Mes_Nombre" = false ->
                            lookup col (columns b) = lookup col (columns a)).
  { intros col H1 H2 H3. unfold b.
    destruct (lookup "Fecha Documento" (columns a)); [|reflexivity].
    now rewrite !lookup_setitem, H1, H2, H3. }
  assert (Hfd : lookup "Fecha Documento" (columns a)
                = option_map to_datetime (lookup "Fecha Documento" (columns t))).
  { rewrite Hla. now destruct (lookup "Fecha Documento" (columns t)). }
  split; [|split; [|split; [|split; [|split; [|split]]]]].
  - destruct (add_beneficio_cases c d Hd) as [->|(s & ->)]; unfold c, b;
      rewrite ?nrows_setitem;
      destruct (lookup "Fecha Documento" (columns a)); rewrite ?nrows_setitem; exact Hn.
  - rewrite Hdc by reflexivity. unfold c. now rewrite lookup_setitem.
  - intros col Hcol. cbn in Hcol.
    repeat (apply orb_false_iff in Hcol as [? Hcol]).
    rewrite Hdc, Hcb, Hba by assumption. rewrite Hla. cbn.
    repeat match goal with H : String.eqb col _ = false |- _ => rewrite H; clear H end.
    now destruct (lookup col (columns t)).
  - intros s Hs.
    assert (Hc : lookup "Beneficio" (columns c) = Some s).
    { rewrite Hcb, Hba by reflexivity. rewrite Hla, Hs. reflexivity. }
    rewrite (add_beneficio_keeps c s Hc) in Hd. injection Hd as <-. exact Hc.
  - intros col Hin. apply str_in_In in Hin as Hin'.
    assert (lookup col (columns d) = lookup col (columns a)) as ->.
    { destruct Hin as [<-|[<-|[]]]; rewrite Hdc, Hcb, Hba by reflexivity; reflexivity. }
    rewrite Hla, Hin'. reflexivity.
  - intros s Hs. rewrite !Hdc, !Hcb by reflexivity. unfold b.
    rewrite Hfd, Hs. cbn [option_map]. repeat split; lookups; reflexivity.
  - intros Hnone col Hin.
    assert (Hb : b = a) by (unfold b; now rewrite Hfd, Hnone).
    destruct Hin as [<-|[<-|[<-|[]]]]; rewrite Hdc, Hcb by reflexivity;
      rewrite Hb, Hla; cbn;
      match goal with |- option_map _ ?o = _ => now destruct o end.
Qed.

End BodyOk.

Lemma nth_error_isin (tienda : Series) (l : list string) (i : nat) :
  nth_error (values (isin tienda l)) i = Some (Bool true) <->
  exists s, nth_error (values tienda) i = Some (Str s) /\ In s l.
Proof.
  unfold isin. cbn [values]. rewrite nth_error_map.
  destruct (nth_error (values tienda) i) as [v|]; cbn.
  - destruct v as [| q | s | b | t]; cbn;
      try (split; [discriminate|intros (s' & [=] & _)]).
    split.
    + intros [= H]. exists s. split; [reflexivity|now apply str_in_In].
    + intros (s' & [= <-] & H). apply str_in_In in H. now rewrite H.
  - split; [discriminate|intros (s' & [=] & _)].
Qed.

(** X1.  After a run of the sales block that did not raise, the column
    Es_Online holds one boolean per store cell, and it is true exactly in
    the rows whose store is a text of [TIENDAS_EXTRANJERAS], letter for
    letter. *)
Theorem es_online_marks_listed_stores {L : Lib} (t d : DataFrame) :
  empty t = false ->
  preprocess_ventas_body t = Ok d ->
  exists tienda es,
    lookup "Tienda" (columns t) = Some tienda /\
    lookup "Es_Online" (columns (preprocess_ventas t)) = Some es /\
    List.length (values es) = List.length (values tienda) /\
    (forall i v, nth_error (values es) i = Some v -> exists b, v = Bool b) /\
    (forall i, nth_error (values es) i = Some (Bool true) <->
               exists s, nth_error (values tienda) i = Some (Str s) /\
                         In s TIENDAS_EXTRANJERAS).
Proof.
  intros Hne Hd.
  destruct (body_ok_lookups t d Hd) as (tienda & HT & _ & HE & _).
  exists tienda, (isin tienda TIENDAS_EXTRANJERAS).
  unfold preprocess_ventas, preprocessed. rewrite Hne, Hd.
  split; [exact HT|]. split; [exact HE|]. split; [|split].
  - unfold isin. cbn [values]. apply length_map.
  - intros i v. unfold isin. cbn [values]. rewrite nth_error_map.
    destruct (nth_error (values tienda) i) as [c|]; [|discriminate].
    intros [= <-]. destruct c; eauto.
  - intro i. apply nth_error_isin.
Qed.

Lemma es_online_marks_listed_stores_witness :
  exists tienda es,
    lookup "Tienda" (columns SampleTables.ventas) = Some tienda /\
    lookup "Es_Online"
      (columns (preprocess_ventas (L := Sample.sample_lib) SampleTables.ventas)) = Some es /\
    List.length (values es) = List.length (values tienda) /\
    (forall i v, nth_error (values es) i = Some v -> exists b, v = Bool b) /\
    (forall i, nth_error (values es) i = Some (Bool true) <->
               exists s, nth_error (values tienda) i = Some (Str s) /\
                         In s TIENDAS_EXTRANJERAS).
Proof.
  apply (es_online_marks_listed_stores (L := Sample.sample_lib) SampleTables.ventas
           (preprocess_ventas (L := Sample.sample_lib) SampleTables.ventas)).
  - reflexivity.
  - vm_compute. reflexivity.
Defined.

(** X2.  A run of the sales block that did not raise keeps the number of
    rows, keeps a margin column that was already there as it was (it is
    not computed again from prices and costs), and keeps every column
    other than the two date columns and the derived columns. *)
Theorem preprocess_keeps_source_columns {L : Lib} (t d : DataFrame) :
  preprocess_ventas_body t = Ok d ->
  nrows d = nrows t /\
  (forall b, lookup "Beneficio" (columns t) = Some b ->
             lookup "Beneficio" (columns d) = Some b) /\
  (forall col,
     ~ In col ["Fecha Documento"; "Fecha"; "Año"; "Mes"; "Mes_Nombre";
               "Es_Online"; "Beneficio"] ->
     lookup col (columns d) = lookup col (columns t)).
Proof.
  intro Hd.
  destruct (body_ok_lookups t d Hd) as (tienda & _ & Hn & _ & Hframe & Hben & _).
  split; [exact Hn|]. split; [exact Hben|].
  intros col Hcol. apply Hframe. now apply str_in_not_In.
Qed.

Lemma preprocess_keeps_source_columns_witness :
  let d := preprocess_ventas (L := Sample.sample_lib) SampleTables.ventas in
  nrows d = nrows SampleTables.ventas /\
  (forall b, lookup "Beneficio" (columns SampleTables.ventas) = Some b ->
             lookup "Beneficio" (columns d) = Some b) /\
  (forall col,
     ~ In col ["Fecha Documento"; "Fecha"; "Año"; "Mes"; "Mes_Nombre";
               "Es_Online"; "Beneficio"] ->
     lookup col (columns d) = lookup col (columns SampleTables.ventas)).
Proof.
  apply (preprocess_keeps_source_columns (L := Sample.sample_lib)).
  vm_compute. reflexivity.
Defined.

(** X3.  After a run of the sales block that did not raise on a table with
    a document date, the date is the parsed date, and the year, the month
    and the month name are taken from it row by row: from the timestamp
    where the date parsed, missing where it did not. *)
Theorem date_parts_follow_parsed_date {L : Lib} (t d : DataFrame) (fecha : Series) :
  preprocess_ventas_body t = Ok d ->
  lookup "Fecha Documento" (columns t) = Some fecha ->
  lookup "Fecha Documento" (columns d) = Some (to_datetime fecha) /\
  exists anio mes nombre,
    lookup "Año" (columns d) = Some anio /\
    lookup "Mes" (columns d) = Some mes /\
    lookup "Mes_Nombre" (columns d) = Some nombre /\
    forall i,
      (forall ts, nth_error (parse_dates (values fecha)) i = Some (Some ts) ->
                  nth_error (values anio) i = Some (Num (inject_Z (year_of ts))) /\
                  nth_error (values mes) i = Some (Num (inject_Z (month_of ts))) /\
                  nth_error (values nombre) i = Some (Str (month_name ts))) /\
      (nth_error (parse_dates (values fecha)) i = Some None ->
       nth_error (values anio) i = Some NA /\
       nth_error (values mes) i = Some NA /\
       nth_error (values nombre) i = Some NA).
Proof.
  intros Hd Hf.
  destruct (body_ok_lookups t d Hd) as (tienda & _ & _ & _ & _ & _ & Hdates & Hparts & _).
  split.
  - rewrite (Hdates "Fecha Documento") by (left; reflexivity). now rewrite Hf.
  - destruct (Hparts fecha Hf) as (Hy & Hm & Hn).
    eexists _, _, _. split; [exact Hy|]. split; [exact Hm|]. split; [exact Hn|].
    intro i. unfold dt_year, dt_month, dt_strftime_B, dt_field, to_datetime.
    cbn [values]. rewrite !nth_error_map. split.
    + intros ts Hts. rewrite Hts. cbn. repeat split.
    + intros Hts. rewrite Hts. cbn. repeat split.
Qed.

Lemma date_parts_follow_parsed_date_witness :
  let d := preprocess_ventas (L := Sample.sample_lib) SampleTables.ventas in
  lookup "Fecha Documento" (columns d)
  = Some (to_datetime (L := Sample.sample_lib) (Sample.texts ["20240115"; "sin fecha"])) /\
  exists anio mes nombre,
    lookup "Año" (columns d) = Some anio /\
    lookup "Mes" (columns d) = Some mes /\
    lookup "Mes_Nombre" (columns d) = Some nombre /\
    forall i,
      (forall ts,
          nth_error (parse_dates (Lib := Sample.sample_lib)
                       (values (Sample.texts ["20240115"; "sin fecha"]))) i
          = Some (Some ts) ->
          nth_error (values anio) i
          = Some (Num (inject_Z (year_of (Lib := Sample.sample_lib) ts))) /\
          nth_error (values mes) i
          = Some (Num (inject_Z (month_of (Lib := Sample.sample_lib) ts))) /\
          nth_error (values nombre) i
          = Some (Str (month_name (Lib := Sample.sample_lib) ts))) /\
      (nth_error (parse_dates (Lib := Sample.sample_lib)
                    (values (Sample.texts ["20240115"; "sin fecha"]))) i = Some None ->
       nth_error (values anio) i = Some NA /\
       nth_error (values mes) i = Some NA /\
       nth_error (values nombre) i = Some NA).
Proof.
  apply (date_parts_follow_parsed_date (L := Sample.sample_lib) SampleTables.ventas).
  - vm_compute. reflexivity.
  - reflexivity.
Defined.

(** ** The preprocessors as methods *)

(** X4.  [preprocess_ventas_data] hands back the very object it was given,
    untouched, in two cases.  For an empty table nothing else happens.  For
    a table with rows and columns but no store column, the block raises
    KeyError on [df['Tienda']]: the copy is left behind, one line
    [Error preprocessing sales data: 'Tienda'] is printed, and no table
    that existed is changed. *)
Theorem preprocess_ventas_data_hands_back_input {L : Lib} (df_ventas : ref) (w : world) :
  (empty (load w df_ventas) = true ->
   preprocess_ventas_data df_ventas w = (Ok df_ventas, w)) /\
  (empty (load w df_ventas) = false ->
   lookup "Tienda" (columns (load w df_ventas)) = None ->
   preprocess_ventas_data df_ventas w
   = (Ok df_ventas,
      mkWorld (heap w ++ [load w df_ventas])
              (stdout w ++ ["Error preprocessing sales data: 'Tienda'"]))).
Proof.
  unfold preprocess_ventas_data, preprocess_with, bindM, read. split.
  - intro He. now rewrite He.
  - intros He HT. rewrite He.
    unfold try_except, bindM, new, lift.
    destruct (body_steps (load w df_ventas)) as (a & _ & _ & Hbody).
    rewrite Hbody, HT. reflexivity.
Qed.

Lemma preprocess_ventas_data_hands_back_input_witness :
  preprocess_ventas_data (L := Sample.sample_lib) 0%nat
    (mkWorld [SampleTables.ventas_sin_filas] [])
  = (Ok 0%nat, mkWorld [SampleTables.ventas_sin_filas] []) /\
  preprocess_ventas_data (L := Sample.sample_lib) 0%nat
    (mkWorld [SampleTables.ventas_sin_tienda] [])
  = (Ok 0%nat,
     mkWorld ([SampleTables.ventas_sin_tienda] ++ [SampleTables.ventas_sin_tienda])
             ([] ++ ["Error preprocessing sales data: 'Tienda'"])).
Proof.
  split.
  - exact (proj1 (preprocess_ventas_data_hands_back_input (L := Sample.sample_lib) 0%nat
                    (mkWorld [SampleTables.ventas_sin_filas] [])) eq_refl).
  - exact (proj2 (preprocess_ventas_data_hands_back_input (L := Sample.sample_lib) 0%nat
                    (mkWorld [SampleTables.ventas_sin_tienda] [])) eq_refl eq_refl).
Defined.

(** X5.  On a table with rows and columns, the products and the transfers
    preprocessors never take the [except] path: they print nothing, return
    a new object, and in it every listed date column that exists is parsed
    and every other column, and the number of rows, is as in the input.
    No table that existed is changed. *)
Theorem date_preprocessors_parse_listed_columns {L : Lib} (df_in : ref) (w : world) :
  (df_in < List.length (heap w))%nat ->
  empty (load w df_in) = false ->
  (exists w',
     preprocess_productos_data df_in w = (Ok (List.length (heap w)), w') /\
     stdout w' = stdout w /\
     nrows (load w' (List.length (heap w))) = nrows (load w df_in) /\
     (forall c, lookup c (columns (load w' (List.length (heap w))))
                = option_map
                    (fun s => if str_in c ["Fecha Entrada Almacén"; "Fecha Documento"]
                              then to_datetime s else s)
                    (lookup c (columns (load w df_in)))) /\
     (forall r, (r < List.length (heap w))%nat -> load w' r = load w r)) /\
  (exists w',
     preprocess_traspasos_data df_in w = (Ok (List.length (heap w)), w') /\
     stdout w' = stdout w /\
     nrows (load w' (List.length (heap w))) = nrows (load w df_in) /\
     (forall c, lookup c (columns (load w' (List.length (heap w))))
                = option_map
                    (fun s => if str_in c ["Fecha Documento"; "Fecha Envío"]
                              then to_datetime s else s)
                    (lookup c (columns (load w df_in)))) /\
     (forall r, (r < List.length (heap w))%nat -> load w' r = load w r)).
Proof.
  intros Hin Hne.
  assert (G : forall what cols, NoDup cols ->
    exists w',
      preprocess_with what (fix_dates cols) df_in w = (Ok (List.length (heap w)), w') /\
      stdout w' = stdout w /\
      nrows (load w' (List.length (heap w))) = nrows (load w df_in) /\
      (forall c, lookup c (columns (load w' (List.length (heap w))))
                 = option_map (fun s => if str_in c cols then to_datetime s else s)
                              (lookup c (columns (load w df_in)))) /\
      (forall r, (r < List.length (heap w))%nat -> load w' r = load w r)).
  { intros what cols Hnd.
    destruct (fix_dates_spec cols (load w df_in) Hnd) as (z & Hz & Hn & _ & Hl).
    unfold preprocess_with, bindM, read. rewrite Hne.
    unfold try_except, bindM, new, lift, write, ret. rewrite Hz.
    eexists. split; [reflexivity|]. cbn [stdout heap]. split; [reflexivity|].
    unfold load in *. cbn [heap]. rewrite update_last, nth_middle.
    split; [exact Hn|]. split; [exact Hl|].
    intros r Hr. now rewrite app_nth1. }
  split; apply G; repeat constructor; cbn; intuition discriminate.
Qed.

Lemma date_preprocessors_parse_listed_columns_witness :
  let w := mkWorld [SampleExtra.productos_con_fecha] [] in
  exists w',
    preprocess_productos_data (L := Sample.sample_lib) 0%nat w = (Ok 1%nat, w') /\
    stdout w' = [] /\
    load w' 1%nat
    = mkFrame 2
        [ ("Código único", Sample.texts ["A1"; "B2"]);
          ("Fecha Documento", mkSeries datetime64 [Timestamp 20240115; NA]);
          ("Precio Coste", Sample.floats [7; 20]) ] /\
    (forall c, lookup c (columns (load w' 1%nat))
               = option_map
                   (fun s => if str_in c ["Fecha Entrada Almacén"; "Fecha Documento"]
                             then to_datetime (L := Sample.sample_lib) s else s)
                   (lookup c (columns SampleExtra.productos_con_fecha))) /\
    load w' 0%nat = SampleExtra.productos_con_fecha.
Proof.
  intro w.
  assert (Hin : (0 < List.length (heap w))%nat) by (cbn; lia).
  destruct (proj1 (date_preprocessors_parse_listed_columns (L := Sample.sample_lib)
                     0%nat w Hin eq_refl)) as (w' & Hrun & Hout & _ & Hcols & Hkeep).
  exists w'. split; [exact Hrun|]. split; [exact Hout|]. split; [|split].
  - assert (Hw : (Ok 1%nat, w')
                 = preprocess_productos_data (L := Sample.sample_lib) 0%nat w)
      by (symmetry; exact Hrun).
    vm_compute in Hw. injection Hw as ->. reflexivity.
  - exact Hcols.
  - exact (Hkeep 0%nat Hin).
Defined.

(** ** The KPI summary *)

Section Kpis.
Context {L : Lib}.

Lemma getitem_take (c : string) (mask : list bool) (df : DataFrame) :
  getitem (take mask df) c
  = match lookup c (columns df) with
    | Some s => Ok (mkSeries (dtype_of s) (select mask (values s)))
    | None => Raise (KeyError c)
    end.
Proof.
  rewrite getitem_lookup, lookup_take. now destruct (lookup c (columns df)).
Qed.

Lemma has_column_take (c : string) (mask : list bool) (df : DataFrame) :
  has_column c (take mask df) = has_column c df.
Proof.
  rewrite !has_column_lookup, lookup_take. now destruct (lookup c (columns df)).
Qed.

Lemma select_nil_mask {A : Type} (l : list A) : select [] l = [].
Proof. reflexivity. Qed.

Lemma select_nil {A : Type} (mask : list bool) : select mask (@nil A) = [].
Proof. destruct mask as [|[] m]; reflexivity. Qed.

End Kpis.

(** X6.  [calculate_basic_kpis] on a table without rows (every column it
    has holds no cell; the online flag, when there is one, is a column of
    type bool or object) returns, without raising, zero for every amount
    and every count. *)
Theorem kpis_of_table_without_rows {L : Lib} (t : DataFrame) :
  (forall c s, lookup c (columns t) = Some s -> values s = []) ->
  (forall s, lookup "Es_Online" (columns t) = Some s ->
             dtype_of s = boolean \/ dtype_of s = object) ->
  calculate_basic_kpis t = Ok (mkKpis (Num 0) (Num 0) 0 (Num 0) (Num 0) 0 0).
Proof.
  intros H Hd. unfold calculate_basic_kpis, sum_of, nunique_of.
  rewrite !has_column_lookup, !getitem_lookup.
  assert (Hempty : forall m, empty (take m t) = true \/ m <> []).
  { intros [|x m]; [left|right; discriminate]. unfold empty, take. cbn [nrows].
    now rewrite firstn_nil. }
  assert (Hnone : forall n, empty (mkFrame n []) = true).
  { intro n. unfold empty. cbn [nrows columns List.length]. apply orb_true_r. }
  assert (Hsel : forall e, lookup "Es_Online" (columns t) = Some e ->
            (forall flip, select_by e flip t = Ok (take [] t)) \/
            (forall flip, select_by e flip t = Ok (mkFrame (nrows t) []))).
  { intros [d l] E. pose proof (H _ _ E) as Hl. cbn in Hl. subst l.
    destruct (Hd _ E) as [Hb|Hb]; cbn in Hb; subst d; [left|right];
      intros []; reflexivity. }
  destruct (lookup "Beneficio" (columns t)) as [b|] eqn:EB;
  destruct (lookup "Familia" (columns t)) as [f|] eqn:EF;
  destruct (lookup "Cantidad" (columns t)) as [c|] eqn:EC;
  destruct (lookup "Es_Online" (columns t)) as [e|] eqn:EE;
  destruct (lookup "Tienda" (columns t)) as [s|] eqn:ES;
  try (destruct (Hsel _ eq_refl) as [Hm|Hm]);
  clear Hsel Hd;
  repeat match goal with
         | E : lookup _ (columns t) = Some ?x |- _ =>
             is_var x; pose proof (H _ _ E); destruct x as [? ?];
             cbn [values] in *; subst
         end;
  cbn [bind values lt0 mapM sum forallb nunique distinct List.length map];
  rewrite ?Hm; cbn [bind map];
  rewrite ?Hnone;
  rewrite ?has_column_take, ?getitem_take, ?has_column_lookup, ?getitem_lookup,
    ?EB, ?EF, ?EC, ?EE, ?ES;
  destruct (Hempty []) as [He|He]; try congruence; rewrite ?He;
  cbn [bind values sum forallb nunique distinct List.length select negb andb abs
       lookup columns];
  reflexivity.
Qed.

Lemma kpis_of_table_without_rows_witness :
  calculate_basic_kpis (L := Sample.sample_lib) (SampleExtra.procesadas_sin_filas boolean)
  = Ok (mkKpis (Num 0) (Num 0) 0 (Num 0) (Num 0) 0 0) /\
  calculate_basic_kpis (L := Sample.sample_lib) (SampleExtra.procesadas_sin_filas object)
  = Ok (mkKpis (Num 0) (Num 0) 0 (Num 0) (Num 0) 0 0).
Proof.
  split.
  - apply (kpis_of_table_without_rows (L := Sample.sample_lib)
             (SampleExtra.procesadas_sin_filas boolean)).
    + intros c s. cbn.
      repeat (destruct (String.eqb c _); [intros [= <-]; reflexivity|]).
      discriminate.
    + intros s. cbn. intros [= <-]. left. reflexivity.
  - apply (kpis_of_table_without_rows (L := Sample.sample_lib)
             (SampleExtra.procesadas_sin_filas object)).
    + intros c s. cbn.
      repeat (destruct (String.eqb c _); [intros [= <-]; reflexivity|]).
      discriminate.
    + intros s. cbn. intros [= <-]. right. reflexivity.
Defined.

Lemma fold_sum_acc (l : list value) (a : Q) :
  fold_left (fun acc v => match v with Num q => acc + q | _ => acc end) l a
  == a + add_numbers l.
Proof.
  unfold add_numbers. revert a. induction l as [|v r IH]; intro a; cbn.
  - lra.
  - destruct v; rewrite IH; try reflexivity.
    rewrite (IH (0 + q)). lra.
Qed.

Lemma add_numbers_cons (v : value) (l : list value) :
  add_numbers (v :: l) == match v with Num q => q | _ => 0 end + add_numbers l.
Proof.
  unfold add_numbers at 1. cbn [fold_left].
  destruct v; rewrite fold_sum_acc; lra.
Qed.

Lemma add_numbers_split (m : list bool) (l : list value) :
  List.length m = List.length l ->
  add_numbers (select m l) + add_numbers (select (map negb m) l) == add_numbers l.
Proof.
  revert l. induction m as [|b m IH]; intros [|v l] H; cbn in H; try discriminate.
  - reflexivity.
  - injection H as H. specialize (IH l H). cbn [select map].
    destruct b; cbn [negb]; rewrite !add_numbers_cons; lra.
Qed.

Lemma select_numeric (m : list bool) (l : list value) :
  forallb is_number_or_na l = true -> forallb is_number_or_na (select m l) = true.
Proof.
  revert l. induction m as [|b m IH]; intros [|v l] H; try reflexivity.
  cbn in H. apply andb_true_iff in H as [Hv H].
  destruct b; cbn; [rewrite Hv|]; now apply IH.
Qed.

Lemma select_none (m : list bool) (l : list value) :
  count_true m = 0%nat -> select m l = [].
Proof.
  unfold count_true. revert l. induction m as [|b m IH]; intros [|v l] H; try reflexivity.
  destruct b; cbn in H; [discriminate|]. cbn. now apply IH.
Qed.

(** *** Sums that are exact *)

Lemma magnitude_nonneg (l : list value) : 0 <= magnitude l.
Proof.
  unfold magnitude. induction l as [|v r IH]; cbn [fold_right]; [lra|].
  destruct v; try exact IH. pose proof (Qabs_nonneg q). lra.
Qed.

Lemma magnitude_select (m : list bool) (l : list value) :
  magnitude (select m l) <= magnitude l.
Proof.
  revert l. induction m as [|b m IH]; intros [|v l]; cbn [select];
    try apply magnitude_nonneg; try (apply Qle_refl).
  specialize (IH l). pose proof (magnitude_nonneg l) as Hl.
  unfold magnitude in *. destruct b; cbn [fold_right].
  - destruct v; lra.
  - destruct v; try exact IH. pose proof (Qabs_nonneg q). lra.
Qed.

Section ExactSums.
Context {L : Lib}.

Lemma exact_sum_select (m : list bool) (l : list value) :
  exact_sum l = true -> exact_sum (select m l) = true.
Proof.
  unfold exact_sum. intro H. apply andb_true_iff in H as [Hw Hm].
  apply andb_true_iff. split.
  - clear Hm. revert l Hw. induction m as [|b m IH]; intros [|v l] Hw; try reflexivity.
    cbn in Hw. apply andb_true_iff in Hw as [Hv Hw].
    destruct b; cbn; [rewrite Hv|]; now apply IH.
  - apply Qle_bool_iff. apply Qle_bool_iff in Hm.
    exact (Qle_trans _ _ _ (magnitude_select m l) Hm).
Qed.

Lemma sum_numbers_exact (l : list value) :
  exact_sum l = true -> sum_numbers l = add_numbers l.
Proof. intro H. unfold sum_numbers. now rewrite H. Qed.

Lemma select_by_boolean (s : Series) (flip : bool) (df : DataFrame) :
  dtype_of s = boolean -> first_not_bool (values s) = None ->
  select_by s flip df
  = Ok (take (if flip then map negb (bools (values s)) else bools (values s)) df).
Proof. intros Hd Hb. unfold select_by, as_mask. now rewrite Hd, Hb. Qed.

End ExactSums.

(** X7.  When [calculate_basic_kpis] returns for a table with an online
    flag of type bool and a margin column of whole numbers whose absolute
    values add up to at most 2^53 (so that the three sums are exact), the
    three amounts are numbers and the total margin is the margin of the
    physical stores plus the margin of the online stores. *)
Theorem total_margin_is_physical_plus_online {L : Lib}
    (t : DataFrame) (k : kpis) (beneficio es_online : Series) :
  calculate_basic_kpis t = Ok k ->
  lookup "Beneficio" (columns t) = Some beneficio ->
  SpecMargin.numeric_cells beneficio ->
  exact_sum (values beneficio) = true ->
  lookup "Es_Online" (columns t) = Some es_online ->
  dtype_of es_online = boolean ->
  first_not_bool (values es_online) = None ->
  List.length (values beneficio) = nrows t ->
  List.length (values es_online) = nrows t ->
  exists total fisicas online,
    total_ventas_dinero k = Num total /\
    ventas_fisicas_dinero k = Num fisicas /\
    ventas_online_dinero k = Num online /\
    total == fisicas + online.
Proof.
  intros Hk HB HBn Hex HE Hdt Hbool HlB HlE. revert Hk.
  unfold calculate_basic_kpis, sum_of.
  rewrite !(has_column_lookup "Beneficio" t), !(has_column_lookup "Es_Online" t).
  rewrite !(getitem_lookup "Beneficio" t), !(getitem_lookup "Es_Online" t), HB, HE.
  cbn [bind]. unfold sum at 1. unfold SpecMargin.numeric_cells in HBn. rewrite HBn.
  cbn [bind].
  destruct (if has_column "Familia" t then _ else _) as [nf|]; cbn [bind]; [|discriminate].
  destruct (if has_column "Cantidad" t then _ else _) as [dev|]; cbn [bind]; [|discriminate].
  destruct (if negb (empty dev) && _ then _ else _) as [td|]; cbn [bind]; [|discriminate].
  rewrite !(select_by_boolean _ _ _ Hdt Hbool). cbn [bind].
  set (m := bools (values es_online)).
  rewrite !has_column_take, !getitem_take, !(has_column_lookup "Beneficio" t), HB.
  cbn [bind]. unfold sum at 1 2. cbn [values].
  rewrite !(select_numeric _ _ HBn). cbn [bind].
  assert (Hlm : List.length m = List.length (values beneficio)).
  { unfold m, bools. rewrite length_map. lia. }
  set (online := if negb (empty (take m t)) && true then _ else _).
  assert (Ho : online = Ok (Num (sum_numbers (select m (values beneficio))))).
  { unfold online. destruct (empty (take m t)) eqn:Ee; [|reflexivity].
    cbn [negb andb]. unfold empty in Ee. cbn [nrows columns take] in Ee.
    apply orb_true_iff in Ee as [Ee|Ee].
    - apply Nat.eqb_eq in Ee. rewrite firstn_all2 in Ee by lia.
      now rewrite (select_none _ _ Ee).
    - rewrite length_map in Ee. rewrite (lookup_some_not_nil _ _ _ HB) in Ee.
      discriminate. }
  rewrite Ho. cbn [bind].
  repeat match goal with
         | |- bind ?x _ = Ok _ -> _ => destruct x; cbn [bind]; [|discriminate]
         end.
  intros [= <-]. cbn.
  eexists _, _, _. repeat split.
  rewrite (sum_numbers_exact _ Hex), !(sum_numbers_exact _ (exact_sum_select _ _ Hex)).
  rewrite <- (add_numbers_split m (values beneficio) Hlm). lra.
Qed.

Lemma total_margin_is_physical_plus_online_witness :
  let k := mkKpis (Num (-13)) (Num 25) 0 (Num (-25)) (Num 12) 1 1 in
  exists total fisicas online,
    total_ventas_dinero k = Num total /\
    ventas_fisicas_dinero k = Num fisicas /\
    ventas_online_dinero k = Num online /\
    total == fisicas + online.
Proof.
  refine (total_margin_is_physical_plus_online (L := Sample.sample_lib)
            SampleTables.ventas_tras_cruce _
            (mkSeries numeric [Num 12; Num (-25)])
            (mkSeries boolean [Bool true; Bool false])
            _ eq_refl eq_refl eq_refl eq_refl eq_refl eq_refl eq_refl eq_refl).
  vm_compute. reflexivity.
Defined.

Ltac raise_cases :=
  repeat match goal with
         | H : bind ?x _ = Raise _ |- _ =>
             let E := fresh "E" in
             destruct x eqn:E; cbn [bind] in H; [|injection H as <-]
         | H : (if ?c then _ else _) = Raise _ |- _ => destruct c
         | H : Ok _ = Raise _ |- _ => discriminate H
         end.

Section KpiCards.
Context {L : Lib}.

Lemma sum_raise (s : Series) (e : exn) : sum s = Raise e -> is_Exception e = true.
Proof.
  unfold sum. destruct (forallb _ _); [discriminate|]. apply object_sum_raises.
Qed.

Lemma abs_raise (v : value) (e : exn) : abs v = Raise e -> is_Exception e = true.
Proof. destruct v; cbn; try discriminate; now intros [= <-]. Qed.

Lemma lt0_raise (s : Series) (e : exn) : lt0 s = Raise e -> is_Exception e = true.
Proof.
  apply (mapM_raise (fun e => is_Exception e = true)).
  intros v e'. destruct v; cbn; try discriminate; now intros [= <-].
Qed.

Lemma as_mask_raise (s : Series) (e : exn) : as_mask s = Raise e -> is_Exception e = true.
Proof.
  unfold as_mask.
  destruct (dtype_of s); destruct (first_not_bool (values s)) as [[| q | x | b | ts]|];
    try apply other_mask_raises; try discriminate; try (now intros [= <-]).
Qed.

Lemma select_by_raise (s : Series) (flip : bool) (df : DataFrame) (e : exn) :
  select_by s flip df = Raise e -> is_Exception e = true.
Proof.
  unfold select_by.
  assert (H : bind (as_mask s) (fun m => Ok (take (if flip then map negb m else m) df))
              = Raise e -> is_Exception e = true).
  { destruct (as_mask s) eqn:E; cbn [bind]; [discriminate|].
    intros [= <-]. exact (as_mask_raise _ _ E). }
  destruct (dtype_of s); try exact H.
  destruct (values s); [discriminate|exact H].
Qed.

Lemma money_raise (v : value) (e : exn) : money v = Raise e -> is_Exception e = true.
Proof. destruct v; cbn; try discriminate; now intros [= <-]. Qed.

Lemma calculate_basic_kpis_raise (t : DataFrame) (e : exn) :
  calculate_basic_kpis t = Raise e -> is_Exception e = true.
Proof.
  unfold calculate_basic_kpis, sum_of, nunique_of. intro H.
  raise_cases;
    eauto using getitem_raise, sum_raise, abs_raise, lt0_raise, select_by_raise.
Qed.

End KpiCards.

(** X8.  [create_kpi_cards] never raises: whatever [calculate_basic_kpis]
    or the formatting of an amount raises is turned into one danger alert
    that carries the error text.  So [create_general_summary] always
    returns, and it leaves every table as it was. *)
Theorem kpi_cards_never_raise {L : Lib} {C : Charts} (t : DataFrame) :
  (exists cards, create_kpi_cards t = Ok cards) /\
  (forall e, calculate_basic_kpis t = Raise e ->
             create_kpi_cards t
             = Ok [Alert ("Error calculando KPIs: " ++ str_of_exn e) "danger"]) /\
  (forall df_ventas w,
     load w df_ventas = t ->
     exists components, create_general_summary df_ventas w = (Ok components, w)).
Proof.
  assert (H1 : exists cards, create_kpi_cards t = Ok cards).
  { unfold create_kpi_cards, catch.
    match goal with |- exists _, match ?b with _ => _ end = _ => destruct b eqn:Eb end.
    - eauto.
    - assert (He : is_Exception e = true).
      { raise_cases;
          eauto using calculate_basic_kpis_raise, money_raise. }
      rewrite He. eauto. }
  split; [exact H1|]. split.
  - intros e He. unfold create_kpi_cards, catch. rewrite He. cbn [bind].
    now rewrite (calculate_basic_kpis_raise t e He).
  - intros df_ventas w Hload. destruct H1 as (cards & Hc).
    unfold create_general_summary, try_except, bindM, read, lift, ret.
    rewrite Hload, Hc. eauto.
Qed.

Lemma kpi_cards_never_raise_witness :
  create_kpi_cards (L := Sample.sample_lib)
    (mkFrame 1 [("Es_Online", Sample.texts ["si"])])
  = Ok [Alert "Error calculando KPIs: bad operand type for unary ~: 'str'" "danger"].
Proof.
  exact (proj1 (proj2 (kpi_cards_never_raise (L := Sample.sample_lib)
                         (C := Sample.sample_charts)
                         (mkFrame 1 [("Es_Online", Sample.texts ["si"])])))
           (TypeError "bad operand type for unary ~: 'str'") eq_refl).
Defined.

(** ** The cost join as a left join *)

Lemma join_rows_fst_ge (lkeys rkeys : list value) (from i : nat) :
  In i (map fst (join_rows lkeys rkeys from)) -> (from <= i < from + List.length lkeys)%nat.
Proof.
  revert from. induction lkeys as [|k r IH]; intros from; cbn; [tauto|].
  rewrite map_app, in_app_iff. intros [H|H].
  - assert (i = from); [|lia].
    destruct (positions k rkeys 0) as [|j js]; cbn in H.
    + destruct H as [H|[]]. now symmetry.
    + rewrite map_map in H. cbn in H.
      destruct H as [H|H]; [now symmetry|].
      apply in_map_iff in H as (x & Hx & _). now symmetry.
  - apply IH in H. lia.
Qed.

Lemma count_occ_block (k : value) (rkeys : list value) (from : nat) :
  count_occ Nat.eq_dec
    (map fst match positions k rkeys 0 with
             | [] => [(from, None)]
             | js => map (fun j => (from, Some j)) js
             end) from
  = Nat.max 1 (List.length (positions k rkeys 0)).
Proof.
  destruct (positions k rkeys 0) as [|j js].
  - cbn [map fst count_occ List.length].
    destruct (Nat.eq_dec from from); [reflexivity|congruence].
  - rewrite map_map. cbn [fst].
    assert (G : forall l : list nat,
               count_occ Nat.eq_dec (map (fun _ => from) l) from = List.length l).
    { induction l as [|x l IH]; [reflexivity|].
      cbn [map count_occ List.length].
      destruct (Nat.eq_dec from from); [now rewrite IH|congruence]. }
    rewrite G. cbn [List.length]. lia.
Qed.

(** How often a sales row stands in the joined table: once per products
    row with its code, and once when there is none. *)
Lemma join_rows_count (lkeys rkeys : list value) (from i : nat) (k : value) :
  nth_error lkeys i = Some k ->
  count_occ Nat.eq_dec (map fst (join_rows lkeys rkeys from)) (from + i)%nat
  = Nat.max 1 (List.length (positions k rkeys 0)).
Proof.
  revert from i. induction lkeys as [|k0 r IH]; intros from i; [now destruct i|].
  cbn [join_rows]. rewrite map_app, count_occ_app. destruct i as [|i]; cbn [nth_error].
  - intros [= ->]. rewrite Nat.add_0_r, count_occ_block.
    rewrite (proj1 (count_occ_not_In Nat.eq_dec _ from)); [lia|].
    intro H. apply join_rows_fst_ge in H. lia.
  - intro H. replace (from + S i)%nat with (S from + i)%nat by lia.
    rewrite (IH (S from) i H).
    rewrite (proj1 (count_occ_not_In Nat.eq_dec _ (S from + i)%nat)); [lia|].
    intro Hin. destruct (positions k0 rkeys 0) as [|j js]; cbn in Hin.
    + lia.
    + rewrite map_map in Hin. cbn in Hin.
      destruct Hin as [Hin|Hin]; [lia|].
      apply in_map_iff in Hin as (x & Hx & _). lia.
Qed.

Lemma join_rows_sorted (lkeys rkeys : list value) (from : nat) :
  StronglySorted le (map fst (join_rows lkeys rkeys from)).
Proof.
  revert from. induction lkeys as [|k r IH]; intros from; [constructor|].
  cbn [join_rows]. rewrite map_app.
  match goal with |- StronglySorted le (?b ++ _) => set (block := b) end.
  assert (Hblock : forall x, In x block -> x = from).
  { intros x H. unfold block in H.
    destruct (positions k rkeys 0) as [|j js]; cbn in H.
    - destruct H as [H|[]]. now symmetry.
    - rewrite map_map in H. cbn in H.
      destruct H as [H|H]; [now symmetry|].
      apply in_map_iff in H as (y & Hy & _). now symmetry. }
  clearbody block.
  induction block as [|x l IHl]; cbn [app].
  - apply IH.
  - constructor.
    + apply IHl. intros y Hy. apply Hblock. now right.
    + apply Forall_forall. intros y Hy. apply in_app_iff in Hy as [Hy|Hy].
      * rewrite (Hblock x (or_introl eq_refl)), (Hblock y (or_intror Hy)). lia.
      * apply join_rows_fst_ge in Hy. rewrite (Hblock x (or_introl eq_refl)). lia.
Qed.

Section LeftJoin.
Context {L : Lib}.

Lemma merge_cost_columns (v p out : DataFrame) (lk rk : Series) :
  merge_cost v p = Ok out ->
  lookup "Código único" (columns v) = Some lk ->
  lookup "Código único" (columns p) = Some rk ->
  nrows out = List.length (join_rows (values lk) (values rk) 0) /\
  forall c, String.eqb c "Precio Coste" = false ->
            String.eqb c "Precio Coste_producto" = false ->
            lookup c (columns out)
            = lookup c (columns (take_rows (map fst (join_rows (values lk) (values rk) 0)) v)).
Proof.
  unfold merge_cost. intros H Elk Erk. revert H.
  rewrite !has_column_lookup, Elk, Erk.
  cbn [andb]. rewrite (getitems_cost p rk Erk).
  destruct (lookup "Precio Coste" (columns p)) as [pc|] eqn:Epc; [|discriminate].
  cbn [bind]. rewrite (merge_left_cost v _ lk rk pc Elk).
  destruct (merge_key_error lk rk); [discriminate|]. cbv zeta. cbn [bind].
  set (rows := join_rows (values lk) (values rk) 0).
  set (lcols := columns (take_rows (map fst rows) v)).
  set (rcol := (if has_column "Precio Coste" v then _ else _, _)).
  set (merged := mkFrame _ _).
  assert (F : forall c, String.eqb c "Precio Coste" = false ->
                        String.eqb c "Precio Coste_producto" = false ->
                        lookup c (columns merged) = lookup c lcols).
  { intros c H1 H2. unfold merged. cbn [columns]. rewrite lookup_app.
    destruct (lookup c lcols); [reflexivity|].
    unfold rcol. destruct (has_column "Precio Coste" v); cbn.
    - now rewrite H2.
    - now rewrite H1. }
  destruct (has_column "Precio Coste_producto" merged).
  - destruct (1 <? count_label "Precio Coste_producto" merged)%nat; [discriminate|].
    destruct (getitem merged "Precio Coste_producto") as [joined|]; [|discriminate].
    cbn [bind].
    destruct (lookup "Precio Coste" (columns merged)) as [own|]; [|discriminate].
    cbn [bind]. intros [= <-]. split; [reflexivity|].
    intros c H1 H2.
    rewrite lookup_drop_column by (now rewrite String.eqb_sym).
    rewrite lookup_setitem, H1. now apply F.
  - intros [= <-]. split; [reflexivity|exact F].
Qed.

End LeftJoin.

(** X9.  The cost join is a left join in the order of the sales table.
    When both tables have the product code and the join returns, the
    result has one row per pair of a sales row and a products row with the
    same code, and one row for a sales row whose code is not in the
    products table: no sales row is lost, a code that stands [n] times in
    the products table repeats the sales row [n] times, and the rows keep
    the order of the sales table.  Every column other than the cost is
    carried over from the sales row. *)
Theorem cost_join_keeps_every_sales_row {L : Lib} (v p out : DataFrame) (lk rk : Series) :
  merge_cost v p = Ok out ->
  lookup "Código único" (columns v) = Some lk ->
  lookup "Código único" (columns p) = Some rk ->
  let rows := map fst (join_rows (values lk) (values rk) 0) in
  nrows out = List.length rows /\
  StronglySorted le rows /\
  (forall i k, nth_error (values lk) i = Some k ->
               count_occ Nat.eq_dec rows i
               = Nat.max 1 (List.length (positions k (values rk) 0))) /\
  (forall c s, c <> "Precio Coste" -> c <> "Precio Coste_producto" ->
               lookup c (columns v) = Some s ->
               lookup c (columns out)
               = Some (mkSeries (dtype_of s) (map (fun i => nth i (values s) NA) rows))).
Proof.
  intros H Elk Erk rows.
  destruct (merge_cost_columns v p out lk rk H Elk Erk) as (Hn & Hc).
  split; [unfold rows; now rewrite length_map|].
  split; [apply join_rows_sorted|]. split.
  - intros i k Hk. exact (join_rows_count (values lk) (values rk) 0 i k Hk).
  - intros c s H1 H2 Hs. apply String.eqb_neq in H1, H2.
    rewrite (Hc c H1 H2), lookup_take_rows, Hs. reflexivity.
Qed.

Lemma cost_join_keeps_every_sales_row_witness :
  let v := preprocess_ventas (L := Sample.sample_lib) SampleTables.ventas in
  let rows := map fst (join_rows (values (Sample.texts ["A1"; "B2"]))
                                 (values (Sample.texts ["A1"; "B2"])) 0) in
  nrows SampleTables.ventas_tras_cruce = List.length rows /\
  StronglySorted le rows /\
  (forall i k, nth_error (values (Sample.texts ["A1"; "B2"])) i = Some k ->
               count_occ Nat.eq_dec rows i
               = Nat.max 1 (List.length
                              (positions k (values (Sample.texts ["A1"; "B2"])) 0))) /\
  (forall c s, c <> "Precio Coste" -> c <> "Precio Coste_producto" ->
               lookup c (columns v) = Some s ->
               lookup c (columns SampleTables.ventas_tras_cruce)
               = Some (mkSeries (dtype_of s) (map (fun i => nth i (values s) NA) rows))).
Proof.
  refine (cost_join_keeps_every_sales_row (L := Sample.sample_lib)
            (preprocess_ventas (L := Sample.sample_lib) SampleTables.ventas)
            SampleTables.productos SampleTables.ventas_tras_cruce
            (Sample.texts ["A1"; "B2"]) (Sample.texts ["A1"; "B2"]) _ _ eq_refl).
  - vm_compute. reflexivity.
  - vm_compute. reflexivity.
Defined.

(** ** Errors that leave [create_dashboard_content] *)

Section DashboardErrors.
Context {L : Lib} {C : Charts}.

Lemma preprocess_ventas_lookup (t : DataFrame) (col : string) :
  str_in col ["Fecha Documento"; "Fecha"; "Año"; "Mes"; "Mes_Nombre";
              "Es_Online"; "Beneficio"] = false ->
  lookup col (columns (preprocess_ventas t)) = lookup col (columns t).
Proof.
  intro H. unfold preprocess_ventas, preprocessed.
  destruct (empty t); [reflexivity|].
  destruct (preprocess_ventas_body t) as [d|e] eqn:Hd; [|reflexivity].
  destruct (body_ok_lookups t d Hd) as (tienda & _ & _ & _ & Hframe & _).
  now apply Hframe.
Qed.

(** An error of the cost join is not caught: it leaves the method. *)
Lemma create_dashboard_content_raise
    (df_productos df_traspasos df_ventas : ref) (seccion : string) (w : world) (e : exn) :
  (df_productos < List.length (heap w))%nat ->
  (df_traspasos < List.length (heap w))%nat ->
  (df_ventas < List.length (heap w))%nat ->
  dashboard_ventas (load w df_ventas) (load w df_productos) = Raise e ->
  fst (create_dashboard_content df_productos df_traspasos df_ventas seccion w) = Raise e.
Proof.
  intros Hp Ht Hv Hout.
  unfold create_dashboard_content, bindM.
  destruct (preprocess_ventas_data_table df_ventas w Hv)
    as (rv & w1 & E1 & T1 & F1 & Len1 & In1).
  rewrite E1.
  destruct (preprocess_with_table "products" preprocess_productos_body df_productos w1)
    as (rp & w2 & E2 & T2 & F2 & Len2 & In2);
    [apply fix_dates_raise|lia|].
  unfold preprocess_productos_data. rewrite E2.
  destruct (preprocess_with_table "transfers" preprocess_traspasos_body df_traspasos w2)
    as (rt & w3 & E3 & T3 & F3 & Len3 & In3);
    [apply fix_dates_raise|lia|].
  unfold preprocess_traspasos_data. rewrite E3.
  unfold read at 1 2.
  assert (Hlv : load w3 rv = preprocess_ventas (load w df_ventas)).
  { rewrite F3, F2 by lia. exact T1. }
  assert (Hlp : load w3 rp = preprocessed preprocess_productos_body (load w df_productos)).
  { rewrite F3 by lia. rewrite T2. now rewrite F1 by lia. }
  rewrite Hlv, Hlp. unfold dashboard_ventas in Hout.
  destruct (has_column "Código único" (preprocess_ventas (load w df_ventas)) &&
            has_column "Código único"
              (preprocessed preprocess_productos_body (load w df_productos))) eqn:Ec.
  - unfold lift. now rewrite Hout.
  - unfold merge_cost in Hout. rewrite Ec in Hout. discriminate.
Qed.

End DashboardErrors.

Lemma create_dashboard_content_keyerror {L : Lib} {C : Charts}
    (df_productos df_traspasos df_ventas : ref) (seccion : string) (w : world)
    (lk rk : Series) :
  (df_productos < List.length (heap w))%nat ->
  (df_traspasos < List.length (heap w))%nat ->
  (df_ventas < List.length (heap w))%nat ->
  lookup "Código único" (columns (load w df_ventas)) = Some lk ->
  lookup "Código único" (columns (load w df_productos)) = Some rk ->
  lookup "Precio Coste" (columns (load w df_productos)) = None ->
  fst (create_dashboard_content df_productos df_traspasos df_ventas seccion w)
  = Raise (KeyError "['Precio Coste'] not in index").
Proof.
  intros Hp Ht Hv Elk Erk Epc.
  apply create_dashboard_content_raise; try assumption.
  unfold dashboard_ventas, merge_cost.
  rewrite !has_column_lookup.
  rewrite (preprocess_ventas_lookup _ "Código único" eq_refl), Elk.
  rewrite (preprocessed_productos_lookup _ "Código único" eq_refl), Erk.
  cbn [andb].
  rewrite (getitems_cost _ rk)
    by (now rewrite (preprocessed_productos_lookup _ "Código único" eq_refl)).
  rewrite (preprocessed_productos_lookup _ "Precio Coste" eq_refl), Epc.
  reflexivity.
Qed.

(** X10.  When the sales table and the products table both have the
    product code and the products table has no cost column,
    [df_productos[['Código único', 'Precio Coste']]] raises KeyError with
    the message that ['Precio Coste'] is not in the index, and no handler
    stands between it and the caller: [create_dashboard_content] raises
    for every section. *)
Theorem dashboard_raises_without_products_cost {L : Lib} {C : Charts}
    (df_productos df_traspasos df_ventas : ref) (seccion : string) (w : world)
    (lk rk : Series) :
  (df_productos < List.length (heap w))%nat ->
  (df_traspasos < List.length (heap w))%nat ->
  (df_ventas < List.length (heap w))%nat ->
  lookup "Código único" (columns (load w df_ventas)) = Some lk ->
  lookup "Código único" (columns (load w df_productos)) = Some rk ->
  lookup "Precio Coste" (columns (load w df_productos)) = None ->
  fst (create_dashboard_content df_productos df_traspasos df_ventas seccion w)
  = Raise (KeyError "['Precio Coste'] not in index").
Proof.
  apply create_dashboard_content_keyerror.
Qed.

Lemma dashboard_raises_without_products_cost_witness :
  fst (create_dashboard_content (L := Sample.sample_lib) (C := Sample.sample_charts)
         0%nat 1%nat 2%nat "resumen"
         (mkWorld [SampleExtra.productos_sin_coste; empty_frame; SampleTables.ventas] []))
  = Raise (KeyError "['Precio Coste'] not in index").
Proof.
  refine (dashboard_raises_without_products_cost (L := Sample.sample_lib)
            (C := Sample.sample_charts) 0%nat 1%nat 2%nat "resumen"
            (mkWorld [SampleExtra.productos_sin_coste; empty_frame; SampleTables.ventas] [])
            (Sample.texts ["A1"; "B2"]) (Sample.texts ["A1"; "B2"])
            _ _ _ eq_refl eq_refl eq_refl); cbn; lia.
Defined.

Lemma lt0_raises_on_text (l : list value) (v : value) :
  In v l -> (forall q, v <> Num q) -> v <> NA -> (forall b, v <> Bool b) ->
  exists msg, mapM cell_lt0 l = Raise (TypeError msg).
Proof.
  intros Hin Hq Hna Hb. induction l as [|x r IH]; [destruct Hin|].
  cbn [mapM]. destruct x as [| q | s | b | t]; cbn [cell_lt0 bind];
    try (eexists; reflexivity);
    (destruct Hin as [<-|Hin];
     [first [ now destruct Hna | now destruct (Hq q) | now destruct (Hb b) ]|]);
    destruct (IH Hin) as (msg & ->); eexists; reflexivity.
Qed.

(** X11.  [create_product_analysis] has no [try]: when the quantity column
    holds a text or a timestamp, the comparison [Cantidad < 0] raises
    TypeError and the method raises it to its caller, with every table as
    it was. *)
Theorem product_analysis_raises_on_text_quantity {L : Lib} {C : Charts}
    (df_ventas : ref) (w : world) (cantidad : Series) (v : value) :
  lookup "Cantidad" (columns (load w df_ventas)) = Some cantidad ->
  In v (values cantidad) ->
  (exists s, v = Str s) \/ (exists t, v = Timestamp t) ->
  exists msg, create_product_analysis df_ventas w = (Raise (TypeError msg), w).
Proof.
  intros Hc Hin Hv.
  destruct (lt0_raises_on_text (values cantidad) v Hin) as (msg & Hmsg).
  - intros q ->. destruct Hv as [(s & [=])|(t & [=])].
  - intros ->. destruct Hv as [(s & [=])|(t & [=])].
  - intros b ->. destruct Hv as [(s & [=])|(t & [=])].
  - exists msg.
    unfold create_product_analysis, bindM, read, lift, returns_analysis.
    rewrite (has_column_lookup "Cantidad"), getitem_lookup, Hc. cbn [bind].
    unfold lt0. rewrite Hmsg. reflexivity.
Qed.

Lemma product_analysis_raises_on_text_quantity_witness :
  exists msg,
    create_product_analysis (L := Sample.sample_lib) (C := Sample.sample_charts) 0%nat
      (mkWorld [SampleExtra.ventas_cantidad_texto] [])
    = (Raise (TypeError msg), mkWorld [SampleExtra.ventas_cantidad_texto] []).
Proof.
  refine (product_analysis_raises_on_text_quantity (L := Sample.sample_lib)
            (C := Sample.sample_charts) 0%nat
            (mkWorld [SampleExtra.ventas_cantidad_texto] [])
            (mkSeries object [Num 3; Str "dos"]) (Str "dos") eq_refl _ _).
  - right. left. reflexivity.
  - left. exists "dos". reflexivity.
Defined.

(** ** [create_pvp_analysis] *)

Section Pvp.
Context {L : Lib}.

Lemma cut_raise (s : Series) (bins : list edge) (labels : list string) (e : exn) :
  cut s bins labels = Raise e -> is_Exception e = true.
Proof.
  unfold cut. destruct (mapM _ _) eqn:Em; cbn; [discriminate|]. intros [= <-].
  refine (mapM_raise (fun e => is_Exception e = true) _ _ _ _ Em).
  intros v e' H. destruct v; cbn in H; try discriminate; now injection H as <-.
Qed.

Lemma groupby_sum_raise (df : DataFrame) (by_col : string) (cats cols : list string)
    (e : exn) :
  groupby_sum df by_col cats cols = Raise e -> is_Exception e = true.
Proof.
  unfold groupby_sum.
  destruct (getitem df by_col) as [k|] eqn:Ek; cbn [bind];
    [|intros [= <-]; exact (getitem_raise _ _ _ Ek)].
  destruct (sort_texts _); cbn [bind]; [|now intros [= <-]].
  destruct (mapM _ cols) eqn:Em; cbn [bind]; [discriminate|]. intros [= <-].
  refine (mapM_raise (fun e => is_Exception e = true) _ _ _ _ Em).
  intros c e' H.
  destruct (getitem df c) as [s|] eqn:Es; cbn [bind] in H;
    [|injection H as <-; exact (getitem_raise _ _ _ Es)].
  destruct (mapM _ cats) eqn:Ec; cbn [bind] in H; [discriminate|]. injection H as <-.
  apply (mapM_raise (fun e => is_Exception e = true) _ _ _
           (fun cat e' => sum_raise _ e') Ec).
Qed.

End Pvp.

(** X12.  [create_pvp_analysis] never raises an error derived from
    [Exception] to its caller, prints nothing, and changes no table but
    the one it was given.  Without a list-price column it returns the
    warning alert and changes nothing at all.  Without a quantity column
    it returns a danger alert with the KeyError of [agg], which names the
    columns that do not exist, and the column of price ranges it has
    already assigned stays in the table. *)
Theorem pvp_analysis_never_raises {L : Lib} (df_ventas : ref) (w : world) :
  (df_ventas < List.length (heap w))%nat ->
  (exists components w',
     create_pvp_analysis df_ventas w = (Ok components, w') /\
     stdout w' = stdout w /\
     forall r, r <> df_ventas -> load w' r = load w r) /\
  (lookup "P.V.P." (columns (load w df_ventas)) = None ->
   create_pvp_analysis df_ventas w
   = (Ok [Alert "No hay datos de PVP disponibles" "warning"], w)) /\
  (forall pvp rango,
     lookup "P.V.P." (columns (load w df_ventas)) = Some pvp ->
     cut pvp price_bins price_labels = Ok rango ->
     lookup "Cantidad" (columns (load w df_ventas)) = None ->
     create_pvp_analysis df_ventas w
     = (Ok [Alert ("Error en análisis PVP: " ++ double_quote ++
                   (if has_column "Beneficio" (load w df_ventas)
                    then "Column(s) ['Cantidad'] do not exist"
                    else "Column(s) ['Beneficio', 'Cantidad'] do not exist")
                   ++ double_quote) "danger"],
        mkWorld (update df_ventas (setitem (load w df_ventas) "Rango_Precio" rango)
                        (heap w))
                (stdout w))).
Proof.
  intro Hin. split; [|split].
  - unfold create_pvp_analysis, try_except, bindM, read, lift, write, ret.
    rewrite has_column_lookup, getitem_lookup.
    destruct (lookup "P.V.P." (columns (load w df_ventas))) as [pvp|]; cbn [negb].
    + destruct (cut pvp price_bins price_labels) as [rango|e] eqn:Ecut.
      * set (w1 := mkWorld _ _).
        assert (Hother : forall r, r <> df_ventas -> load w1 r = load w r).
        { intros r Hr. unfold load, w1. cbn [heap].
          apply nth_update_other. congruence. }
        destruct (groupby_sum (load w1 df_ventas) _ _ _) as [g|e] eqn:Eg.
        -- eexists _, _. repeat split. exact Hother.
        -- rewrite (groupby_sum_raise _ _ _ _ _ Eg).
           eexists _, _. repeat split. exact Hother.
      * rewrite (cut_raise _ _ _ _ Ecut). eexists _, _. repeat split.
    + eexists _, _. repeat split.
  - intro Hp. unfold create_pvp_analysis, try_except, bindM, read, ret.
    now rewrite has_column_lookup, Hp.
  - intros pvp rango Hp Hcut Hc.
    unfold create_pvp_analysis, try_except, bindM, read, lift, write, ret.
    rewrite has_column_lookup, getitem_lookup, Hp. cbn [negb]. rewrite Hcut.
    set (w1 := mkWorld _ _).
    assert (Hload : load w1 df_ventas = setitem (load w df_ventas) "Rango_Precio" rango).
    { unfold load, w1. cbn [heap]. now apply nth_update_same. }
    rewrite Hload.
    unfold groupby_sum. rewrite getitem_lookup, lookup_setitem. cbn [bind filter].
    rewrite !has_column_lookup, !lookup_setitem. eqb_names. cbv iota. rewrite Hc.
    destruct (lookup "Beneficio" (columns (load w df_ventas))); reflexivity.
Qed.

Lemma pvp_analysis_never_raises_witness :
  let w := mkWorld [SampleExtra.ventas_sin_cantidad] [] in
  (exists components w',
     create_pvp_analysis (L := Sample.sample_lib) 0%nat w = (Ok components, w') /\
     stdout w' = [] /\
     forall r, r <> 0%nat -> load w' r = load w r) /\
  create_pvp_analysis (L := Sample.sample_lib) 0%nat w
  = (Ok [Alert ("Error en análisis PVP: " ++ double_quote ++
                "Column(s) ['Cantidad'] do not exist" ++ double_quote) "danger"],
     mkWorld [ mkFrame 1 [ ("P.V.P.", Sample.floats [10]);
                           ("Beneficio", Sample.floats [15]);
                           ("Rango_Precio", mkSeries category [Str "0-10€"]) ] ] []).
Proof.
  intro w.
  assert (Hin : (0 < List.length (heap w))%nat) by (cbn; lia).
  split.
  - exact (proj1 (pvp_analysis_never_raises (L := Sample.sample_lib) 0%nat w Hin)).
  - exact (proj2 (proj2 (pvp_analysis_never_raises (L := Sample.sample_lib) 0%nat w Hin))
             (Sample.floats [10]) (mkSeries category [Str "0-10€"])
             eq_refl eq_refl eq_refl).
Defined.

Lemma cut_numeric (s : Series) (bins : list edge) (labels : list string) :
  SpecMargin.numeric_cells s ->
  cut s bins labels
  = Ok (mkSeries category
          (map (fun v => match v with Num x => cut_number bins labels x | _ => NA end)
               (values s))).
Proof.
  unfold SpecMargin.numeric_cells, cut. induction (values s) as [|v r IH]; intro H.
  - reflexivity.
  - cbn in H. apply andb_true_iff in H as [Hv H]. specialize (IH H).
    cbn [mapM map]. destruct (mapM _ r) as [vs|]; cbn [bind] in IH; [|discriminate].
    injection IH as IH. destruct v; try discriminate; cbn; now rewrite IH.
Qed.

(** X13.  On a table whose list prices are numbers or missing cells,
    [create_pvp_analysis] leaves in the table it was given a column
    Rango_Precio with, row by row, the band of the price of that row (no
    band for a missing price), and leaves its other columns and its number
    of rows as they were. *)
Theorem pvp_analysis_labels_each_row {L : Lib} (df_ventas : ref) (w : world) (pvp : Series) :
  (df_ventas < List.length (heap w))%nat ->
  lookup "P.V.P." (columns (load w df_ventas)) = Some pvp ->
  SpecMargin.numeric_cells pvp ->
  let t' := load (snd (create_pvp_analysis df_ventas w)) df_ventas in
  nrows t' = nrows (load w df_ventas) /\
  (forall c, c <> "Rango_Precio" ->
             lookup c (columns t') = lookup c (columns (load w df_ventas))) /\
  exists rango,
    lookup "Rango_Precio" (columns t') = Some rango /\
    List.length (values rango) = List.length (values pvp) /\
    (forall i x, nth_error (values pvp) i = Some (Num x) ->
                 nth_error (values rango) i = Some (cut_number price_bins price_labels x)) /\
    (forall i, nth_error (values pvp) i = Some NA -> nth_error (values rango) i = Some NA).
Proof.
  intros Hin Hp Hnum t'.
  assert (Ht' : t' = setitem (load w df_ventas) "Rango_Precio"
                       (mkSeries category
                          (map (fun v => match v with
                                         | Num x => cut_number price_bins price_labels x
                                         | _ => NA
                                         end) (values pvp)))).
  { unfold t'. apply (create_pvp_analysis_assigns df_ventas w pvp); auto.
    now apply cut_numeric. }
  rewrite Ht'. split; [reflexivity|]. split.
  - intros c Hc. rewrite lookup_setitem.
    apply String.eqb_neq in Hc. now rewrite Hc.
  - eexists. split; [now rewrite lookup_setitem, String.eqb_refl|].
    cbn [values]. split; [apply length_map|]. split.
    + intros i x Hi. now rewrite nth_error_map, Hi.
    + intros i Hi. now rewrite nth_error_map, Hi.
Qed.

Lemma pvp_analysis_labels_each_row_witness :
  let w := mkWorld [SampleTables.ventas_pvp_10] [] in
  let t' := load (snd (create_pvp_analysis (L := Sample.sample_lib) 0%nat w)) 0%nat in
  nrows t' = nrows (load w 0%nat) /\
  (forall c, c <> "Rango_Precio" ->
             lookup c (columns t') = lookup c (columns (load w 0%nat))) /\
  exists rango,
    lookup "Rango_Precio" (columns t') = Some rango /\
    List.length (values rango) = List.length (values (Sample.floats [10])) /\
    (forall i x, nth_error (values (Sample.floats [10])) i = Some (Num x) ->
                 nth_error (values rango) i = Some (cut_number price_bins price_labels x)) /\
    (forall i, nth_error (values (Sample.floats [10])) i = Some NA ->
               nth_error (values rango) i = Some NA).
Proof.
  refine (pvp_analysis_labels_each_row (L := Sample.sample_lib) 0%nat
            (mkWorld [SampleTables.ventas_pvp_10] []) (Sample.floats [10]) _ eq_refl eq_refl).
  cbn. lia.
Defined.

(** ** The loader's cleaning *)

(** X14.  After type inference an object column is of one kind: either it
    is numeric and every cell is a number or missing, or it is text and
    every cell is a text, none missing.  The number of cells is kept. *)
Theorem inferred_column_is_uniform {L : Lib} (n : nat) (s : Series) :
  dtype_of s = object ->
  List.length (values (infer_column n s)) = List.length (values s) /\
  ((dtype_of (infer_column n s) = numeric /\
    SpecMargin.numeric_cells (infer_column n s)) \/
   (dtype_of (infer_column n s) = object /\
    forall v, In v (values (infer_column n s)) -> exists text, v = Str text)).
Proof.
  intro Hobj. unfold infer_column. rewrite Hobj. cbn [dtype_eqb].
  destruct (mostly_numeric _ n).
  - split; [apply length_map|]. left. split; [reflexivity|].
    unfold SpecMargin.numeric_cells, to_numeric. cbn [values].
    apply forallb_forall. intros v Hv. apply in_map_iff in Hv as (x & <- & _).
    destruct x; cbn; try reflexivity.
    + now destruct (parse_number s0).
  - split; [apply length_map|]. right. split; [reflexivity|].
    intros v Hv. cbn [as_text values] in Hv. apply in_map_iff in Hv as (x & <- & _).
    unfold as_text_cell. destruct (String.eqb _ "nan"); eauto.
Qed.

Lemma inferred_column_is_uniform_witness :
  let s := mkSeries object [Str "1"; Str "2"; Str "3"; NA; NA] in
  List.length (values (infer_column (L := Sample.sample_lib) 5 s)) = List.length (values s) /\
  ((dtype_of (infer_column (L := Sample.sample_lib) 5 s) = numeric /\
    SpecMargin.numeric_cells (infer_column (L := Sample.sample_lib) 5 s)) \/
   (dtype_of (infer_column (L := Sample.sample_lib) 5 s) = object /\
    forall v, In v (values (infer_column (L := Sample.sample_lib) 5 s)) ->
              exists text, v = Str text)).
Proof.
  exact (inferred_column_is_uniform (L := Sample.sample_lib) 5
           (mkSeries object [Str "1"; Str "2"; Str "3"; NA; NA]) eq_refl).
Defined.

Lemma count_true_repeat (n : nat) : count_true (repeat true n) = n.
Proof.
  unfold count_true. induction n as [|n IH]; cbn; [reflexivity|now rewrite IH].
Qed.

Lemma map_all_true (f : nat -> bool) (n from : nat) :
  (forall i, (from <= i < from + n)%nat -> f i = true) ->
  map f (seq from n) = repeat true n.
Proof.
  revert from. induction n as [|n IH]; intros from H; cbn; [reflexivity|].
  rewrite H by lia. f_equal. apply IH. intros i Hi. apply H. lia.
Qed.

(** X15.  What the cleaning drops.  Every column it keeps has a cell that
    is not missing.  A sheet without rows loses all its columns: the
    result is the empty table.  And since a text column renders its
    missing cells as empty texts before the rows are dropped, a table
    with a text column (not mostly numeric, one cell per row) keeps all
    its rows, the wholly missing ones too. *)
Theorem clean_drops_what_is_missing {L : Lib} (df : DataFrame) :
  (forall name s, In (name, s) (columns (clean df)) ->
                  exists v, In v (values s) /\ v <> NA) /\
  (nrows df = 0%nat -> clean df = empty_frame) /\
  (forall name s,
     In (name, s) (columns df) ->
     dtype_of s = object ->
     mostly_numeric (notna_count (to_numeric s)) (nrows df) = false ->
     List.length (values s) = nrows df ->
     nrows (clean df) = nrows df).
Proof.
  split; [|split].
  - intros name s Hin. unfold clean, dropna_columns in Hin. cbn [columns] in Hin.
    apply filter_In in Hin as [_ H]. cbn [snd] in H.
    apply existsb_exists in H as (v & Hv & Hna). exists v. split; [exact Hv|].
    intros ->. discriminate.
  - intro H0. unfold clean, dropna_rows, infer_types. cbn [nrows columns].
    rewrite H0. cbn [seq map]. unfold take, dropna_columns. cbn [nrows columns firstn].
    unfold empty_frame. f_equal.
    induction (columns df) as [|p r IH]; [reflexivity|].
    cbn [map filter fst snd values select existsb]. exact IH.
  - intros name s Hin Hobj Hnum Hlen.
    assert (Hmask : map (row_has_data (infer_types df)) (seq 0 (nrows df))
                    = repeat true (nrows df)).
    { apply map_all_true. intros i Hi. unfold row_has_data.
      apply existsb_exists. exists (name, infer_column (nrows df) s). split.
      - unfold infer_types. cbn [columns].
        apply in_map_iff. exists (name, s). split; [reflexivity|exact Hin].
      - cbn [snd]. unfold infer_column. rewrite Hobj. cbn [dtype_eqb]. rewrite Hnum.
        cbn [as_text values].
        assert (Hi' : (i < List.length (values s))%nat) by lia.
        rewrite (nth_indep _ NA (as_text_cell NA))
          by (rewrite length_map; exact Hi').
        rewrite map_nth. unfold as_text_cell.
        now destruct (String.eqb _ "nan"). }
    unfold clean, dropna_columns. cbn [nrows]. unfold dropna_rows.
    change (nrows (infer_types df)) with (nrows df). rewrite Hmask.
    unfold take. cbn [nrows].
    change (nrows (infer_types df)) with (nrows df).
    rewrite firstn_all2 by (rewrite repeat_length; lia).
    apply count_true_repeat.
Qed.

Lemma clean_drops_what_is_missing_witness :
  let df := mkFrame 2 [ ("Tienda", mkSeries object [Str "MADRID"; NA]);
                        ("Cantidad", mkSeries numeric [Num 1; NA]) ] in
  nrows (clean (L := Sample.sample_lib) df) = nrows df.
Proof.
  exact (proj2 (proj2 (clean_drops_what_is_missing (L := Sample.sample_lib)
                         (mkFrame 2 [ ("Tienda", mkSeries object [Str "MADRID"; NA]);
                                      ("Cantidad", mkSeries numeric [Num 1; NA]) ])))
           "Tienda" (mkSeries object [Str "MADRID"; NA])
           (or_introl eq_refl) eq_refl eq_refl eq_refl).
Defined.

(** ** The form of an upload *)

Lemma split_comma_length (s : string) :
  List.length (split_comma s) = S (SpecUpload.comma_count s).
Proof.
  induction s as [|c r IH]; [reflexivity|]. cbn [split_comma SpecUpload.comma_count].
  destruct (split_comma r) as [|p ps]; [discriminate|].
  destruct (Ascii.eqb c ","); cbn in *; lia.
Qed.

Lemma split_comma_join (s : string) :
  String.concat "," (split_comma s) = s.
Proof.
  induction s as [|c r IH]; [reflexivity|]. cbn [split_comma].
  destruct (split_comma r) as [|p ps] eqn:E.
  - pose proof (split_comma_length r) as H. rewrite E in H. discriminate.
  - destruct (Ascii.eqb_spec c ",") as [->|Hc].
    + change (String.concat "," (EmptyString :: p :: ps))
        with (String "," (String.concat "," (p :: ps))).
      now rewrite IH.
    + rewrite <- IH. destruct ps; reflexivity.
Qed.

Section Upload.
Context {L : Lib} {X : Excel}.

(** X16.  The loader takes the upload apart at its commas and goes on only
    when there is exactly one: the text before it is dropped and the text
    after it is the base64 payload.  With no comma or with several, the
    unpacking raises ValueError, which the loader turns into three empty
    tables and one printed line. *)
Theorem upload_needs_exactly_one_comma (contents name : string) (w : world) :
  (SpecUpload.comma_count contents = 1%nat ->
   exists header payload,
     unpack2 (split_comma contents) = Ok (header, payload) /\
     contents = header ++ "," ++ payload) /\
  (SpecUpload.comma_count contents <> 1%nat ->
   exists msg,
     unpack2 (split_comma contents) = Raise (ValueError msg) /\
     load_excel_data contents name w
     = (Ok (empty_frame, empty_frame, empty_frame),
        mkWorld (heap w) (stdout w ++ ["Error loading Excel file: " ++ msg]))).
Proof.
  pose proof (split_comma_length contents) as Hlen.
  pose proof (split_comma_join contents) as Hjoin.
  split; intro Hc.
  - rewrite Hc in Hlen.
    destruct (split_comma contents) as [|a [|b [|c l]]]; try discriminate.
    exists a, b. split; [reflexivity|]. rewrite <- Hjoin. reflexivity.
  - assert (exists msg, unpack2 (split_comma contents) = Raise (ValueError msg))
      as (msg & Hmsg).
    { destruct (split_comma contents) as [|a [|b [|c l]]]; cbn in Hlen;
        try (eexists; reflexivity).
      exfalso. apply Hc. lia. }
    exists msg. split; [exact Hmsg|].
    unfold load_excel_data, try_except, lift, load_excel_body.
    rewrite Hmsg. reflexivity.
Qed.

End Upload.

Lemma upload_needs_exactly_one_comma_witness :
  (exists header payload,
     unpack2 (split_comma SampleData.upload) = Ok (header, payload) /\
     SampleData.upload = header ++ "," ++ payload) /\
  (exists msg,
     unpack2 (split_comma "xlsx") = Raise (ValueError msg) /\
     load_excel_data (L := Sample.sample_lib) (X := SampleData.only_sales)
       "xlsx" "ventas.xlsx" SampleData.no_world
     = (Ok (empty_frame, empty_frame, empty_frame),
        mkWorld (heap SampleData.no_world)
                (stdout SampleData.no_world ++ ["Error loading Excel file: " ++ msg]))).
Proof.
  split.
  - exact (proj1 (upload_needs_exactly_one_comma (L := Sample.sample_lib)
                    (X := SampleData.only_sales) SampleData.upload "ventas.xlsx"
                    SampleData.no_world) eq_refl).
  - refine (proj2 (upload_needs_exactly_one_comma (L := Sample.sample_lib)
                     (X := SampleData.only_sales) "xlsx" "ventas.xlsx"
                     SampleData.no_world) _).
    cbn. lia.
Defined.

(** ** The callbacks *)

Import Callbacks.

(** X17.  The login checks no credential: the dashboard is shown exactly
    when the button was clicked with a user name and a password that are
    not empty, whatever they are; a click with one of them empty shows
    the warning, and without a session the login page is shown. *)
Theorem login_opens_for_any_filled_credentials
    (n_clicks : option Z) (username password : option string) :
  (display_page (Some (fst (handle_login n_clicks username password))) = dashboard_layout <->
   exists n user pass,
     n_clicks = Some n /\ n <> 0%Z /\
     username = Some user /\ user <> "" /\
     password = Some pass /\ pass <> "") /\
  (snd (handle_login n_clicks username password)
   = One (Alert "Por favor, introduce usuario y contraseña" "warning") <->
   (exists n, n_clicks = Some n /\ n <> 0%Z) /\
   (username = None \/ username = Some "" \/ password = None \/ password = Some "")) /\
  display_page None = login_layout.
Proof.
  unfold handle_login, clicked, filled, display_page.
  split; [|split; [|reflexivity]].
  - split.
    + destruct n_clicks as [n|]; [|discriminate].
      destruct (Z.eqb_spec n 0); [discriminate|].
      destruct username as [u|]; [|discriminate].
      destruct (String.eqb_spec u ""); [discriminate|].
      destruct password as [p|]; [|discriminate].
      destruct (String.eqb_spec p ""); [discriminate|].
      intros _. exists n, u, p. auto 10.
    + intros (n & u & p & -> & Hn & -> & Hu & -> & Hp).
      apply Z.eqb_neq in Hn. apply String.eqb_neq in Hu, Hp.
      now rewrite Hn, Hu, Hp.
  - split.
    + destruct n_clicks as [n|]; [|discriminate].
      destruct (Z.eqb_spec n 0); [discriminate|].
      intro H. split; [eauto|].
      destruct username as [u|]; [|auto].
      destruct (String.eqb_spec u "") as [->|Hu]; [auto|].
      destruct password as [p|]; [|auto].
      destruct (String.eqb_spec p "") as [->|Hp]; [auto|].
      discriminate H.
    + intros [(n & -> & Hn) H]. apply Z.eqb_neq in Hn. rewrite Hn. cbn.
      destruct H as [ -> | [ -> | [ -> | -> ] ] ]; cbn; try reflexivity.
      * destruct username as [u|]; [|reflexivity]. now destruct (String.eqb u "").
      * destruct username as [u|]; [|reflexivity]. now destruct (String.eqb u "").
Qed.

Section UploadCallback.
Context {L : Lib} {C : Charts} {X : Excel} {A : App}.

(** X18.  A failed parse is reported as a successful upload.  The loader
    has already turned the error into three empty tables, so the [except]
    clause of [handle_file_upload] is not reached: the callback stores the
    records of three empty tables and shows the success alert.  With an
    empty list of sales records, [update_main_content] then asks for a file
    again, and builds nothing. *)
Theorem failed_parse_is_stored_as_success
    (contents name section season family : string) (w : world) (e : exn) :
  SpecLoader.parse_error contents e ->
  (forall e', SpecLoader.parse_error contents e' -> is_Exception e' = true) ->
  no_records (to_records empty_frame) = true ->
  exists data w',
    handle_file_upload (Some contents) name w
    = (Ok (Some data,
           One (Alert ("Archivo " ++ name ++ " cargado correctamente") "success")), w') /\
    data = mkStored (to_records empty_frame) (to_records empty_frame)
                    (to_records empty_frame) name /\
    heap w' = heap w /\
    update_main_content "analisis" (Some data) section season family w'
    = (Ok (One (Alert "Sube el archivo Excel para comenzar el análisis." "info")), w').
Proof.
  intros He Hexc Hno.
  destruct (parse_error_body_raises contents e He) as (e' & Hbody).
  assert (He' : is_Exception e' = true)
    by (apply Hexc; now apply load_excel_body_raise).
  eexists _, _. split; [|split; [reflexivity|split]].
  - unfold handle_file_upload, try_except, bindM, load_excel_data, try_except, lift,
      print, ret.
    rewrite Hbody, He'. cbn. reflexivity.
  - reflexivity.
  - unfold update_main_content. cbn [String.eqb Ascii.eqb Bool.eqb].
    cbn [ventas]. now rewrite Hno.
Qed.

End UploadCallback.

Lemma sample_upload_fails :
  SpecLoader.parse_error (X := SampleData.only_sales) SampleData.upload
    (ValueError "Worksheet named 'Compra' not found").
Proof.
  eapply (SpecLoader.bad_sheet (X := SampleData.only_sales) SampleData.upload
            "data:application/vnd.ms-excel;base64" "xlsx" "xlsx" _ "Compra");
    try reflexivity.
  left. reflexivity.
Qed.

Lemma sample_upload_errors (e : exn) :
  SpecLoader.parse_error (X := SampleData.only_sales) SampleData.upload e ->
  is_Exception e = true.
Proof.
  intro H.
  destruct H as [e0 H0|h payload e1 H0 H1|h payload bytes e2 H0 H1 H2
                |h payload bytes xls sheet dtypes e3 H0 H1 H2 Hin H3].
  - discriminate H0.
  - discriminate H1.
  - injection H0 as <- <-. injection H1 as <-. discriminate H2.
  - injection H0 as <- <-. injection H1 as <-. injection H2 as <-.
    cbn in H3. destruct (String.eqb sheet "ventas 23 24 25"); [discriminate H3|].
    injection H3 as <-. reflexivity.
Qed.

Lemma failed_parse_is_stored_as_success_witness :
  exists data w',
    handle_file_upload (L := Sample.sample_lib) (X := SampleData.only_sales)
      (A := SampleExtra.sample_app) (Some SampleData.upload) "ventas.xlsx"
      SampleData.no_world
    = (Ok (Some data,
           One (Alert ("Archivo " ++ "ventas.xlsx" ++ " cargado correctamente") "success")),
       w') /\
    data = mkStored (A := SampleExtra.sample_app) empty_frame empty_frame empty_frame
             "ventas.xlsx" /\
    heap w' = heap SampleData.no_world /\
    update_main_content (L := Sample.sample_lib) (C := Sample.sample_charts)
      (A := SampleExtra.sample_app) "analisis" (Some data) "resumen" "all" "all" w'
    = (Ok (One (Alert "Sube el archivo Excel para comenzar el análisis." "info")), w').
Proof.
  exact (failed_parse_is_stored_as_success (L := Sample.sample_lib)
           (C := Sample.sample_charts) (X := SampleData.only_sales)
           (A := SampleExtra.sample_app)
           SampleData.upload "ventas.xlsx" "resumen" "all" "all" SampleData.no_world
           _ sample_upload_fails sample_upload_errors eq_refl).
Defined.

Lemma count_true_select_length {A : Type} (m : list bool) (l : list A) :
  List.length m = List.length l -> List.length (select m l) = count_true m.
Proof.
  unfold count_true. revert l. induction m as [|b m IH]; intros [|x l] H;
    cbn in H; try discriminate; [reflexivity|].
  injection H as H. destruct b; cbn; now rewrite IH.
Qed.

Lemma select_eq_text (x : string) (l : list value) :
  Forall (fun v => v = Str x) (select (map (eq_text x) l) l).
Proof.
  induction l as [|v l IH]; cbn; [constructor|].
  destruct (eq_text x v) eqn:E; [|exact IH].
  constructor; [|exact IH].
  destruct v; try discriminate. cbn in E. apply String.eqb_eq in E. now subst.
Qed.

(** X19.  A filter of the main page.  The value [all], or a table without
    the filter column, leaves the sales table as it is: a filter on a
    column that is missing is ignored without a message.  Otherwise the
    table keeps exactly the rows whose cell is the chosen text: every
    column is cut down to those rows, the filter column holds nothing but
    the chosen text, and the number of rows is the number of such cells. *)
Theorem filter_keeps_matching_rows (col x : string) (df : DataFrame) :
  apply_filter col "all" df = df /\
  (lookup col (columns df) = None -> apply_filter col x df = df) /\
  (forall s,
     x <> "all" ->
     lookup col (columns df) = Some s ->
     List.length (values s) = nrows df ->
     let mask := map (eq_text x) (values s) in
     nrows (apply_filter col x df) = count_true mask /\
     (forall c s', lookup c (columns df) = Some s' ->
                   lookup c (columns (apply_filter col x df))
                   = Some (mkSeries (dtype_of s') (select mask (values s')))) /\
     (forall i, nth i mask false = true <-> nth_error (values s) i = Some (Str x)) /\
     exists kept,
       lookup col (columns (apply_filter col x df)) = Some kept /\
       Forall (fun v => v = Str x) (values kept) /\
       List.length (values kept) = nrows (apply_filter col x df)).
Proof.
  split; [reflexivity|]. split.
  - intro H. unfold apply_filter. rewrite has_column_lookup, H.
    now destruct (negb (String.eqb x "all")).
  - intros s Hx Hs Hlen mask.
    assert (Hf : apply_filter col x df = take mask df).
    { unfold apply_filter. rewrite has_column_lookup, Hs.
      apply String.eqb_neq in Hx. now rewrite Hx. }
    rewrite Hf.
    assert (Hn : nrows (take mask df) = count_true mask).
    { unfold take. cbn [nrows]. rewrite firstn_all2; [reflexivity|].
      unfold mask. rewrite length_map. lia. }
    split; [exact Hn|]. split; [|split].
    + intros c s' Hc. now rewrite lookup_take, Hc.
    + intro i. unfold mask. split.
      * intro H. destruct (nth_error (values s) i) as [v|] eqn:Ev.
        -- rewrite (nth_indep _ false (eq_text x NA)) in H
             by (rewrite length_map; apply nth_error_Some; congruence).
           rewrite map_nth in H. rewrite (nth_error_nth _ _ NA Ev) in H.
           destruct v; try discriminate. cbn in H. apply String.eqb_eq in H.
           now subst.
        -- apply nth_error_None in Ev. rewrite nth_overflow in H; [discriminate|].
           now rewrite length_map.
      * intro Ev.
        rewrite (nth_indep _ false (eq_text x NA))
          by (rewrite length_map; apply nth_error_Some; congruence).
        rewrite map_nth, (nth_error_nth _ _ NA Ev). cbn. apply String.eqb_refl.
    + eexists. split; [now rewrite lookup_take, Hs|]. cbn [values]. split.
      * apply select_eq_text.
      * rewrite Hn. apply count_true_select_length. unfold mask. apply length_map.
Qed.

Lemma filter_keeps_matching_rows_witness :
  let df := SampleExtra.ventas_temporadas in
  let mask := map (eq_text "V24") (values (Sample.texts ["V24"; "I24"; "V24"])) in
  nrows (apply_filter "Temporada" "V24" df) = count_true mask /\
  (forall c s', lookup c (columns df) = Some s' ->
                lookup c (columns (apply_filter "Temporada" "V24" df))
                = Some (mkSeries (dtype_of s') (select mask (values s')))) /\
  (forall i, nth i mask false = true <->
             nth_error (values (Sample.texts ["V24"; "I24"; "V24"])) i = Some (Str "V24")) /\
  exists kept,
    lookup "Temporada" (columns (apply_filter "Temporada" "V24" df)) = Some kept /\
    Forall (fun v => v = Str "V24") (values kept) /\
    List.length (values kept) = nrows (apply_filter "Temporada" "V24" df).
Proof.
  refine (proj2 (proj2 (filter_keeps_matching_rows "Temporada" "V24"
                          SampleExtra.ventas_temporadas))
            (Sample.texts ["V24"; "I24"; "V24"]) _ eq_refl eq_refl).
  discriminate.
Defined.

Section MainContent.
Context {L : Lib} {C : Charts} {X : Excel} {A : App}.

Lemma update_main_content_steps
    (data : stored) (section season family : string) (w : world) :
  no_records (ventas data) = false ->
  let df_ventas :=
    apply_filter "Descripción Familia" family
      (apply_filter "Temporada" season (of_records (ventas data))) in
  let w3 := mkWorld (heap w ++ [of_records (productos data);
                                of_records (traspasos data); df_ventas]) (stdout w) in
  let n := List.length (heap w) in
  (empty df_ventas = true ->
   update_main_content "analisis" (Some data) section season family w
   = (Ok (One (Alert "No hay datos para mostrar con los filtros seleccionados."
                     "warning")), w)) /\
  (empty df_ventas = false ->
   update_main_content "analisis" (Some data) section season family w
   = create_dashboard_content n (S n) (S (S n)) section w3).
Proof.
  intros Hno df_ventas w3 n. unfold update_main_content.
  cbn [String.eqb Ascii.eqb Bool.eqb]. rewrite Hno. fold df_ventas. split.
  - intro He. now rewrite He.
  - intro He. rewrite He. unfold bindM, new, ret. cbn [heap stdout].
    rewrite !length_app. cbn [List.length].
    replace (List.length (heap w) + 1)%nat with (S n) by (unfold n; lia).
    replace (S n + 1)%nat with (S (S n)) by lia.
    rewrite <- !app_assoc. cbn [app].
    fold n. fold w3. reflexivity.
Qed.

(** The three tables [update_main_content] creates, in the store. *)
Lemma main_content_tables
    (data : stored) (season family : string) (w : world) :
  let df_ventas :=
    apply_filter "Descripción Familia" family
      (apply_filter "Temporada" season (of_records (ventas data))) in
  let w3 := mkWorld (heap w ++ [of_records (productos data);
                                of_records (traspasos data); df_ventas]) (stdout w) in
  let n := List.length (heap w) in
  List.length (heap w3) = (n + 3)%nat /\
  (forall r0, (r0 < n)%nat -> load w3 r0 = load w r0) /\
  load w3 n = of_records (productos data) /\
  load w3 (S (S n)) = df_ventas.
Proof.
  intros df_ventas w3 n. split; [|split; [|split]].
  - unfold w3. cbn [heap]. rewrite length_app. reflexivity.
  - intros r0 Hr0. unfold load, w3. cbn [heap]. now rewrite app_nth1.
  - unfold load, w3, n. cbn [heap]. apply nth_middle.
  - unfold load, w3. cbn [heap]. rewrite app_nth2 by (fold n; lia). fold n.
    replace (S (S n) - n)%nat with 2%nat by lia. reflexivity.
Qed.


End MainContent.


Example ex_main_content_unknown_section :
  fst (update_main_content (L := Sample.sample_lib) (C := Sample.sample_charts)
         (A := SampleExtra.sample_app) "analisis"
         (Some (mkStored (A := SampleExtra.sample_app) SampleTables.productos empty_frame
                  SampleExtra.ventas_temporadas "ventas.xlsx"))
         "otra" "V24" "all" SampleData.no_world)
  = Ok (One (Alert "Sección no implementada" "info")).
Proof. vm_compute. reflexivity. Qed.

Section MainContentErrors.
Context {L : Lib} {C : Charts} {A : App}.

(** X21.  The error of the cost join reaches the page.  With stored sales
    records, filters that leave at least one row, the product code in both
    tables and no cost column in the stored products, [update_main_content]
    raises the KeyError of the column selection for every section: no alert
    is shown in its place. *)
Theorem main_content_raises_without_products_cost
    (data : stored) (section season family : string) (w : world) (lk rk : Series) :
  no_records (ventas data) = false ->
  let df_ventas :=
    apply_filter "Descripción Familia" family
      (apply_filter "Temporada" season (of_records (ventas data))) in
  empty df_ventas = false ->
  lookup "Código único" (columns df_ventas) = Some lk ->
  lookup "Código único" (columns (of_records (productos data))) = Some rk ->
  lookup "Precio Coste" (columns (of_records (productos data))) = None ->
  fst (update_main_content "analisis" (Some data) section season family w)
  = Raise (KeyError "['Precio Coste'] not in index").
Proof.
  intros Hno df_ventas He Elk Erk Epc.
  destruct (update_main_content_steps data section season family w Hno) as [_ H2].
  rewrite (H2 He).
  destruct (main_content_tables data season family w) as (Hlen & Hold & Hp & Hv).
  set (n := List.length (heap w)) in *.
  set (w3 := mkWorld _ _) in *.
  apply (create_dashboard_content_keyerror n (S n) (S (S n)) section w3 lk rk);
    try lia.
  - now rewrite Hv.
  - now rewrite Hp.
  - now rewrite Hp.
Qed.

End MainContentErrors.

Lemma main_content_raises_without_products_cost_witness :
  let data := mkStored (A := SampleExtra.sample_app) SampleExtra.productos_sin_coste
                empty_frame SampleTables.ventas "ventas.xlsx" in
  fst (update_main_content (L := Sample.sample_lib) (C := Sample.sample_charts)
         (A := SampleExtra.sample_app) "analisis" (Some data) "resumen" "all" "all"
         SampleData.no_world)
  = Raise (KeyError "['Precio Coste'] not in index").
Proof.
  exact (main_content_raises_without_products_cost (L := Sample.sample_lib)
           (C := Sample.sample_charts) (A := SampleExtra.sample_app)
           (mkStored (A := SampleExtra.sample_app) SampleExtra.productos_sin_coste
              empty_frame SampleTables.ventas "ventas.xlsx")
           "resumen" "all" "all" SampleData.no_world
           (Sample.texts ["A1"; "B2"]) (Sample.texts ["A1"; "B2"])
           eq_refl eq_refl eq_refl eq_refl eq_refl).
Defined.
